(** * FoXYiZ test engine: a shallow embedding of [fEngine.py] and of the
    dispatcher [runAction] of [x/xActions.py].

    The engine reads three tables (Plans, Actions, Designs), resolves the
    per-design placeholders of every action, looks the action up in a
    process-wide cache, dispatches it to a provider and aggregates the
    rows into a result table.  Providers (browser, HTTP, AI, ...) stay
    abstract: they are named operations over a hidden world.

    Texts are strings of [ascii] and stand for ASCII text: character
    classes (word characters, white space, digits, case) are those
    Python gives the characters below 128, and nothing is claimed about
    text with other characters.  [is_ascii] makes the restriction
    explicit in the statements on word boundaries and on [float]. *)

From Stdlib Require Import ZArith Ascii String List Bool Lia.
From Corelib Require Import Floats.SpecFloat.
From stdpp Require Import base option strings gmap.

Import ListNotations.
Local Open Scope string_scope.

(** ** Python values read from a CSV *)

(** A cell as [pandas.read_csv] hands it over: text, or a scalar that is
    not a [str] (a blank cell read as NaN, a numpy integer, float or
    boolean), kept with its [str()] rendering. *)
Inductive cell : Type :=
| CStr (s : string)
| CNum (repr : string).

(** [str(x)] / [astype(str)] *)
Definition py_str (c : cell) : string :=
  match c with
  | CStr s => s
  | CNum r => r
  end.

(** [x.startswith('P')] *)
Definition startswith_P (x : string) : bool :=
  match x with
  | String c _ => Ascii.eqb c "P"
  | EmptyString => false
  end.

(** The lambda of [load_csv]: [x if x.startswith('P') else 'P' + x],
    applied after [astype(str)]. *)
Definition fix_PlanId (c : cell) : string :=
  let x := py_str c in
  if startswith_P x then x else "P" ++ x.

(** ** The three tables

    A row is indexed by the type of its [PlanId]: a [cell] as parsed, a
    [string] once [load_csv] has rewritten the column.  The other columns
    are kept by the text the engine reads from them ([str(...)], an
    f-string, or a comparison with a string literal). *)

Record plans_row (I : Type) : Type := PlanRow {
  PlanId : I;
  DesignId : string;
  Run : string
}.
Arguments PlanRow {I} _ _ _.
Arguments PlanId {I} _.
Arguments DesignId {I} _.
Arguments Run {I} _.

Record actions_row (I : Type) : Type := ActionRow {
  aPlanId : I;
  StepId : string;
  StepInfo : string;
  ActionType : string;
  ActionName : string;
  Input : string;
  Expected : string;
  Critical : string
}.
Arguments ActionRow {I} _ _ _ _ _ _ _ _.
Arguments aPlanId {I} _.
Arguments StepId {I} _.
Arguments StepInfo {I} _.
Arguments ActionType {I} _.
Arguments ActionName {I} _.
Arguments Input {I} _.
Arguments Expected {I} _.
Arguments Critical {I} _.

(** A Designs row: the placeholder and one value per design column
    (already through [str(row[design_id])]). *)
Record design_row : Type := DesignRow {
  DataName : cell;
  DataValue : list string
}.

(** The Designs table: its design columns (every column but [Type] and
    [DataName]) and its rows, whose values follow the columns. *)
Record designs_table : Type := DesignsTable {
  design_columns : list string;
  design_rows : list design_row
}.

(** [load_csv] on a table with a [PlanId] column: the column is
    rewritten row by row. *)
Definition fix_plans_row (r : plans_row cell) : plans_row string :=
  PlanRow (fix_PlanId (PlanId r)) (DesignId r) (Run r).

Definition fix_actions_row (r : actions_row cell) : actions_row string :=
  ActionRow (fix_PlanId (aPlanId r)) (StepId r) (StepInfo r) (ActionType r) (ActionName r)
    (Input r) (Expected r) (Critical r).

Definition load_csv_plans (rows : list (plans_row cell)) : list (plans_row string) :=
  map fix_plans_row rows.

Definition load_csv_actions (rows : list (actions_row cell)) : list (actions_row string) :=
  map fix_actions_row rows.

(** [y2_actions[y2_actions['PlanId'] == plan_id]] *)
Definition actions_of (plan_id : string) (y2_actions : list (actions_row string))
  : list (actions_row string) :=
  List.filter (fun a => String.eqb (aPlanId a) plan_id) y2_actions.

(** [y1_plans[y1_plans['PlanId'] == reused_plan_id]] *)
Definition plans_with_id (plan_id : string) (y1_plans : list (plans_row string))
  : list (plans_row string) :=
  List.filter (fun p => String.eqb (PlanId p) plan_id) y1_plans.

(** [y1_plans[y1_plans['Run'] == 'Y']] *)
Definition plans_to_run (y1_plans : list (plans_row string)) : list (plans_row string) :=
  List.filter (fun p => String.eqb (Run p) "Y") y1_plans.

(** ** Exceptions *)

(** The Python exceptions the engine can let escape.  A [TypeError]
    is raised inside a library function ([re.escape], [re.split], [+=])
    on a value that is not text; its message names the type of that
    value and is not kept. *)
Inductive exn : Type :=
| FileNotFoundError (path : string)
| ValueError (msg : string)
| TypeError
| KeyError (key : string).

(** ** Substitution Resolver

    [re.sub(r'\b' + re.escape(data_name) + r'\b', lambda m: data_value, text)]:
    the pattern is the literal token between two word boundaries. *)

(** [\w] on a character below 128 *)
Definition is_word_char (c : ascii) : bool :=
  let n := nat_of_ascii c in
  (Nat.leb 48 n && Nat.leb n 57) || (Nat.leb 65 n && Nat.leb n 90)
  || (Nat.leb 97 n && Nat.leb n 122) || Nat.eqb n 95.

Definition word_at (c : option ascii) : bool :=
  match c with
  | Some a => is_word_char a
  | None => false
  end.

(** [\b] between two neighbours; [None] is an end of the text. *)
Definition word_boundary (before after : option ascii) : bool :=
  xorb (word_at before) (word_at after).

Definition head_char (s : string) : option ascii :=
  match s with
  | String c _ => Some c
  | EmptyString => None
  end.

(** The literal [tok] read off the front of [s]: the last character
    consumed (or [prev] when [tok] is empty) and the rest of the text. *)
Fixpoint match_literal (tok s : string) (prev : option ascii) : option (option ascii * string) :=
  match tok with
  | EmptyString => Some (prev, s)
  | String t tok' =>
      match s with
      | String c s' => if Ascii.eqb t c then match_literal tok' s' (Some c) else None
      | EmptyString => None
      end
  end.

(** The pattern matches at the front of [s], [prev] being the character
    before it. *)
Definition match_here (tok : string) (prev : option ascii) (s : string) : bool :=
  word_boundary prev (head_char s) &&
  match match_literal tok s prev with
  | Some (last, rest) => word_boundary last (head_char rest)
  | None => false
  end.

(** The left-to-right scan of [re.sub]; [skip] counts the characters of
    a match still to be consumed. *)
Fixpoint re_sub_from (tok repl : string) (prev : option ascii) (skip : nat) (s : string) : string :=
  match s with
  | EmptyString => if Nat.eqb skip 0 && match_here tok prev "" then repl else ""
  | String c rest =>
      match skip with
      | S k => re_sub_from tok repl (Some c) k rest
      | O =>
          if match_here tok prev s then
            match String.length tok with
            | O => repl ++ String c (re_sub_from tok repl (Some c) 0 rest)
            | S k => repl ++ re_sub_from tok repl (Some c) k rest
            end
          else String c (re_sub_from tok repl (Some c) 0 rest)
      end
  end.

Definition re_sub (tok repl text : string) : string :=
  re_sub_from tok repl None 0 text.

(** [re.search] with the same pattern: the token occurs as a whole word. *)
Fixpoint re_search_from (tok : string) (prev : option ascii) (s : string) : bool :=
  match_here tok prev s ||
  match s with
  | String c rest => re_search_from tok (Some c) rest
  | EmptyString => false
  end.


(** The body of the loop over the Designs rows, for the design column at
    position [col]: [re.escape] refuses a [DataName] that is not a [str]. *)
Definition substitute_row (col : nat) (row : design_row) (texts : string * string)
  : exn + (string * string) :=
  match DataName row with
  | CNum _ => inl TypeError
  | CStr data_name =>
      let data_value := nth col (DataValue row) "nan" in
      inr (re_sub data_name data_value (fst texts), re_sub data_name data_value (snd texts))
  end.

Fixpoint substitute_rows (col : nat) (rows : list design_row) (texts : string * string)
  : exn + (string * string) :=
  match rows with
  | [] => inr texts
  | row :: more =>
      match substitute_row col row texts with
      | inl e => inl e
      | inr texts' => substitute_rows col more texts'
      end
  end.

Definition not_a_design_column (col : string) : bool :=
  String.eqb col "Type" || String.eqb col "DataName".

(** [for col in y3_designs.columns: if col not in ['Type', 'DataName']:
    if col == design_id: for _, row in y3_designs.iterrows(): ...] *)
Fixpoint substitute_columns (cols : list string) (col : nat) (rows : list design_row)
  (design_id : string) (texts : string * string) : exn + (string * string) :=
  match cols with
  | [] => inr texts
  | c :: more =>
      if negb (not_a_design_column c) && String.eqb c design_id then
        match substitute_rows col rows texts with
        | inl e => inl e
        | inr texts' => substitute_columns more (S col) rows design_id texts'
        end
      else substitute_columns more (S col) rows design_id texts
  end.

(** The resolved [(input_data, expected)] of an action under a design. *)
Definition resolve (y3_designs : designs_table) (design_id : string)
  (input_data expected : string) : exn + (string * string) :=
  substitute_columns (design_columns y3_designs) 0 (design_rows y3_designs)
    design_id (input_data, expected).

(** ** Action Cache *)

(** [cache_key = f"{plan_id}_{step_id}_{input_data}"] *)
Definition cache_key (plan_id step_id input_data : string) : string :=
  plan_id ++ "_" ++ step_id ++ "_" ++ input_data.

(** The text holds no underscore. *)
Fixpoint no_underscore (s : string) : bool :=
  match s with
  | EmptyString => true
  | String c rest => negb (Ascii.eqb c "_") && no_underscore rest
  end.

(** ** Python text helpers *)

Definition in_range (lo hi : nat) (c : ascii) : bool :=
  Nat.leb lo (nat_of_ascii c) && Nat.leb (nat_of_ascii c) hi.

(** [ch.lower()] on ASCII *)
Definition lower_char (c : ascii) : ascii :=
  if in_range 65 90 c then ascii_of_nat (nat_of_ascii c + 32) else c.

(** [s.lower()] *)
Fixpoint lower (s : string) : string :=
  match s with
  | EmptyString => EmptyString
  | String c rest => String (lower_char c) (lower rest)
  end.

(** Python's white space below 128: tab to carriage return, the four
    separators 28 to 31, and the blank. *)
Definition is_space (c : ascii) : bool :=
  in_range 9 13 c || in_range 28 32 c.

Fixpoint lstrip (s : string) : string :=
  match s with
  | String c rest => if is_space c then lstrip rest else s
  | EmptyString => EmptyString
  end.

Fixpoint rstrip (s : string) : string :=
  match s with
  | EmptyString => EmptyString
  | String c rest =>
      match rstrip rest with
      | EmptyString => if is_space c then EmptyString else String c EmptyString
      | rest' => String c rest'
      end
  end.

(** [s.strip()] *)
Definition strip (s : string) : string := rstrip (lstrip s).

(** Every character of the text is below 128. *)
Fixpoint is_ascii (text : string) : bool :=
  match text with
  | EmptyString => true
  | String c rest => Nat.ltb (nat_of_ascii c) 128 && is_ascii rest
  end.

(** The white space [float()] and [int()] skip at the two ends of a
    text: C's [isspace], tab to carriage return and the blank, without
    the separators 28 to 31 that [str.strip] removes. *)
Definition is_c_space (c : ascii) : bool :=
  in_range 9 13 c || Ascii.eqb c " ".

Fixpoint lstrip_c (s : string) : string :=
  match s with
  | String c rest => if is_c_space c then lstrip_c rest else s
  | EmptyString => EmptyString
  end.

Fixpoint rstrip_c (s : string) : string :=
  match s with
  | EmptyString => EmptyString
  | String c rest =>
      match rstrip_c rest with
      | EmptyString => if is_c_space c then EmptyString else String c EmptyString
      | rest' => String c rest'
      end
  end.

Definition strip_c (s : string) : string := rstrip_c (lstrip_c s).

(** [x in names] for a list of string literals *)
Definition in_list (x : string) (names : list string) : bool :=
  existsb (String.eqb x) names.

(** ** Floats: [float(text)] and the tolerance test

    Python floats are IEEE binary64; [float()] rounds the decimal it
    reads to the nearest double, ties to even.  The model is [spec_float]
    at precision 53, and the conversion is done on integers: the digits
    times a power of ten, or divided by one, rounded once. *)

Definition prec : Z := 53.
Definition emax : Z := 1024.

Definition digit_of (c : ascii) : option Z :=
  if in_range 48 57 c then Some (Z.of_nat (nat_of_ascii c) - 48)%Z else None.

(** The rest of a [digitpart ::= digit (["_"] digit)*] once a digit has
    been read: the value so far, the number of digits read, what is left. *)
Fixpoint digitpart_rest (s : string) (acc : Z) (n : nat) : Z * nat * string :=
  match s with
  | String c rest =>
      match digit_of c with
      | Some d => digitpart_rest rest (10 * acc + d)%Z (S n)
      | None =>
          if Ascii.eqb c "_" then
            match rest with
            | String c' rest' =>
                match digit_of c' with
                | Some d => digitpart_rest rest' (10 * acc + d)%Z (S n)
                | None => (acc, n, s)
                end
            | EmptyString => (acc, n, s)
            end
          else (acc, n, s)
      end
  | EmptyString => (acc, n, s)
  end.

Definition digitpart (s : string) (acc : Z) : option (Z * nat * string) :=
  match s with
  | String c rest =>
      match digit_of c with
      | Some d => Some (digitpart_rest rest (10 * acc + d)%Z 1)
      | None => None
      end
  | EmptyString => None
  end.

(** [sign ::= "+" | "-"], optional: negative?, and what follows. *)
Definition read_sign (s : string) : bool * string :=
  match s with
  | String c rest =>
      if Ascii.eqb c "-" then (true, rest)
      else if Ascii.eqb c "+" then (false, rest)
      else (false, s)
  | EmptyString => (false, s)
  end.

(** [number ::= [digitpart] "." digitpart | digitpart ["."]]: the digits
    as one integer, how many of them stand after the point, the rest. *)
Definition read_number (s : string) : option (Z * nat * string) :=
  match digitpart s 0 with
  | Some (m, _, rest) =>
      match rest with
      | String c after_point =>
          if Ascii.eqb c "." then
            match digitpart after_point m with
            | Some r => Some r
            | None => Some (m, O, after_point)
            end
          else Some (m, O, rest)
      | EmptyString => Some (m, O, rest)
      end
  | None =>
      match s with
      | String c after_point => if Ascii.eqb c "." then digitpart after_point 0 else None
      | EmptyString => None
      end
  end.

(** [exponent ::= ("e" | "E") [sign] digitpart], optional; the text must
    end after it. *)
Definition read_exponent (s : string) : option Z :=
  match s with
  | EmptyString => Some 0%Z
  | String c rest =>
      if Ascii.eqb (lower_char c) "e" then
        let '(neg, digits) := read_sign rest in
        match digitpart digits 0 with
        | Some (e, _, EmptyString) => Some (if neg then (- e)%Z else e)
        | _ => None
        end
      else None
  end.

(** The double nearest to [m * 10 ^ e10], with sign [neg]. *)
Definition decimal_to_float (neg : bool) (m : Z) (e10 : Z) : spec_float :=
  match m with
  | Zpos p =>
      if (0 <=? e10)%Z then
        binary_normalize prec emax (if neg then - (m * 10 ^ e10) else m * 10 ^ e10)%Z 0 false
      else
        SFdiv prec emax (S754_finite neg p 0) (S754_finite false (Z.to_pos (10 ^ (- e10))) 0)
  | _ => S754_zero neg
  end.

(** [float(text)]: [None] is the [ValueError] of a text that is no
    number. *)
Definition py_float (text : string) : option spec_float :=
  let '(neg, body) := read_sign (strip_c text) in
  if in_list (lower body) ["inf"; "infinity"] then Some (S754_infinity neg)
  else if String.eqb (lower body) "nan" then Some S754_nan
  else
    match read_number body with
    | Some (m, frac, rest) =>
        match read_exponent rest with
        | Some e => Some (decimal_to_float neg m (e - Z.of_nat frac))
        | None => None
        end
    | None => None
    end.

(** The literal [1e-6]. *)
Definition tolerance : spec_float :=
  decimal_to_float false 1 (-6).

(** [abs(expected_float - actual_float) < 1e-6] *)
Definition within_tolerance (expected_float actual_float : spec_float) : bool :=
  SFltb (SFabs (SFsub prec emax expected_float actual_float)) tolerance.

(** ** Action results *)

Inductive Result : Type := Pass | Fail.

Definition Result_eqb (a b : Result) : bool :=
  match a, b with
  | Pass, Pass | Fail, Fail => true
  | _, _ => false
  end.

(** A row of the result table.  The wall-clock [Time] column is left
    out; [res_Critical] is the key only freshly executed rows carry. *)
Record action_result : Type := ActionResult {
  res_DesignId : string;
  res_PlanId : string;
  res_StepId : string;
  res_StepInfo : string;
  res_ActionType : string;
  res_ActionName : string;
  res_Input : string;
  res_Output : string;
  res_Expected : string;
  res_Critical : option string;
  res_Result : Result;
  res_TimeTaken : Z
}.

(** ** Providers

    The handlers of [xActions.py] drive a browser, an HTTP client and a
    chat API.  The engine sees them as named operations over a hidden
    world (the shared browser session, the last API response, the
    clock): an operation returns text, as every [x...] method of the
    handlers does, or raises, and moves the world.  [getattr] also
    reaches what is no operation: a helper method or a class, whose
    result is not text. *)

(** What [float(value)] makes of a value that is not text. *)
Inductive conversion : Type :=
| Number (x : spec_float)
| NotANumber
| Refused (message : string).

(** A value that is not a [str] (a list, a number, [None], a handler),
    by what [runAction] asks of it: its truth value, its [str()], and
    its [float()], which is a number, a [ValueError] ([NotANumber]) or
    another exception with its message (a [TypeError] as a rule). *)
Record py_object : Type := PyObject {
  obj_bool : bool;
  obj_str : string;
  obj_float : conversion
}.

Inductive reply : Type :=
| Returned (vOut : string)
| Raised (message : string)
| ReturnedObject (vOut : py_object).

(** What [inspect.signature] tells the dispatcher: call [method()] or
    [method(aIn)].  An attribute that cannot be called, or called with
    one argument, is a method that raises and leaves the world alone. *)
Inductive method (World : Type) : Type :=
| Nullary (call : World -> reply * World)
| Unary (call : string -> World -> reply * World).
Arguments Nullary {World} _.
Arguments Unary {World} _.

Definition invoke {World : Type} (m : method World) (aIn : string) (w : World) : reply * World :=
  match m with
  | Nullary call => call w
  | Unary call => call aIn w
  end.

Record provider (World : Type) : Type := Provider {
  (** [getattr(handler, aName, None)] on the handler of category [aT];
      [None] also stands for an attribute that is falsy *)
  getattr : string -> string -> option (method World);
  (** [time.time() - start_time] between two worlds *)
  elapsed : World -> World -> Z;
  (** [_sanitize_error_message] *)
  sanitize_error_message : string -> string;
  (** the name of the failure screenshot, when a driver is up and
      [save_screenshot] came back: plan, design and step ids; [None]
      when no driver is up, or when the driver refused with the
      WebDriverException that [runAction] catches *)
  save_screenshot : World -> string -> string -> string -> option string;
  (** [handler.save_output_to_file(vOut, plan_id, design_id, step_id,
      results_dir)] on a [vOut] that is text *)
  save_output_to_file : World -> string -> string -> string -> string -> string
}.
Arguments getattr {World} _ _ _.
Arguments elapsed {World} _ _ _.
Arguments sanitize_error_message {World} _ _.
Arguments save_screenshot {World} _ _ _ _ _.
Arguments save_output_to_file {World} _ _ _ _ _ _.

(** The keys of [handlers] bound to a handler ([xSAP] is bound to
    [None]). *)
Definition handlers : list string := ["xUI"; "xMath"; "xAPI"; "xAI"; "xJSON"].

(** [aExpected and str(aExpected).lower() not in ['nan', 'none', '']] *)
Definition expected_present (aExpected : string) : bool :=
  negb (String.eqb aExpected "") && negb (in_list (lower aExpected) ["nan"; "none"; ""]).

(** The [try: float ... except ValueError: ...] comparison. *)
Definition compare_output (aExpected vOut : string) : Result :=
  match py_float aExpected, py_float vOut with
  | Some expected_float, Some actual_float =>
      if within_tolerance expected_float actual_float then Pass else Fail
  | _, _ => if String.eqb aExpected vOut then Pass else Fail
  end.

(** The same comparison against a [vOut] that is not text: [inl] is the
    message of the exception of [float(vOut)] that [except ValueError]
    does not catch. *)
Definition compare_object (aExpected : string) (vOut : py_object) : string + Result :=
  match py_float aExpected with
  | Some expected_float =>
      match obj_float vOut with
      | Number actual_float =>
          inr (if within_tolerance expected_float actual_float then Pass else Fail)
      | NotANumber => inr (if String.eqb aExpected (obj_str vOut) then Pass else Fail)
      | Refused message => inl message
      end
  | None => inr (if String.eqb aExpected (obj_str vOut) then Pass else Fail)
  end.

Section Dispatcher.
Context {World : Type} (P : provider World).

Definition error_output (aName message : string) : string :=
  "Error in " ++ aName ++ ": " ++ sanitize_error_message P message.

(** The [try] block of [runAction]: result, [vOut] (text, or the value
    as the operation returned it), world after. *)
Definition dispatch (aT aName aIn aExpected : string) (w : World)
  : Result * (string + py_object) * World :=
  if String.eqb aT "xReuse" then (Pass, inl ("Reused plan: " ++ aName), w)
  else
    match getattr P aT aName with
    | None => (Fail, inl (error_output aName ("Unknown " ++ aT ++ " action: " ++ aName)), w)
    | Some m =>
        match invoke m aIn w with
        | (Returned vOut, w') =>
            (if expected_present aExpected then compare_output aExpected vOut else Pass,
             inl vOut, w')
        | (Raised message, w') => (Fail, inl (error_output aName message), w')
        | (ReturnedObject vOut, w') =>
            if expected_present aExpected then
              match compare_object aExpected vOut with
              | inr vRes => (vRes, inr vOut, w')
              | inl message => (Fail, inl (error_output aName message), w')
              end
            else (Pass, inr vOut, w')
        end
    end.

(** [runAction(aT, aName, aIn, aOut, aExpected, plan_id, design_id,
    step_id, results_dir, handler, timeout)], called as [process_action]
    calls it (the UI handler is passed for [xUI] only).  The error log
    and the artifact files it writes are not read back by the engine.

    After the [try] block nothing is guarded.  A [vOut] that is not text
    and is truthy makes [re.split] in [save_output_to_file] raise
    TypeError; a falsy one is handed back as it is and returned as its
    [str()].  When the link to a screenshot is to be appended, [+=]
    raises on it, or extends it (a list) to a truthy value that
    [re.split] refuses. *)
Definition runAction (aT aName aIn aExpected plan_id design_id step_id : string) (w : World)
  : (exn + (Result * string * Z)) * World :=
  if negb (in_list aT handlers) then (inl (ValueError ("Unknown action type: " ++ aT)), w)
  else
    match dispatch aT aName aIn aExpected w with
    | (vRes, inl vOut, w') =>
        let time_taken := elapsed P w w' in
        let vOut :=
          if String.eqb aT "xUI" && Result_eqb vRes Fail then
            match save_screenshot P w' plan_id design_id step_id with
            | Some screenshot_name => vOut ++ " [Link to " ++ screenshot_name ++ "]"
            | None => vOut
            end
          else vOut in
        let vOut := save_output_to_file P w' vOut plan_id design_id step_id in
        (inr (vRes, vOut, time_taken), w')
    | (vRes, inr vOut, w') =>
        let time_taken := elapsed P w w' in
        let linked :=
          if String.eqb aT "xUI" && Result_eqb vRes Fail then
            match save_screenshot P w' plan_id design_id step_id with
            | Some _ => true
            | None => false
            end
          else false in
        if linked || obj_bool vOut then (inl TypeError, w')
        else (inr (vRes, obj_str vOut, time_taken), w')
    end.

End Dispatcher.

(** ** Files on disk *)

(** A suite configuration: [input_files][...][0] for the three tables. *)
Record suite_config : Type := SuiteConfig {
  yPlans : string;
  yActions : string;
  yDesigns : string
}.

(** What [open] and [pd.read_csv] find under a path; [None] is a missing
    file.  The disk does not change during a run. *)
Record disk : Type := Disk {
  main_config_at : string -> option (list string);
  ypad_config_at : string -> option suite_config;
  plans_csv_at : string -> option (list (plans_row cell));
  actions_csv_at : string -> option (list (actions_row cell));
  designs_csv_at : string -> option designs_table
}.

(** [load_config] and [load_csv]: a missing file raises. *)
Definition load {A : Type} (at_path : string -> option A) (path : string) : exn + A :=
  match at_path path with
  | Some content => inr content
  | None => inl (FileNotFoundError path)
  end.

Definition load_plans (fs : disk) (path : string) : exn + list (plans_row string) :=
  match load (plans_csv_at fs) path with
  | inr rows => inr (load_csv_plans rows)
  | inl e => inl e
  end.

Definition load_actions (fs : disk) (path : string) : exn + list (actions_row string) :=
  match load (actions_csv_at fs) path with
  | inr rows => inr (load_csv_actions rows)
  | inl e => inl e
  end.

(** ** Engine state and outcomes *)

(** The process-wide state: the global [action_cache] and the world of
    the providers. *)
Record state (World : Type) : Type := State {
  action_cache : gmap string (Result * string * Z);
  world : World
}.
Arguments State {World} _ _.
Arguments action_cache {World} _.
Arguments world {World} _.

(** How a call ends: it returns, an exception escapes it, or the
    recursion budget of the model ran out before it ended. *)
Inductive outcome (A : Type) : Type :=
| Returns (a : A)
| Raises (e : exn)
| Unfinished.
Arguments Returns {A} _.
Arguments Raises {A} _.
Arguments Unfinished {A}.

Definition is_critical (critical : string) : bool :=
  in_list (lower (strip critical)) ["y"; "yes"; "true"; "1"].

(** [text.split(';')] *)
Fixpoint split_semicolon (text : string) : list string :=
  match text with
  | EmptyString => [EmptyString]
  | String c rest =>
      if Ascii.eqb c ";" then EmptyString :: split_semicolon rest
      else
        match split_semicolon rest with
        | part :: parts => String c part :: parts
        | [] => [String c EmptyString]
        end
  end.

Section Engine.
Context {World : Type} (P : provider World) (fs : disk).

Abbreviation engine A := (state World -> outcome A * state World).

(** The loop over the reused plan's actions: [Some] is the failed row
    that [process_action] returns at once, [None] falls through to
    [runAction]. *)
Fixpoint reuse_loop (run : actions_row string -> engine action_result)
  (reused_actions : list (actions_row string)) : engine (option action_result) :=
  fun st =>
    match reused_actions with
    | [] => (Returns None, st)
    | reused_action :: more =>
        match run reused_action st with
        | (Returns action_result, st') =>
            if String.eqb (res_ActionType action_result) "xUI"
               && String.eqb (res_ActionName action_result) "xOpenBrowser"
            then reuse_loop run more st'
            else if Result_eqb (res_Result action_result) Fail
            then (Returns (Some action_result), st')
            else reuse_loop run more st'
        | (Raises e, st') => (Raises e, st')
        | (Unfinished, st') => (Unfinished, st')
        end
    end.

(** The tail of [process_action]: run the action, cache, build the row. *)
Definition execute_action (plan_id design_id : string) (action_row : actions_row string)
  (input_data expected : string) : engine action_result :=
  fun st =>
    match runAction P (ActionType action_row) (ActionName action_row) input_data expected
            plan_id design_id (StepId action_row) (world st) with
    | (inl e, w) => (Raises e, State (action_cache st) w)
    | (inr (result, output, time_taken), w) =>
        (Returns
           (ActionResult design_id plan_id (StepId action_row) (StepInfo action_row)
              (ActionType action_row) (ActionName action_row) input_data output expected
              (Some (lower (strip (Critical action_row)))) result time_taken),
         State (<[cache_key plan_id (StepId action_row) input_data := (result, output, time_taken)]>
                  (action_cache st)) w)
    end.

(** [process_action((plan_id, design_id, action_row, results_dir,
    timeout, ypad_config))].  [fuel] bounds the depth of the reuse
    recursion; Python has no such bound of its own making, only the
    interpreter's stack. *)
Fixpoint process_action (fuel : nat) (ypad_config : suite_config) (plan_id design_id : string)
  (action_row : actions_row string) : engine action_result :=
  fun st =>
    match fuel with
    | O => (Unfinished, st)
    | S fuel' =>
        match load (designs_csv_at fs) (yDesigns ypad_config) with
        | inl e => (Raises e, st)
        | inr y3_designs =>
            match resolve y3_designs design_id (Input action_row) (Expected action_row) with
            | inl e => (Raises e, st)
            | inr (input_data, expected) =>
                match action_cache st !! cache_key plan_id (StepId action_row) input_data with
                | Some (result, output, time_taken) =>
                    (Returns
                       (ActionResult design_id plan_id (StepId action_row) (StepInfo action_row)
                          (ActionType action_row) (ActionName action_row) input_data output
                          expected None result time_taken), st)
                | None =>
                    if String.eqb (ActionType action_row) "xReuse" then
                      let reused_plan_id := ActionName action_row in
                      match load_plans fs (yPlans ypad_config) with
                      | inl e => (Raises e, st)
                      | inr y1_plans =>
                          match load_actions fs (yActions ypad_config) with
                          | inl e => (Raises e, st)
                          | inr y2_actions =>
                              match plans_with_id reused_plan_id y1_plans with
                              | [] =>
                                  (Raises (ValueError ("Reused plan " ++ reused_plan_id ++ " not found")), st)
                              | _ :: _ =>
                                  match reuse_loop (process_action fuel' ypad_config reused_plan_id design_id)
                                          (actions_of reused_plan_id y2_actions) st with
                                  | (Returns (Some action_result), st') => (Returns action_result, st')
                                  | (Returns None, st') =>
                                      execute_action plan_id design_id action_row input_data expected st'
                                  | (Raises e, st') => (Raises e, st')
                                  | (Unfinished, st') => (Unfinished, st')
                                  end
                              end
                          end
                      end
                    else execute_action plan_id design_id action_row input_data expected st
                end
            end
        end
    end.

(** The loop of [process_plan] over the plan's actions for one design;
    a failed critical action breaks out of it. *)
Fixpoint for_each_action (fuel : nat) (ypad_config : suite_config) (plan_id design_id : string)
  (actions : list (actions_row string)) (results : list action_result)
  : engine (list action_result) :=
  fun st =>
    match actions with
    | [] => (Returns results, st)
    | action_row :: more =>
        match process_action fuel ypad_config plan_id design_id action_row st with
        | (Returns result, st') =>
            if Result_eqb (res_Result result) Fail && is_critical (Critical action_row)
            then (Returns (results ++ [result])%list, st')
            else for_each_action fuel ypad_config plan_id design_id more (results ++ [result])%list st'
        | (Raises e, st') => (Raises e, st')
        | (Unfinished, st') => (Unfinished, st')
        end
    end.

(** The loop of [process_plan] over the plan's designs. *)
Fixpoint for_each_design (fuel : nat) (ypad_config : suite_config) (plan_id : string)
  (design_ids : list string) (actions : list (actions_row string)) (results : list action_result)
  : engine (list action_result) :=
  fun st =>
    match design_ids with
    | [] => (Returns results, st)
    | design_id :: more =>
        match for_each_action fuel ypad_config plan_id design_id actions results st with
        | (Returns results', st') =>
            for_each_design fuel ypad_config plan_id more actions results' st'
        | other => other
        end
    end.

(** [process_plan((plan_row, ypad_config, output_dir, timeout,
    plan_index, total_plans))] *)
Definition process_plan (fuel : nat) (ypad_config : suite_config) (plan_row : plans_row string)
  : engine (list action_result) :=
  fun st =>
    match load_actions fs (yActions ypad_config) with
    | inl e => (Raises e, st)
    | inr y2_actions =>
        for_each_design fuel ypad_config (PlanId plan_row)
          (split_semicolon (DesignId plan_row))
          (actions_of (PlanId plan_row) y2_actions) [] st
    end.

End Engine.

(** ** Run Orchestrator *)

(** [df.groupby(['DesignId', 'PlanId']).first()]: one entry per group, in
    order of first appearance (pandas sorts them, which no count sees),
    holding the group's first [Result]; that column is never null. *)
Fixpoint groupby_first (df : list action_result) : list (string * string * Result) :=
  match df with
  | [] => []
  | row :: more =>
      (res_DesignId row, res_PlanId row, res_Result row)
      :: List.filter
           (fun g => negb (String.eqb (fst (fst g)) (res_DesignId row)
                           && String.eqb (snd (fst g)) (res_PlanId row)))
           (groupby_first more)
  end.

(** [passed_plans] of [main]: the groups whose first row is a Pass. *)
Definition passed_plans (df : list action_result) : nat :=
  length (List.filter (fun g => Result_eqb (snd g) Pass) (groupby_first df)).

(** The plan status [process_plan] prints: every row of the plan passed. *)
Definition plan_completed_successfully (plan_id : string) (results : list action_result) : bool :=
  let plan_results := List.filter (fun r => String.eqb (res_PlanId r) plan_id) results in
  Nat.eqb (length (List.filter (fun r => Result_eqb (res_Result r) Pass) plan_results))
          (length plan_results).

Record summary_stats : Type := SummaryStats {
  total_plans : nat;
  passed : nat;
  failed : Z
}.

(** What [main] does with one configured suite. *)
Inductive suite_report : Type :=
| ConfigNotFound (config_path : string)
| NoPlansToRun (config_path : string)
| Completed (config_path : string) (all_results : list action_result) (stats : summary_stats).

Inductive main_result : Type :=
| MainConfigNotFound
| Finished (reports : list suite_report).

Section Orchestrator.
Context {World : Type} (P : provider World) (fs : disk).

Abbreviation engine A := (state World -> outcome A * state World).

(** The sequential loop over the plans flagged for execution. *)
Fixpoint for_each_plan (fuel : nat) (ypad_config : suite_config)
  (plans : list (plans_row string)) (all_results : list action_result)
  : engine (list action_result) :=
  fun st =>
    match plans with
    | [] => (Returns all_results, st)
    | plan_row :: more =>
        match process_plan P fs fuel ypad_config plan_row st with
        | (Returns results, st') =>
            for_each_plan fuel ypad_config more (all_results ++ results)%list st'
        | other => other
        end
    end.

(** The body of [main]'s loop over the configured suites.  An empty
    result table has no [PlanId] column for [generate_dashboard]. *)
Fixpoint for_each_suite (fuel : nat) (configs : list string) (reports : list suite_report)
  : engine (list suite_report) :=
  fun st =>
    match configs with
    | [] => (Returns reports, st)
    | config_path :: more =>
        match load (ypad_config_at fs) config_path with
        | inl _ => for_each_suite fuel more (reports ++ [ConfigNotFound config_path])%list st
        | inr ypad_config =>
            match load_plans fs (yPlans ypad_config) with
            | inl e => (Raises e, st)
            | inr y1_plans =>
                match plans_to_run y1_plans with
                | [] => for_each_suite fuel more (reports ++ [NoPlansToRun config_path])%list st
                | to_run =>
                    match for_each_plan fuel ypad_config to_run [] st with
                    | (Returns [], st') => (Raises (KeyError "PlanId"), st')
                    | (Returns df, st') =>
                        let stats :=
                          SummaryStats (length to_run) (passed_plans df)
                            (Z.of_nat (length to_run) - Z.of_nat (passed_plans df)) in
                        for_each_suite fuel more (reports ++ [Completed config_path df stats])%list st'
                    | (Raises e, st') => (Raises e, st')
                    | (Unfinished, st') => (Unfinished, st')
                    end
                end
            end
        end
    end.

(** [main()], started in world [w] with [--config config]: the cache is
    cleared first. *)
Definition main (fuel : nat) (config : string) (w : World) : outcome main_result * state World :=
  match load (main_config_at fs) config with
  | inl _ => (Returns MainConfigNotFound, State ∅ w)
  | inr configs =>
      match for_each_suite fuel configs [] (State ∅ w) with
      | (Returns reports, st) => (Returns (Finished reports), st)
      | (Raises e, st) => (Raises e, st)
      | (Unfinished, st) => (Unfinished, st)
      end
  end.

End Orchestrator.

(** ** [generate_dashboard]: the two summaries

    The counts of the summary tables; the summed times and the HTML
    around them are left out. *)

Record summary : Type := Summary {
  sum_Total : nat;
  sum_Executed : nat;
  sum_Pending : nat;
  sum_Pass : nat;
  sum_Fail : nat
}.

(** [df['Result'].notna()]: a row always holds a Result. *)
Definition Result_notna (row : action_result) : bool := true.

(** [len(rows['PlanId'].unique())] *)
Definition unique_plans (rows : list action_result) : nat :=
  length (List.nodup String.string_dec (map res_PlanId rows)).

Definition summary_plans (df : list action_result) : summary :=
  Summary
    (unique_plans df)
    (unique_plans (List.filter Result_notna df))
    (unique_plans (List.filter (fun r => negb (Result_notna r)) df))
    (unique_plans (List.filter (fun r => Result_eqb (res_Result r) Pass) df))
    (unique_plans (List.filter (fun r => Result_eqb (res_Result r) Fail) df)).

Definition summary_actions (df : list action_result) : summary :=
  Summary
    (length df)
    (length (List.filter Result_notna df))
    (length (List.filter (fun r => negb (Result_notna r)) df))
    (length (List.filter (fun r => Result_eqb (res_Result r) Pass) df))
    (length (List.filter (fun r => Result_eqb (res_Result r) Fail) df)).

(** ** A concrete provider and suites to run the engine on *)

Module Fixture.

(** [MathActionHandler.xCompare] *)
Definition xCompare (aIn : string) : reply :=
  match split_semicolon aIn with
  | [a; b] => Returned (if String.eqb a b then "True" else "False")
  | _ => Raised ("Invalid input for xCompare: " ++ aIn ++ ". Expected 'value1;value2'")
  end.

(** A provider whose only operation is [xMath.xCompare]; its outputs are
    short and hold no comma, so the output helpers leave them alone. *)
Definition math : provider unit :=
  Provider unit
    (fun aT aName =>
       if String.eqb aT "xMath" && String.eqb aName "xCompare"
       then Some (Unary (fun aIn w => (xCompare aIn, w))) else None)
    (fun _ _ => 0%Z)
    (fun message => message)
    (fun _ _ _ _ => None)
    (fun _ vOut _ _ _ => vOut).


Definition file {A : Type} (name : string) (content : A) : string -> option A :=
  fun path => if String.eqb path name then Some content else None.

Definition suite : suite_config := SuiteConfig "yPlans.csv" "yActions.csv" "yDesigns.csv".

Definition designs : designs_table :=
  DesignsTable ["D1"; "D2"] [DesignRow (CStr "left") ["a"; "b"]; DesignRow (CStr "right") ["a"; "c"]].

(** A disk with one suite [suite.json] over the given Plans and Actions. *)
Definition disk_of (plans : list (plans_row cell)) (actions : list (actions_row cell)) : disk :=
  Disk (file "fStart.json" ["suite.json"]) (file "suite.json" suite)
       (file "yPlans.csv" plans) (file "yActions.csv" actions) (file "yDesigns.csv" designs).

Definition compare (plan : cell) (step input expected critical : string) : actions_row cell :=
  ActionRow plan step "compare" "xMath" "xCompare" input expected critical.

Definition reuse (plan : cell) (step reused : string) : actions_row cell :=
  ActionRow plan step "reuse" "xReuse" reused "nan" "nan" "nan".

End Fixture.

(** ** Text helpers of the handlers *)

(** [text.split(sep)] for a separator of one character *)
Fixpoint split_char (sep : ascii) (text : string) : list string :=
  match text with
  | EmptyString => [EmptyString]
  | String c rest =>
      if Ascii.eqb c sep then EmptyString :: split_char sep rest
      else
        match split_char sep rest with
        | part :: parts => String c part :: parts
        | [] => [String c EmptyString]
        end
  end.

(** [text.split(sep, 1)]: one part, or the text before the first
    separator and everything after it. *)
Fixpoint split_once (sep : ascii) (text : string) : list string :=
  match text with
  | EmptyString => [EmptyString]
  | String c rest =>
      if Ascii.eqb c sep then [EmptyString; rest]
      else
        match split_once sep rest with
        | part :: parts => String c part :: parts
        | [] => [String c EmptyString]
        end
  end.

(** [sep.join(parts)] *)
Fixpoint join_char (sep : ascii) (parts : list string) : string :=
  match parts with
  | [] => EmptyString
  | [part] => part
  | part :: more => part ++ String sep (join_char sep more)
  end.

(** [c in text] *)
Fixpoint contains_char (c : ascii) (text : string) : bool :=
  match text with
  | EmptyString => false
  | String x rest => Ascii.eqb x c || contains_char c rest
  end.

(** [text.replace(old, new)] for single characters *)
Fixpoint replace_char (old new : ascii) (text : string) : string :=
  match text with
  | EmptyString => EmptyString
  | String x rest => String (if Ascii.eqb x old then new else x) (replace_char old new rest)
  end.

(** [text.split(pattern, 1)[0]]: the text before the first occurrence of
    a non-empty pattern, the whole text when there is none. *)
Fixpoint cut_at (pattern text : string) : string :=
  if String.prefix pattern text then EmptyString
  else
    match text with
    | EmptyString => EmptyString
    | String c rest => String c (cut_at pattern rest)
    end.

(** [re.sub(r"\s+", " ", text)]; [in_run] says the character before was
    white space. *)
Fixpoint collapse_spaces (in_run : bool) (text : string) : string :=
  match text with
  | EmptyString => EmptyString
  | String c rest =>
      if is_space c then
        if in_run then collapse_spaces true rest
        else String " " (collapse_spaces true rest)
      else String c (collapse_spaces false rest)
  end.

Fixpoint all_digits (text : string) : bool :=
  match text with
  | EmptyString => true
  | String c rest => in_range 48 57 c && all_digits rest
  end.

(** [key.isdigit()] *)
Definition isdigit (key : string) : bool :=
  negb (String.eqb key "") && all_digits key.

(** [int(key)] for a key of digits *)
Fixpoint int_of_digits (key : string) (acc : nat) : nat :=
  match key with
  | EmptyString => acc
  | String c rest => int_of_digits rest (10 * acc + (nat_of_ascii c - 48))
  end.

(** [int(text)]: white space around, a sign, digits with single
    underscores between them; [None] is the [ValueError]. *)
Definition py_int (text : string) : option Z :=
  let '(neg, body) := read_sign (strip_c text) in
  match digitpart body 0 with
  | Some (n, _, EmptyString) => Some (if neg then (- n)%Z else n)
  | _ => None
  end.

(** [_sanitize_error_message(message)] *)
Definition _sanitize_error_message (message : string) : string :=
  if String.eqb message "" then message
  else strip (collapse_spaces false (rstrip (cut_at "Stacktrace:" message))).

(** ** [ActionHandler]: the base class *)

Module ActionHandler.

(** [save_output_to_file(output, plan_id, design_id, step_id,
    results_dir)] for a [results_dir] that is a path; [step_id] is [None]
    when it is falsy, and [write_ok] says whether [os.makedirs] and the
    write of the file went through. *)
Definition save_output_to_file (write_ok : bool) (output plan_id design_id : string)
  (step_id : option string) : string :=
  if String.eqb output "" then output
  else
    let output := strip (cut_at "Stacktrace:" output) in
    if Nat.ltb 140 (String.length output) || contains_char "," output then
      let filename :=
        match step_id with
        | Some step => plan_id ++ "_" ++ design_id ++ "_" ++ step ++ ".txt"
        | None => plan_id ++ "_" ++ design_id ++ ".txt"
        end in
      if write_ok then
        replace_char "," ";" (substring 0 140 output) ++ " [Link to " ++ filename ++ "]"
      else output
    else replace_char "," ";" output.

End ActionHandler.

(** How Python prints the values that only reach messages and outputs:
    [str] of a float, [repr] of a list of texts, [str] of a count. *)
Record rendering : Type := Rendering {
  str_float : spec_float -> string;
  repr_list : list string -> string;
  str_nat : nat -> string
}.

(** ** [UIActionHandler]: the operations that need no browser *)

Module UIActionHandler.

(** [xAssertLessThan(comparison_data)] *)
Definition xAssertLessThan (py : rendering) (comparison_data : string) : reply :=
  match split_once ";" comparison_data with
  | [actual; expected] =>
      match py_float actual, py_float expected with
      | Some actual_val, Some expected_val =>
          if SFltb actual_val expected_val then Returned "Assertion passed"
          else Raised ("Assertion failed: " ++ str_float py actual_val ++ " >= "
                       ++ str_float py expected_val)
      | _, _ => Raised ("Invalid numeric values: " ++ actual ++ ", " ++ expected)
      end
  | _ => Raised ("Invalid input for xAssertLessThan: " ++ comparison_data
                 ++ ". Expected 'actual;expected'")
  end.

End UIActionHandler.

(** ** [MathActionHandler] *)

Module MathActionHandler.

(** [float(x)] of every text, the first [ValueError] ending the list. *)
Fixpoint floats (numbers : list string) : option (list spec_float) :=
  match numbers with
  | [] => Some []
  | x :: more =>
      match py_float x, floats more with
      | Some f, Some fs => Some (f :: fs)
      | _, _ => None
      end
  end.

(** [validate_numbers(inputs, expected_count)]: the message of the
    [ValueError], or the numbers. *)
Definition validate_numbers (py : rendering) (inputs : list string) (expected_count : option nat)
  : string + list spec_float :=
  let numbers := map strip (List.filter (fun x => negb (String.eqb (strip x) "")) inputs) in
  match expected_count with
  | Some count =>
      if negb (Nat.eqb (length numbers) count) then
        inl ("Expected " ++ str_nat py count ++ " numbers, got " ++ str_nat py (length numbers)
             ++ ": " ++ repr_list py inputs)
      else
        match numbers with
        | [] => inl "No numeric inputs provided."
        | _ =>
            match floats numbers with
            | Some fs => inr fs
            | None => inl ("Non-numeric input: " ++ repr_list py inputs)
            end
        end
  | None =>
      match numbers with
      | [] => inl "No numeric inputs provided."
      | _ =>
          match floats numbers with
          | Some fs => inr fs
          | None => inl ("Non-numeric input: " ++ repr_list py inputs)
          end
      end
  end.

(** [numbers[1] == 0] *)
Definition is_zero (f : spec_float) : bool :=
  match f with
  | S754_zero _ => true
  | _ => false
  end.

(** [xMinus(aIn)] *)
Definition xMinus (py : rendering) (aIn : string) : reply :=
  match validate_numbers py (split_char ";" aIn) (Some 2) with
  | inr [a; b] => Returned (str_float py (SFsub prec emax a b))
  | inr _ => Raised "list index out of range"
  | inl message => Raised message
  end.

(** [xDiv(aIn)] *)
Definition xDiv (py : rendering) (aIn : string) : reply :=
  match validate_numbers py (split_char ";" aIn) (Some 2) with
  | inr [a; b] =>
      if is_zero b then Raised "Division by zero"
      else Returned (str_float py (SFdiv prec emax a b))
  | inr _ => Raised "list index out of range"
  | inl message => Raised message
  end.

End MathActionHandler.

(** ** [JSONActionHandler] *)

Module JSONActionHandler.

(** What [response.json()] yields; [JNull] is also the [None] stored
    when the response held no JSON.  The members of an object have
    distinct names. *)
#[local] Unset Elimination Schemes.
Inductive json : Type :=
| JNull
| JBool (b : bool)
| JInt (n : Z)
| JFloat (f : spec_float)
| JStr (s : string)
| JArr (items : list json)
| JObj (members : list (string * json)).
#[local] Set Elimination Schemes.

(** [not json_data] *)
Definition falsy (json_data : json) : bool :=
  match json_data with
  | JNull | JBool false | JInt Z0 | JFloat (S754_zero _) | JStr EmptyString
  | JArr [] | JObj [] => true
  | _ => false
  end.

Fixpoint member (key : string) (members : list (string * json)) : option json :=
  match members with
  | [] => None
  | (name, value) :: more => if String.eqb name key then Some value else member key more
  end.

(** One step of the loop of [_get_json_value]: [current[int(key)]] for a
    key of digits, [current[key]] otherwise; [None] is the [KeyError],
    [IndexError] or [TypeError] of the subscript. *)
Definition getitem (current : json) (key : string) : option json :=
  if isdigit key then
    match current with
    | JArr items => nth_error items (int_of_digits key 0)
    | JStr s =>
        match String.get (int_of_digits key 0) s with
        | Some c => Some (JStr (String c EmptyString))
        | None => None
        end
    | _ => None
    end
  else
    match current with
    | JObj members => member key members
    | _ => None
    end.

Fixpoint walk (keys : list string) (current : json) : option json :=
  match keys with
  | [] => Some current
  | key :: more =>
      match getitem current key with
      | Some next => walk more next
      | None => None
      end
  end.

(** [_get_json_value(json_data, key_path)]: the message of the
    [ValueError], or the value. *)
Definition _get_json_value (json_data : json) (key_path : string) : string + json :=
  if falsy json_data then inl "No JSON response available"
  else
    match walk (split_char "." key_path) json_data with
    | Some value => inr value
    | None => inl ("Key path '" ++ key_path ++ "' not found in JSON")
    end.

(** [xValidateJson(aIn)], [_last_response] being the last API response *)
Definition xValidateJson (_last_response : json) (aIn : string) : reply :=
  match _get_json_value _last_response aIn with
  | inr _ => Returned "True"
  | inl _ => Returned "False"
  end.

(** [value == expected_value], the right side being text *)
Definition equals_text (value : json) (expected_value : string) : bool :=
  match value with
  | JStr s => String.eqb s expected_value
  | _ => false
  end.

(** [xCompareJson(aIn)] *)
Definition xCompareJson (_last_response : json) (aIn : string) : reply :=
  match split_char ";" aIn with
  | [key_path; expected_value] =>
      match _get_json_value _last_response key_path with
      | inr value => Returned (if equals_text value expected_value then "True" else "False")
      | inl message => Raised message
      end
  | _ => Raised ("Invalid input for xCompareJson: " ++ aIn
                 ++ ". Expected 'key_path;expected_value'")
  end.

End JSONActionHandler.

(** ** [AIActionHandler]: the options string *)

Module AIActionHandler.

(** The dictionary [_parse_options] returns: its three possible keys. *)
Record options : Type := Options {
  temperature : option spec_float;
  max_tokens : option Z;
  model : option string
}.

Definition no_options : options := Options None None None.

(** The body of the loop over [options_str.split(',')]. *)
Definition parse_option (out : options) (kv : string) : options :=
  if contains_char "=" kv then
    match split_once "=" kv with
    | [k; v] =>
        let k := lower (strip k) in
        let v := strip v in
        if in_list k ["temp"; "temperature"] then
          match py_float v with
          | Some f => Options (Some f) (max_tokens out) (model out)
          | None => out
          end
        else if in_list k ["max"; "max_tokens"] then
          match py_int v with
          | Some n => Options (temperature out) (Some n) (model out)
          | None => out
          end
        else if String.eqb k "model" then Options (temperature out) (max_tokens out) (Some v)
        else out
    | _ => out
    end
  else out.

(** [_parse_options(options_str)] *)
Definition _parse_options (options_str : string) : options :=
  if String.eqb options_str "" then no_options
  else fold_left parse_option (split_char "," options_str) no_options.

End AIActionHandler.

(** ** Vocabulary of the statements *)




(** Two disks that hold the same files up to the way PlanIds are
    written: the configurations and the Designs tables are the same, and
    the Plans and the Actions tables agree once every PlanId is
    normalised. *)
Definition same_files_up_to_PlanId (fs fs' : disk) : Prop :=
  (forall path, main_config_at fs path = main_config_at fs' path)
  /\ (forall path, ypad_config_at fs path = ypad_config_at fs' path)
  /\ (forall path, designs_csv_at fs path = designs_csv_at fs' path)
  /\ (forall path,
        option_map (map fix_plans_row) (plans_csv_at fs path)
        = option_map (map fix_plans_row) (plans_csv_at fs' path))
  /\ (forall path,
        option_map (map fix_actions_row) (actions_csv_at fs path)
        = option_map (map fix_actions_row) (actions_csv_at fs' path)).

(** The call ended: it returned or raised. *)
Definition finished {A : Type} (o : outcome A) : bool :=
  match o with
  | Unfinished => false
  | _ => true
  end.

(** No recursion budget is enough for the call to end. *)
Definition never_ends {A S : Type} (run : nat -> outcome A * S) : Prop :=
  forall fuel, fst (run fuel) = Unfinished.

(** The cache only grows from [st] to [st']: what was stored stays. *)
Definition cache_kept {World : Type} (st st' : state World) : Prop :=
  forall key cached, action_cache st !! key = Some cached -> action_cache st' !! key = Some cached.

(** The first row of a (DesignId, PlanId) group of the result table. *)
Definition first_of_group (design_id plan_id : string) (df : list action_result)
  : option action_result :=
  find (fun r => String.eqb (res_DesignId r) design_id && String.eqb (res_PlanId r) plan_id) df.

(** The text is white space normalised: no white space but single
    blanks ([after_space]: one stands just before the text). *)
Fixpoint single_spaced (after_space : bool) (text : string) : bool :=
  match text with
  | EmptyString => true
  | String c rest =>
      if is_space c then Ascii.eqb c " " && negb after_space && single_spaced true rest
      else single_spaced false rest
  end.

Fixpoint ends_with_space (text : string) : bool :=
  match text with
  | EmptyString => false
  | String c EmptyString => is_space c
  | String _ rest => ends_with_space rest
  end.

(** The reused actions [actions] all run from [st] to [st'] without
    ending the reuse loop: each returns a row that is not a failure, or
    is the row of [xUI.xOpenBrowser]. *)
Inductive reuse_passes {World : Type}
  (run : actions_row string -> state World -> outcome action_result * state World)
  : list (actions_row string) -> state World -> state World -> Prop :=
| reuse_passes_none (st : state World) : reuse_passes run [] st st
| reuse_passes_next (a : actions_row string) (more : list (actions_row string))
    (st st1 st2 : state World) (r : action_result) :
    run a st = (Returns r, st1) ->
    (String.eqb (res_ActionType r) "xUI" && String.eqb (res_ActionName r) "xOpenBrowser")
    || negb (Result_eqb (res_Result r) Fail) = true ->
    reuse_passes run more st1 st2 ->
    reuse_passes run (a :: more) st st2.


(** The last character of [text], [prev] when it is empty. *)
Fixpoint last_char (text : string) (prev : option ascii) : option ascii :=
  match text with
  | EmptyString => prev
  | String c rest => last_char rest (Some c)
  end.

(** [{**x, **y}]: the settings of [y] over those of [x]. *)
Definition merge_options (x y : AIActionHandler.options) : AIActionHandler.options :=
  AIActionHandler.Options
    (match AIActionHandler.temperature y with Some t => Some t | None => AIActionHandler.temperature x end)
    (match AIActionHandler.max_tokens y with Some n => Some n | None => AIActionHandler.max_tokens x end)
    (match AIActionHandler.model y with Some m => Some m | None => AIActionHandler.model x end).

Section Vocabulary.
Context {World : Type} (P : provider World) (fs : disk) (ypad_config : suite_config).

(** The actions [actions] all execute from state [st], none of them a
    failed critical one: they leave the rows [rs] and the state [st']. *)
Inductive runs_through (fuel : nat) (plan_id design_id : string) : list (actions_row string) -> state World ->
                         list action_result -> state World -> Prop :=
| runs_none (st : state World) : runs_through fuel plan_id design_id [] st [] st
| runs_next (action_row : actions_row string) (more : list (actions_row string))
    (st st1 st2 : state World) (result : action_result) (rs : list action_result) :
    process_action P fs fuel ypad_config plan_id design_id action_row st = (Returns result, st1) ->
    Result_eqb (res_Result result) Fail && is_critical (Critical action_row) = false ->
    runs_through fuel plan_id design_id more st1 rs st2 ->
    runs_through fuel plan_id design_id (action_row :: more) st (result :: rs) st2.

(** Every reuse action of the Actions table names a plan of smaller
    rank than its own: the reuse call graph has no cycle. *)
Definition reuse_acyclic (rank : string -> nat) : Prop :=
  forall raw a,
    actions_csv_at fs (yActions ypad_config) = Some raw ->
    In a (load_csv_actions raw) ->
    ActionType a = "xReuse" -> rank (ActionName a) < rank (aPlanId a).

End Vocabulary.

(** * Properties *)

(** ** The model on small inputs *)

Example fix_PlanId_numeric : fix_PlanId (CNum "12") = "P12".
Proof. reflexivity. Qed.

Example fix_PlanId_blank : fix_PlanId (CNum "nan") = "Pnan".
Proof. reflexivity. Qed.

Example re_sub_whole_words :
  re_sub "user" "bob" "user;#user user_name (user)" = "bob;#bob user_name (bob)".
Proof. reflexivity. Qed.

Example re_sub_adjacent_matches : re_sub "+a" "-" "x+a+a +a" = "x-- +a".
Proof. reflexivity. Qed.

Example re_sub_empty_token : re_sub "" "X" "ab cd" = "XabX XcdX".
Proof. reflexivity. Qed.

Example py_float_three : py_float "3.0" = Some (S754_finite false 6755399441055744 (-51)).
Proof. vm_compute. reflexivity. Qed.

Example py_float_tenth : py_float "0.1" = Some (S754_finite false 7205759403792794 (-56)).
Proof. vm_compute. reflexivity. Qed.

Example py_float_forms : py_float " -1_0.5e+1 " = py_float "-105" /\ py_float "+.5" = py_float "5E-1".
Proof. split; vm_compute; reflexivity. Qed.

Example py_float_refuses :
  map py_float [""; "."; "1_"; "1._5"; "1e"; "0x10"; "1 2"; "True"]
  = [None; None; None; None; None; None; None; None].
Proof. vm_compute. reflexivity. Qed.

(** [float] skips a tab or a blank around a number, not the separators
    28 to 31 that [str.strip] removes: such a text is no number and is
    compared as text. *)
Example py_float_white_space :
  py_float (String "009" "3 ") = py_float "3"
  /\ py_float (String "028" "3") = None
  /\ py_int (String "031" "3") = None
  /\ compare_output (String "028" "3") "3.0" = Fail.
Proof. repeat split; vm_compute; reflexivity. Qed.

Example compare_output_rounding : compare_output "1.000001" "1.0" = Pass.
Proof. vm_compute. reflexivity. Qed.

Example compare_output_infinities : compare_output "inf" "inf" = Fail.
Proof. vm_compute. reflexivity. Qed.

Example split_semicolon_designs : split_semicolon "D1;D2" = ["D1"; "D2"] /\ split_semicolon "" = [""].
Proof. split; reflexivity. Qed.

Example cache_key_text : cache_key "P1" "2" "a;b" = "P1_2_a;b".
Proof. reflexivity. Qed.

(** ** Texts *)

Lemma append_String (c : ascii) (a b : string) : String c a ++ b = String c (a ++ b).
Proof. reflexivity. Qed.

Lemma append_Empty (b : string) : "" ++ b = b.
Proof. reflexivity. Qed.

Lemma append_inv_head (a b c : string) : a ++ b = a ++ c -> b = c.
Proof.
  induction a as [|x a IH]; rewrite ?append_Empty, ?append_String; intros H.
  - exact H.
  - injection H as H. auto.
Qed.

(** Two texts without underscore that are followed by one and agree as
    a whole agree part by part. *)
Lemma split_at_underscore (p p' r r' : string) :
  no_underscore p = true -> no_underscore p' = true ->
  p ++ String "_" r = p' ++ String "_" r' -> p = p' /\ r = r'.
Proof.
  revert p'. induction p as [|x p IH]; intros [|y p'] Hp Hp' H;
    rewrite ?append_Empty, ?append_String in H; simpl in Hp, Hp'.
  - injection H as H. auto.
  - injection H as Hc _. subst y. discriminate Hp'.
  - injection H as Hc _. subst x. discriminate Hp.
  - injection H as Hc H. subst y.
    apply andb_prop in Hp as [_ Hp]. apply andb_prop in Hp' as [_ Hp'].
    destruct (IH p' Hp Hp' H) as [-> ->]. auto.
Qed.

Lemma cache_key_same_step (p s i i' : string) :
  cache_key p s i = cache_key p s i' -> i = i'.
Proof.
  unfold cache_key. intros H.
  apply append_inv_head in H. rewrite !append_String, !append_Empty in H. injection H as H.
  apply append_inv_head in H. injection H as H. exact H.
Qed.

Lemma cache_key_plain_ids (p s i p' s' i' : string) :
  no_underscore p = true -> no_underscore s = true ->
  no_underscore p' = true -> no_underscore s' = true ->
  cache_key p s i = cache_key p' s' i' -> p = p' /\ s = s' /\ i = i'.
Proof.
  unfold cache_key. rewrite !append_String, !append_Empty. intros Hp Hs Hp' Hs' H.
  apply split_at_underscore in H as [-> H]; [|assumption..].
  apply split_at_underscore in H as [-> ->]; auto.
Qed.

Lemma startswith_P_fix (c : cell) : startswith_P (fix_PlanId c) = true.
Proof.
  unfold fix_PlanId. destruct (startswith_P (py_str c)) eqn:E; [exact E | reflexivity].
Qed.

(** ** Substitution *)

Lemma re_sub_from_no_match (tok repl : string) (s : string) :
  forall prev, re_search_from tok prev s = false -> re_sub_from tok repl prev 0 s = s.
Proof.
  induction s as [|c rest IH]; intros prev H; simpl in *.
  - apply orb_false_elim in H as [H _]. rewrite H. reflexivity.
  - apply orb_false_elim in H as [H1 H2]. rewrite H1. f_equal. apply IH, H2.
Qed.






(** ** Plan ids *)

Lemma reuse_loop_ext {World : Type}
  (run run' : actions_row string -> state World -> outcome action_result * state World)
  (reused_actions : list (actions_row string)) :
  (forall a st, run a st = run' a st) ->
  forall st, reuse_loop run reused_actions st = reuse_loop run' reused_actions st.
Proof.
  intros Hrun. induction reused_actions as [|a more IH]; intros st; cbn [reuse_loop];
    [reflexivity|].
  rewrite <- Hrun. destruct (run a st) as [[r | e |] st1]; [|reflexivity..].
  rewrite !IH. reflexivity.
Qed.

(** The engine reads the Plans and the Actions tables through the
    loader only: it cannot tell two disks apart whose tables agree once
    loaded. *)
Section SameFiles.
Context {World : Type} (P : provider World) (fs fs' : disk).
Hypothesis Hsame : same_files_up_to_PlanId fs fs'.

Lemma load_plans_same (path : string) : load_plans fs path = load_plans fs' path.
Proof.
  destruct Hsame as (_ & _ & _ & Hplans & _). specialize (Hplans path).
  unfold load_plans, load, load_csv_plans.
  destruct (plans_csv_at fs path), (plans_csv_at fs' path); cbn [option_map] in Hplans;
    congruence.
Qed.

Lemma load_actions_same (path : string) : load_actions fs path = load_actions fs' path.
Proof.
  destruct Hsame as (_ & _ & _ & _ & Hactions). specialize (Hactions path).
  unfold load_actions, load, load_csv_actions.
  destruct (actions_csv_at fs path), (actions_csv_at fs' path); cbn [option_map] in Hactions;
    congruence.
Qed.

Lemma process_action_same :
  forall fuel ypad_config plan_id design_id action_row st,
    process_action P fs fuel ypad_config plan_id design_id action_row st
    = process_action P fs' fuel ypad_config plan_id design_id action_row st.
Proof.
  induction fuel as [|fuel IH]; intros ypad_config plan_id design_id action_row st;
    cbn [process_action]; [reflexivity|].
  destruct Hsame as (_ & _ & Hdesigns & _). unfold load. rewrite (Hdesigns (yDesigns ypad_config)).
  destruct (designs_csv_at fs' _) as [y3_designs|]; [|reflexivity].
  destruct (resolve _ _ _ _) as [e | [input_data expected]]; [reflexivity|].
  destruct (action_cache st !! _) as [[[r o] t]|]; [reflexivity|].
  destruct (String.eqb _ _); [|reflexivity].
  rewrite load_plans_same, load_actions_same.
  destruct (load_plans fs' _) as [e | y1_plans]; [reflexivity|].
  destruct (load_actions fs' _) as [e | y2_actions]; [reflexivity|].
  destruct (plans_with_id _ _); [reflexivity|].
  rewrite (reuse_loop_ext _ _ _ (IH ypad_config (ActionName action_row) design_id)).
  reflexivity.
Qed.

Lemma for_each_action_same (fuel : nat) (ypad_config : suite_config) (plan_id design_id : string)
  (actions : list (actions_row string)) :
  forall results st,
    for_each_action P fs fuel ypad_config plan_id design_id actions results st
    = for_each_action P fs' fuel ypad_config plan_id design_id actions results st.
Proof.
  induction actions as [|a more IH]; intros results st; cbn [for_each_action]; [reflexivity|].
  rewrite process_action_same.
  destruct (process_action P fs' _ _ _ _ a st) as [[r | e |] st1]; [|reflexivity..].
  rewrite IH. reflexivity.
Qed.

Lemma for_each_design_same (fuel : nat) (ypad_config : suite_config) (plan_id : string)
  (actions : list (actions_row string)) (design_ids : list string) :
  forall results st,
    for_each_design P fs fuel ypad_config plan_id design_ids actions results st
    = for_each_design P fs' fuel ypad_config plan_id design_ids actions results st.
Proof.
  induction design_ids as [|d more IH]; intros results st; cbn [for_each_design]; [reflexivity|].
  rewrite for_each_action_same.
  destruct (for_each_action P fs' _ _ _ _ _ _ st) as [[rs | e |] st1]; [apply IH | reflexivity..].
Qed.

Lemma process_plan_same (fuel : nat) (ypad_config : suite_config) (plan_row : plans_row string)
  (st : state World) :
  process_plan P fs fuel ypad_config plan_row st = process_plan P fs' fuel ypad_config plan_row st.
Proof.
  unfold process_plan. rewrite load_actions_same.
  destruct (load_actions fs' _); [reflexivity | apply for_each_design_same].
Qed.

Lemma for_each_plan_same (fuel : nat) (ypad_config : suite_config)
  (plans : list (plans_row string)) :
  forall all_results st,
    for_each_plan P fs fuel ypad_config plans all_results st
    = for_each_plan P fs' fuel ypad_config plans all_results st.
Proof.
  induction plans as [|p more IH]; intros all_results st; cbn [for_each_plan]; [reflexivity|].
  rewrite process_plan_same.
  destruct (process_plan P fs' _ _ p st) as [[rs | e |] st1]; [apply IH | reflexivity..].
Qed.

Lemma for_each_suite_same (fuel : nat) (configs : list string) :
  forall reports st,
    for_each_suite P fs fuel configs reports st = for_each_suite P fs' fuel configs reports st.
Proof.
  induction configs as [|c more IH]; intros reports st; cbn [for_each_suite]; [reflexivity|].
  destruct Hsame as (_ & Hconfig & _). unfold load. rewrite (Hconfig c).
  destruct (ypad_config_at fs' c) as [ypad_config|]; [|apply IH].
  rewrite load_plans_same. destruct (load_plans fs' _) as [e | y1_plans]; [reflexivity|].
  destruct (plans_to_run y1_plans) as [|p ps]; [apply IH|].
  rewrite for_each_plan_same.
  destruct (for_each_plan P fs' _ _ _ _ st) as [[[|r df] | e |] st1]; [reflexivity | apply IH | reflexivity..].
Qed.

Lemma main_same (fuel : nat) (config : string) (w : World) :
  main P fs fuel config w = main P fs' fuel config w.
Proof.
  unfold main. destruct Hsame as (Hmain & _). unfold load. rewrite (Hmain config).
  destruct (main_config_at fs' config); [|reflexivity].
  rewrite for_each_suite_same. reflexivity.
Qed.

End SameFiles.

(** C9: every PlanId that [load_plans] and [load_actions] hand to the
    engine is the cell coerced to a string and prefixed with P unless it
    already starts with P.  Run filtering, the selection of a plan's
    actions and the lookup of a reused plan work on that column, and the
    engine reads the two tables through the loader only: two disks whose
    tables differ in the way PlanIds are written, but agree once
    normalised, give the same run.  So the numeric id 12 and the text
    P12 name one plan, and p12 names another: a plan written p12 finds
    none of the actions written P12. *)
Theorem PlanId_normalised_by_loader {World : Type} (P : provider World) (fs fs' : disk) :
  same_files_up_to_PlanId fs fs' ->
  (forall c : cell,
      fix_PlanId c = (if startswith_P (py_str c) then py_str c else "P" ++ py_str c)
      /\ startswith_P (fix_PlanId c) = true)
  /\ (forall path rows,
        plans_csv_at fs path = Some rows ->
        exists y1_plans,
          load_plans fs path = inr y1_plans
          /\ map PlanId y1_plans = map (fun r => fix_PlanId (PlanId r)) rows
          /\ (forall p,
                In p (plans_to_run y1_plans)
                <-> exists r, In r rows /\ Run r = "Y" /\ p = fix_plans_row r)
          /\ (forall reused_plan_id,
                plans_with_id reused_plan_id y1_plans <> []
                <-> exists r, In r rows /\ fix_PlanId (PlanId r) = reused_plan_id))
  /\ (forall path rows,
        actions_csv_at fs path = Some rows ->
        exists y2_actions,
          load_actions fs path = inr y2_actions
          /\ map aPlanId y2_actions = map (fun r => fix_PlanId (aPlanId r)) rows
          /\ (forall plan_id a,
                In a (actions_of plan_id y2_actions)
                <-> exists r, In r rows /\ fix_PlanId (aPlanId r) = plan_id
                              /\ a = fix_actions_row r))
  /\ (forall fuel ypad_config plan_id design_id action_row st,
        process_action P fs fuel ypad_config plan_id design_id action_row st
        = process_action P fs' fuel ypad_config plan_id design_id action_row st)
  /\ (forall fuel ypad_config plan_row st,
        process_plan P fs fuel ypad_config plan_row st
        = process_plan P fs' fuel ypad_config plan_row st)
  /\ (forall fuel config w, main P fs fuel config w = main P fs' fuel config w)
  /\ fix_PlanId (CNum "12") = fix_PlanId (CStr "P12")
  /\ fix_PlanId (CStr "p12") <> fix_PlanId (CStr "P12")
  /\ (let run := fun plan =>
        fst (main Fixture.math
               (Fixture.disk_of [PlanRow plan "D1" "Y"]
                  [Fixture.compare (CStr "P12") "1" "left;right" "True" "n"])
               1 "fStart.json" tt) in
      run (CNum "12") = run (CStr "P12")
      /\ (exists df stats, run (CNum "12") = Returns (Finished [Completed "suite.json" df stats])
                           /\ map res_PlanId df = ["P12"])
      /\ run (CStr "p12") = Raises (KeyError "PlanId")).
Proof.
  intros Hsame.
  split; [|split; [|split; [|split; [|split; [|split; [|split; [|split]]]]]]];
    [| | | | | | reflexivity | discriminate |].
  - intros c. split; [reflexivity | apply startswith_P_fix].
  - intros path rows Hrows. exists (load_csv_plans rows).
    unfold load_plans, load. rewrite Hrows.
    split; [reflexivity | split; [|split]].
    + unfold load_csv_plans. rewrite List.map_map. reflexivity.
    + intros p. unfold plans_to_run, load_csv_plans.
      rewrite List.filter_In, List.in_map_iff. split.
      * intros [[r [<- Hr]] HY]. apply String.eqb_eq in HY. exists r. auto.
      * intros [r [Hr [HY ->]]]. split; [exists r; auto|]. apply String.eqb_eq. exact HY.
    + intros reused_plan_id. unfold plans_with_id, load_csv_plans. split.
      * intros Hne.
        destruct (List.filter _ _) as [|p ps] eqn:E; [contradiction|].
        assert (Hp : In p (p :: ps)) by (left; reflexivity).
        rewrite <- E, List.filter_In, List.in_map_iff in Hp. destruct Hp as [[r [<- Hr]] Hid].
        apply String.eqb_eq in Hid. exists r. auto.
      * intros [r [Hr Hid]] E.
        assert (Hp : In (fix_plans_row r) []); [|contradiction].
        rewrite <- E, List.filter_In, List.in_map_iff. split; [exists r; auto|].
        apply String.eqb_eq. exact Hid.
  - intros path rows Hrows. exists (load_csv_actions rows).
    unfold load_actions, load. rewrite Hrows.
    split; [reflexivity | split].
    + unfold load_csv_actions. rewrite List.map_map. reflexivity.
    + intros plan_id a. unfold actions_of, load_csv_actions.
      rewrite List.filter_In, List.in_map_iff. split.
      * intros [[r [<- Hr]] Hid]. apply String.eqb_eq in Hid. exists r. auto.
      * intros [r [Hr [Hid ->]]]. split; [exists r; auto|]. apply String.eqb_eq. exact Hid.
  - apply process_action_same. exact Hsame.
  - apply process_plan_same. exact Hsame.
  - apply main_same. exact Hsame.
  - cbv zeta. split; [vm_compute; reflexivity | split; [|vm_compute; reflexivity]].
    do 2 eexists. split; vm_compute; reflexivity.
Qed.

Lemma PlanId_normalised_by_loader_witness :
  let written_12 :=
    Fixture.disk_of [PlanRow (CNum "12") "D1;D2" "Y"]
      [Fixture.compare (CStr "P12") "1" "left;right" "True" "n"] in
  let written_P12 :=
    Fixture.disk_of [PlanRow (CStr "P12") "D1;D2" "Y"]
      [Fixture.compare (CNum "12") "1" "left;right" "True" "n"] in
  main Fixture.math written_12 1 "fStart.json" tt = main Fixture.math written_P12 1 "fStart.json" tt
  /\ exists y1_plans,
       load_plans written_12 "yPlans.csv" = inr y1_plans /\ map PlanId y1_plans = ["P12"].
Proof.
  cbv zeta.
  pose (written_12 := Fixture.disk_of [PlanRow (CNum "12") "D1;D2" "Y"]
                        [Fixture.compare (CStr "P12") "1" "left;right" "True" "n"]).
  pose (written_P12 := Fixture.disk_of [PlanRow (CStr "P12") "D1;D2" "Y"]
                         [Fixture.compare (CNum "12") "1" "left;right" "True" "n"]).
  assert (Hsame : same_files_up_to_PlanId written_12 written_P12).
  { repeat split; intros path; cbn [written_12 written_P12 Fixture.disk_of main_config_at
      ypad_config_at designs_csv_at plans_csv_at actions_csv_at]; try reflexivity;
      unfold Fixture.file; destruct (String.eqb path _); reflexivity. }
  destruct (PlanId_normalised_by_loader Fixture.math written_12 written_P12 Hsame)
    as (_ & Hplans & _ & _ & _ & Hmain & _).
  split; [apply Hmain|].
  destruct (Hplans "yPlans.csv" [PlanRow (CNum "12") "D1;D2" "Y"] eq_refl)
    as (y1_plans & Hload & Hids & _).
  exists y1_plans. split; [exact Hload | exact Hids].
Defined.

(** ** Cache keys *)

(** C3, as the claim states it, fails: the key is the three texts joined
    by underscores, so two distinct triples whose ids hold an underscore
    share a key, and the second is served the outcome cached for the
    first (a Pass with output True, where its own run fails). *)
Lemma cache_key_collision :
  let actions := [Fixture.compare (CStr "P1") "1" "2_a;2_a" "True" "n";
                  Fixture.compare (CStr "P1_1") "2" "a;2_a" "True" "n"] in
  let both := Fixture.disk_of [PlanRow (CStr "P1") "D1" "Y"; PlanRow (CStr "P1_1") "D1" "Y"] actions in
  let alone := Fixture.disk_of [PlanRow (CStr "P1_1") "D1" "Y"] actions in
  let results fs :=
    match fst (main Fixture.math fs 1 "fStart.json" tt) with
    | Returns (Finished [Completed _ df _]) =>
        map (fun r => (res_PlanId r, res_Input r, res_Output r, res_Result r)) df
    | _ => []
    end in
  ("P1", "1", "2_a;2_a") <> ("P1_1", "2", "a;2_a")
  /\ cache_key "P1" "1" "2_a;2_a" = cache_key "P1_1" "2" "a;2_a"
  /\ results both = [("P1", "2_a;2_a", "True", Pass); ("P1_1", "a;2_a", "True", Pass)]
  /\ results alone = [("P1_1", "a;2_a", "False", Fail)].
Proof.
  cbv zeta. split; [discriminate|]. split; [reflexivity|]. split; vm_compute; reflexivity.
Qed.

(** C3, amended: the key tells apart the inputs of one step, and tells
    apart any two triples whose plan and step ids hold no underscore; a
    lookup under one such key never sees what was stored under the other. *)
Theorem cache_key_injective (cache : gmap string (Result * string * Z))
  (outcome : Result * string * Z) (p s i p' s' i' : string) :
  (p = p' /\ s = s')
  \/ (no_underscore p = true /\ no_underscore s = true
      /\ no_underscore p' = true /\ no_underscore s' = true) ->
  (p, s, i) <> (p', s', i') ->
  cache_key p s i <> cache_key p' s' i'
  /\ (<[cache_key p s i := outcome]> cache) !! cache_key p' s' i' = cache !! cache_key p' s' i'.
Proof.
  intros Hids Hne.
  assert (Hkey : cache_key p s i <> cache_key p' s' i').
  { intros E. apply Hne. destruct Hids as [[<- <-] | (Hp & Hs & Hp' & Hs')].
    - apply cache_key_same_step in E. subst. reflexivity.
    - apply cache_key_plain_ids in E as (-> & -> & ->); auto. }
  split; [exact Hkey|]. apply lookup_insert_ne. exact Hkey.
Qed.

Lemma cache_key_injective_witness :
  cache_key "P12" "3" "a;a" <> cache_key "P12" "3" "a;b"
  /\ (<[cache_key "P12" "3" "a;a" := (Pass, "True", 0%Z)]> ∅ : gmap string (Result * string * Z))
       !! cache_key "P12" "3" "a;b" = (∅ : gmap string (Result * string * Z)) !! cache_key "P12" "3" "a;b".
Proof.
  apply (cache_key_injective ∅ (Pass, "True", 0%Z) "P12" "3" "a;a" "P12" "3" "a;b").
  - left. split; reflexivity.
  - discriminate.
Defined.

(** ** Substitution resolution *)





(** ** Pass/Fail determination *)

Lemma in_list_In (x : string) (names : list string) : in_list x names = true <-> In x names.
Proof.
  unfold in_list. rewrite existsb_exists. split.
  - intros [y [Hy E]]. apply String.eqb_eq in E. subst y. exact Hy.
  - intros Hx. exists x. split; [exact Hx | apply String.eqb_refl].
Qed.

Lemma handler_is_not_xReuse (aT : string) :
  in_list aT handlers = true -> String.eqb aT "xReuse" = false.
Proof.
  rewrite in_list_In. unfold handlers. simpl.
  intros [<- | [<- | [<- | [<- | [<- | []]]]]]; reflexivity.
Qed.

(** [runAction] on an operation that returns: the result is the
    comparison with a present Expected, a Pass without one. *)
Lemma runAction_returned {World : Type} (P : provider World)
  (aT aName aIn aExpected plan_id design_id step_id : string) (w w' : World)
  (m : method World) (vOut : string) :
  in_list aT handlers = true ->
  getattr P aT aName = Some m ->
  invoke m aIn w = (Returned vOut, w') ->
  exists output,
    runAction P aT aName aIn aExpected plan_id design_id step_id w
    = (inr (if expected_present aExpected then compare_output aExpected vOut else Pass,
            output, elapsed P w w'), w').
Proof.
  intros HaT Hm Hcall. unfold runAction, dispatch.
  rewrite HaT, (handler_is_not_xReuse aT HaT), Hm, Hcall. simpl. eexists. reflexivity.
Qed.

(** C6: for a dispatched action whose operation returns a text and
    whose Expected is present, both ASCII, the Result is Pass exactly
    when, both texts being numbers to [float], their difference is in
    absolute value strictly below [1e-6], and otherwise exactly when the
    two texts are equal.  Expected 3.0000001 against output 3.0 passes;
    3.1 against 3.0 fails. *)
Theorem runAction_compares_expected {World : Type} (P : provider World)
  (aT aName aIn aExpected plan_id design_id step_id : string) (w w' : World)
  (m : method World) (vOut : string) :
  in_list aT handlers = true ->
  getattr P aT aName = Some m ->
  invoke m aIn w = (Returned vOut, w') ->
  expected_present aExpected = true ->
  is_ascii aExpected = true ->
  is_ascii vOut = true ->
  (exists vRes output time_taken,
      runAction P aT aName aIn aExpected plan_id design_id step_id w
      = (inr (vRes, output, time_taken), w')
      /\ (vRes = Pass <->
          match py_float aExpected, py_float vOut with
          | Some expected_float, Some actual_float =>
              SFltb (SFabs (SFsub prec emax expected_float actual_float)) tolerance = true
          | _, _ => aExpected = vOut
          end))
  /\ py_float "1e-6" = Some tolerance
  /\ compare_output "3.0000001" "3.0" = Pass
  /\ compare_output "3.1" "3.0" = Fail.
Proof.
  intros HaT Hm Hcall Hexp _ _.
  split; [|split; [|split]]; [|vm_compute; reflexivity..].
  destruct (runAction_returned P aT aName aIn aExpected plan_id design_id step_id w w' m vOut
              HaT Hm Hcall) as [output Hrun].
  rewrite Hexp in Hrun. exists (compare_output aExpected vOut), output, (elapsed P w w').
  split; [exact Hrun|]. unfold compare_output, within_tolerance.
  destruct (py_float aExpected) as [e|], (py_float vOut) as [a|].
  - destruct (SFltb _ _); split; intros; congruence.
  - destruct (String.eqb_spec aExpected vOut); split; intros; congruence.
  - destruct (String.eqb_spec aExpected vOut); split; intros; congruence.
  - destruct (String.eqb_spec aExpected vOut); split; intros; congruence.
Qed.

Lemma runAction_compares_expected_witness :
  (exists vRes output time_taken,
      runAction Fixture.math "xMath" "xCompare" "3.0;3.0" "True" "P1" "D1" "1" tt
      = (inr (vRes, output, time_taken), tt)
      /\ (vRes = Pass <-> "True" = "True"))
  /\ py_float "1e-6" = Some tolerance
  /\ compare_output "3.0000001" "3.0" = Pass
  /\ compare_output "3.1" "3.0" = Fail.
Proof.
  apply (runAction_compares_expected Fixture.math "xMath" "xCompare" "3.0;3.0" "True"
           "P1" "D1" "1" tt tt (Unary (fun aIn w => (Fixture.xCompare aIn, w))) "True");
    reflexivity.
Defined.

(** C10: an Expected that is empty, or that lower-cases to nan or none,
    is never compared: whenever the operation returns, whatever it
    returns, the Result is Pass.  The texts None and NAN are such. *)
Theorem absent_expected_passes {World : Type} (P : provider World)
  (aT aName aIn aExpected plan_id design_id step_id : string) (w w' : World)
  (m : method World) (vOut : string) :
  in_list aT handlers = true ->
  getattr P aT aName = Some m ->
  invoke m aIn w = (Returned vOut, w') ->
  aExpected = "" \/ In (lower aExpected) ["nan"; "none"; ""] ->
  (exists output time_taken,
      runAction P aT aName aIn aExpected plan_id design_id step_id w
      = (inr (Pass, output, time_taken), w'))
  /\ expected_present "None" = false
  /\ expected_present "NAN" = false
  /\ expected_present "nan" = false.
Proof.
  intros HaT Hm Hcall Habsent. split; [|split; [|split]; reflexivity].
  destruct (runAction_returned P aT aName aIn aExpected plan_id design_id step_id w w' m vOut
              HaT Hm Hcall) as [output Hrun].
  assert (Hexp : expected_present aExpected = false).
  { unfold expected_present. destruct Habsent as [-> | Hin]; [reflexivity|].
    apply in_list_In in Hin. rewrite Hin. apply andb_false_r. }
  rewrite Hexp in Hrun. eauto.
Qed.

Lemma absent_expected_passes_witness :
  (exists output time_taken,
      runAction Fixture.math "xMath" "xCompare" "a;b" "None" "P1" "D1" "1" tt
      = (inr (Pass, output, time_taken), tt))
  /\ expected_present "None" = false
  /\ expected_present "NAN" = false
  /\ expected_present "nan" = false.
Proof.
  apply (absent_expected_passes Fixture.math "xMath" "xCompare" "a;b" "None"
           "P1" "D1" "1" tt tt (Unary (fun aIn w => (Fixture.xCompare aIn, w))) "False").
  - reflexivity.
  - reflexivity.
  - reflexivity.
  - right. right. left. reflexivity.
Defined.

(** ** Critical short-circuit *)

Section PlanRunner.
Context {World : Type} (P : provider World) (fs : disk).
Context (fuel : nat) (ypad_config : suite_config) (plan_id design_id : string).


Lemma for_each_action_through (actions : list (actions_row string)) (st st' : state World)
  (rs : list action_result) :
  runs_through P fs ypad_config fuel plan_id design_id actions st rs st' ->
  forall after results,
    for_each_action P fs fuel ypad_config plan_id design_id (actions ++ after)%list results st
    = for_each_action P fs fuel ypad_config plan_id design_id after (results ++ rs)%list st'.
Proof.
  induction 1 as [st | action_row more st st1 st2 result rs Hrun Hgo _ IH]; intros after results.
  - rewrite app_nil_r. reflexivity.
  - simpl. rewrite Hrun, Hgo, IH, <- app_assoc. reflexivity.
Qed.

End PlanRunner.



(** ** Reuse of a plan that does not exist *)

Lemma plans_with_id_none (reused_plan_id : string) (rows : list (plans_row cell)) :
  (forall r, In r rows -> fix_PlanId (PlanId r) <> reused_plan_id) ->
  plans_with_id reused_plan_id (load_csv_plans rows) = [].
Proof.
  unfold plans_with_id, load_csv_plans. induction rows as [|r rows IH]; intros Hnone; simpl.
  - reflexivity.
  - destruct (String.eqb_spec (fix_PlanId (PlanId r)) reused_plan_id) as [E|_].
    + exfalso. apply (Hnone r); [left; reflexivity | exact E].
    + apply IH. intros r' Hr'. apply Hnone. right. exact Hr'.
Qed.

(** C1, as the claim states it, fails: a reuse action that names no plan
    of the Plans table makes [process_action] raise, nothing between it
    and [main] catches the error, and the run ends there: no row for the
    step, no second design, no second plan. *)
Lemma missing_reused_plan_aborts_the_run :
  let fs :=
    Fixture.disk_of
      [PlanRow (CStr "P1") "D1;D2" "Y"; PlanRow (CStr "P2") "D1" "Y"]
      [Fixture.reuse (CStr "P1") "1" "P9";
       Fixture.compare (CStr "P1") "2" "left;right" "True" "n";
       Fixture.compare (CStr "P2") "1" "left;right" "True" "n"] in
  fst (main Fixture.math fs 5 "fStart.json" tt) = Raises (ValueError "Reused plan P9 not found").
Proof.
  cbv zeta. vm_compute. reflexivity.
Qed.

Lemma reuse_loop_passes {World : Type}
  (run : actions_row string -> state World -> outcome action_result * state World)
  (rows : list (actions_row string)) (st st' : state World) :
  reuse_passes run rows st st' ->
  forall rest, reuse_loop run (rows ++ rest)%list st = reuse_loop run rest st'.
Proof.
  induction 1 as [s0 | a more s0 s1 s2 r0 Ha Hgo _ IH]; intros rest; [reflexivity|].
  cbn [app reuse_loop]. rewrite Ha.
  destruct (String.eqb (res_ActionType r0) "xUI" && String.eqb (res_ActionName r0) "xOpenBrowser");
    [apply IH|].
  cbn [orb] in Hgo. destruct (Result_eqb (res_Result r0) Fail); [discriminate Hgo | apply IH].
Qed.

(** The reuse case of [process_action], one level unfolded. *)
Lemma process_action_reuse {World : Type} (P : provider World) (fs : disk)
  (ypad_config : suite_config) (fuel : nat) (plan_id design_id : string)
  (action_row : actions_row string) (st : state World) (y3_designs : designs_table)
  (input_data expected : string) (y1_plans : list (plans_row string))
  (y2_actions : list (actions_row string)) :
  ActionType action_row = "xReuse" ->
  designs_csv_at fs (yDesigns ypad_config) = Some y3_designs ->
  resolve y3_designs design_id (Input action_row) (Expected action_row)
  = inr (input_data, expected) ->
  action_cache st !! cache_key plan_id (StepId action_row) input_data = None ->
  load_plans fs (yPlans ypad_config) = inr y1_plans ->
  load_actions fs (yActions ypad_config) = inr y2_actions ->
  plans_with_id (ActionName action_row) y1_plans <> [] ->
  process_action P fs (S fuel) ypad_config plan_id design_id action_row st
  = match reuse_loop (process_action P fs fuel ypad_config (ActionName action_row) design_id)
            (actions_of (ActionName action_row) y2_actions) st with
    | (Returns (Some action_result), st') => (Returns action_result, st')
    | (Returns None, st') =>
        execute_action P plan_id design_id action_row input_data expected st'
    | (Raises e, st') => (Raises e, st')
    | (Unfinished, st') => (Unfinished, st')
    end.
Proof.
  intros HaT Hdesigns Hresolve Hmiss Hplans Hactions Hfound.
  cbn [process_action]. unfold load at 1.
  rewrite Hdesigns, Hresolve, Hmiss, HaT, Hplans, Hactions.
  destruct (plans_with_id _ _); [contradiction | reflexivity].
Qed.

(** Each loop of the engine runs a list in order and stops at the first
    part that does not return. *)
Section Loops.
Context {World : Type} (P : provider World) (fs : disk) (fuel : nat).

Lemma for_each_design_app (ypad_config : suite_config) (plan_id : string)
  (actions : list (actions_row string)) (earlier later : list string) :
  forall results st,
    for_each_design P fs fuel ypad_config plan_id (earlier ++ later)%list actions results st
    = match for_each_design P fs fuel ypad_config plan_id earlier actions results st with
      | (Returns results', st') =>
          for_each_design P fs fuel ypad_config plan_id later actions results' st'
      | other => other
      end.
Proof.
  induction earlier as [|d more IH]; intros results st; cbn [app for_each_design]; [reflexivity|].
  destruct (for_each_action _ _ _ _ _ _ _ _ st) as [[rs | e |] st1]; [apply IH | reflexivity..].
Qed.

Lemma for_each_plan_app (ypad_config : suite_config) (earlier later : list (plans_row string)) :
  forall all_results st,
    for_each_plan P fs fuel ypad_config (earlier ++ later)%list all_results st
    = match for_each_plan P fs fuel ypad_config earlier all_results st with
      | (Returns all_results', st') => for_each_plan P fs fuel ypad_config later all_results' st'
      | other => other
      end.
Proof.
  induction earlier as [|p more IH]; intros all_results st; cbn [app for_each_plan]; [reflexivity|].
  destruct (process_plan _ _ _ _ p st) as [[rs | e |] st1]; [apply IH | reflexivity..].
Qed.

Lemma for_each_suite_app (earlier later : list string) :
  forall reports st,
    for_each_suite P fs fuel (earlier ++ later)%list reports st
    = match for_each_suite P fs fuel earlier reports st with
      | (Returns reports', st') => for_each_suite P fs fuel later reports' st'
      | other => other
      end.
Proof.
  induction earlier as [|c more IH]; intros reports st; cbn [app for_each_suite]; [reflexivity|].
  destruct (load (ypad_config_at fs) c) as [e | ypad_config]; [apply IH|].
  destruct (load_plans fs _) as [e | y1_plans]; [reflexivity|].
  destruct (plans_to_run y1_plans) as [|p ps]; [apply IH|].
  destruct (for_each_plan _ _ _ _ _ _ st) as [[[|r df] | e |] st1];
    [reflexivity | apply IH | reflexivity..].
Qed.

(** An error out of the loop over the plans of a suite ends the loop
    over the suites. *)
Lemma for_each_suite_raises (ypad_config : suite_config) (config_path : string)
  (more_configs : list string) (reports : list suite_report) (y1_plans : list (plans_row string))
  (e : exn) (st st' : state World) :
  ypad_config_at fs config_path = Some ypad_config ->
  load_plans fs (yPlans ypad_config) = inr y1_plans ->
  for_each_plan P fs fuel ypad_config (plans_to_run y1_plans) [] st = (Raises e, st') ->
  for_each_suite P fs fuel (config_path :: more_configs) reports st = (Raises e, st').
Proof.
  intros Hconfig Hplans Hrun. cbn [for_each_suite]. unfold load. rewrite Hconfig, Hplans.
  destruct (plans_to_run y1_plans) as [|p ps]; [discriminate Hrun|].
  rewrite Hrun. reflexivity.
Qed.

End Loops.

(** C1, amended: a reuse action that is not served from the cache and
    whose ActionName matches no PlanId of the loaded Plans table raises
    ValueError (Reused plan ... not found) out of [process_action]; the
    state is left as it was and no row is produced for the step.
    Wherever the action stands, nothing catches the error: it leaves the
    loop over the plan's actions whatever actions ran before it, the
    loop over the designs whatever designs were completed before,
    [process_plan], the loop over the plans whatever plans were
    completed before, the loop over the suites whatever suites were
    completed before, and [main].  The same holds when the action is
    reached through another reuse step: that step raises the same
    error. *)
Theorem missing_reused_plan_raises {World : Type} (P : provider World) (fs : disk)
  (fuel : nat) (ypad_config : suite_config) (plan_id design_id : string)
  (action_row : actions_row string) (st : state World) (y3_designs : designs_table)
  (input_data expected : string) (raw_plans : list (plans_row cell))
  (raw_actions : list (actions_row cell)) :
  ActionType action_row = "xReuse" ->
  designs_csv_at fs (yDesigns ypad_config) = Some y3_designs ->
  resolve y3_designs design_id (Input action_row) (Expected action_row)
  = inr (input_data, expected) ->
  action_cache st !! cache_key plan_id (StepId action_row) input_data = None ->
  plans_csv_at fs (yPlans ypad_config) = Some raw_plans ->
  actions_csv_at fs (yActions ypad_config) = Some raw_actions ->
  (forall r, In r raw_plans -> fix_PlanId (PlanId r) <> ActionName action_row) ->
  let error := ValueError ("Reused plan " ++ ActionName action_row ++ " not found") in
  process_action P fs (S fuel) ypad_config plan_id design_id action_row st = (Raises error, st)
  /\ (forall before after rs st0,
        runs_through P fs ypad_config (S fuel) plan_id design_id before st0 rs st ->
        let actions := (before ++ action_row :: after)%list in
        (forall results,
            for_each_action P fs (S fuel) ypad_config plan_id design_id actions results st0
            = (Raises error, st))
        /\ (forall earlier_designs later_designs results results' st1,
              for_each_design P fs (S fuel) ypad_config plan_id earlier_designs actions results st1
              = (Returns results', st0) ->
              for_each_design P fs (S fuel) ypad_config plan_id
                (earlier_designs ++ design_id :: later_designs)%list actions results st1
              = (Raises error, st))
        /\ (forall plan_row earlier_designs later_designs results' st1,
              PlanId plan_row = plan_id ->
              split_semicolon (DesignId plan_row)
              = (earlier_designs ++ design_id :: later_designs)%list ->
              actions_of plan_id (load_csv_actions raw_actions) = actions ->
              for_each_design P fs (S fuel) ypad_config plan_id earlier_designs actions [] st1
              = (Returns results', st0) ->
              process_plan P fs (S fuel) ypad_config plan_row st1 = (Raises error, st)
              /\ (forall earlier_plans later_plans all_results all_results' st2,
                    for_each_plan P fs (S fuel) ypad_config earlier_plans all_results st2
                    = (Returns all_results', st1) ->
                    for_each_plan P fs (S fuel) ypad_config
                      (earlier_plans ++ plan_row :: later_plans)%list all_results st2
                    = (Raises error, st))
              /\ (forall config_path earlier_plans later_plans all_results' st2,
                    ypad_config_at fs config_path = Some ypad_config ->
                    plans_to_run (load_csv_plans raw_plans)
                    = (earlier_plans ++ plan_row :: later_plans)%list ->
                    for_each_plan P fs (S fuel) ypad_config earlier_plans [] st2
                    = (Returns all_results', st1) ->
                    (forall earlier_configs later_configs reports reports' st3,
                        for_each_suite P fs (S fuel) earlier_configs reports st3
                        = (Returns reports', st2) ->
                        for_each_suite P fs (S fuel)
                          (earlier_configs ++ config_path :: later_configs)%list reports st3
                        = (Raises error, st))
                    /\ (forall config w earlier_configs later_configs reports',
                          main_config_at fs config
                          = Some (earlier_configs ++ config_path :: later_configs)%list ->
                          for_each_suite P fs (S fuel) earlier_configs [] (State ∅ w)
                          = (Returns reports', st2) ->
                          main P fs (S fuel) config w = (Raises error, st)))))
  /\ (forall outer_plan_id outer_row outer_input outer_expected before after st0,
        ActionType outer_row = "xReuse" ->
        ActionName outer_row = plan_id ->
        resolve y3_designs design_id (Input outer_row) (Expected outer_row)
        = inr (outer_input, outer_expected) ->
        action_cache st0 !! cache_key outer_plan_id (StepId outer_row) outer_input = None ->
        plans_with_id plan_id (load_csv_plans raw_plans) <> [] ->
        actions_of plan_id (load_csv_actions raw_actions) = (before ++ action_row :: after)%list ->
        reuse_passes (process_action P fs (S fuel) ypad_config plan_id design_id) before st0 st ->
        process_action P fs (S (S fuel)) ypad_config outer_plan_id design_id outer_row st0
        = (Raises error, st)).
Proof.
  intros HaT Hdesigns Hresolve Hmiss Hplans Hactions Hnone error.
  assert (Hload_plans : load_plans fs (yPlans ypad_config) = inr (load_csv_plans raw_plans)).
  { unfold load_plans, load. rewrite Hplans. reflexivity. }
  assert (Hload_actions : load_actions fs (yActions ypad_config) = inr (load_csv_actions raw_actions)).
  { unfold load_actions, load. rewrite Hactions. reflexivity. }
  assert (Hraise : process_action P fs (S fuel) ypad_config plan_id design_id action_row st
                   = (Raises error, st)).
  { cbn [process_action]. unfold load at 1.
    rewrite Hdesigns, Hresolve, Hmiss, HaT, Hload_plans, Hload_actions.
    rewrite (plans_with_id_none _ _ Hnone). reflexivity. }
  split; [exact Hraise | split].
  - intros before after rs st0 Hbefore actions.
    assert (Hloop : forall results,
               for_each_action P fs (S fuel) ypad_config plan_id design_id actions results st0
               = (Raises error, st)).
    { intros results. unfold actions.
      rewrite (for_each_action_through P fs (S fuel) ypad_config plan_id design_id
                 before st0 st rs Hbefore).
      cbn [for_each_action]. rewrite Hraise. reflexivity. }
    assert (Hdesign : forall earlier_designs later_designs results results' st1,
               for_each_design P fs (S fuel) ypad_config plan_id earlier_designs actions results st1
               = (Returns results', st0) ->
               for_each_design P fs (S fuel) ypad_config plan_id
                 (earlier_designs ++ design_id :: later_designs)%list actions results st1
               = (Raises error, st)).
    { intros earlier_designs later_designs results results' st1 Hearlier.
      rewrite for_each_design_app, Hearlier. cbn [for_each_design]. rewrite Hloop. reflexivity. }
    split; [exact Hloop | split; [exact Hdesign|]].
    intros plan_row earlier_designs later_designs results' st1 Hid Hsplit Hof Hearlier.
    assert (Hplan : process_plan P fs (S fuel) ypad_config plan_row st1 = (Raises error, st)).
    { unfold process_plan. rewrite Hload_actions, Hid, Hsplit, Hof.
      apply (Hdesign _ _ _ _ _ Hearlier). }
    assert (Hplan_loop : forall earlier_plans later_plans all_results all_results' st2,
               for_each_plan P fs (S fuel) ypad_config earlier_plans all_results st2
               = (Returns all_results', st1) ->
               for_each_plan P fs (S fuel) ypad_config
                 (earlier_plans ++ plan_row :: later_plans)%list all_results st2
               = (Raises error, st)).
    { intros earlier_plans later_plans all_results all_results' st2 Hplans_before.
      rewrite for_each_plan_app, Hplans_before. cbn [for_each_plan]. rewrite Hplan. reflexivity. }
    split; [exact Hplan | split; [exact Hplan_loop|]].
    intros config_path earlier_plans later_plans all_results' st2 Hconfig Hrun Hplans_before.
    assert (Hsuite : forall more_configs reports,
               for_each_suite P fs (S fuel) (config_path :: more_configs) reports st2
               = (Raises error, st)).
    { intros more_configs reports.
      apply (for_each_suite_raises P fs (S fuel) ypad_config config_path more_configs reports
               (load_csv_plans raw_plans) error st2 st Hconfig Hload_plans).
      rewrite Hrun. apply (Hplan_loop _ _ _ _ _ Hplans_before). }
    split.
    + intros earlier_configs later_configs reports reports' st3 Hsuites_before.
      rewrite for_each_suite_app, Hsuites_before. apply Hsuite.
    + intros config w earlier_configs later_configs reports' Hmain Hsuites_before.
      unfold main, load. rewrite Hmain, for_each_suite_app, Hsuites_before, Hsuite. reflexivity.
  - intros outer_plan_id outer_row outer_input outer_expected before after st0
      HaT' Hname Hresolve' Hmiss' Hfound Hof Hbefore.
    rewrite (process_action_reuse P fs ypad_config (S fuel) outer_plan_id design_id outer_row st0
               y3_designs outer_input outer_expected (load_csv_plans raw_plans)
               (load_csv_actions raw_actions));
      try assumption; [|rewrite Hname; exact Hfound].
    rewrite Hname, Hof, (reuse_loop_passes _ before st0 st Hbefore). cbn [reuse_loop].
    rewrite Hraise. reflexivity.
Qed.

Lemma missing_reused_plan_raises_witness :
  let fs :=
    Fixture.disk_of
      [PlanRow (CStr "P0") "D1" "Y"; PlanRow (CNum "1") "D2;D1" "Y"]
      [Fixture.compare (CStr "P0") "1" "left;right" "True" "n";
       Fixture.compare (CNum "1") "1" "left;right" "True" "Y";
       Fixture.reuse (CNum "1") "2" "P9"] in
  fst (main Fixture.math fs 1 "fStart.json" tt) = Raises (ValueError "Reused plan P9 not found").
Proof.
  cbv zeta.
  pose (plans := [PlanRow (CStr "P0") "D1" "Y"; PlanRow (CNum "1") "D2;D1" "Y"]).
  pose (check := Fixture.compare (CNum "1") "1" "left;right" "True" "Y").
  pose (reuse := Fixture.reuse (CNum "1") "2" "P9").
  pose (actions := [Fixture.compare (CStr "P0") "1" "left;right" "True" "n"; check; reuse]).
  pose (fs := Fixture.disk_of plans actions).
  pose (st1 := snd (for_each_plan Fixture.math fs 1 Fixture.suite [PlanRow "P0" "D1" "Y"] []
                      (State ∅ tt))).
  pose (under_D2 := for_each_design Fixture.math fs 1 Fixture.suite "P1" ["D2"]
                      [fix_actions_row check; fix_actions_row reuse] [] st1).
  pose (checked := process_action Fixture.math fs 1 Fixture.suite "P1" "D1"
                     (fix_actions_row check) (snd under_D2)).
  pose (row := match fst checked with
               | Returns r => r
               | _ => ActionResult "" "" "" "" "" "" "" "" "" None Fail 0%Z
               end).
  pose (rows := match fst under_D2 with Returns rs => rs | _ => [] end).
  pose (before_P1 := match fst (for_each_plan Fixture.math fs 1 Fixture.suite
                                  [PlanRow "P0" "D1" "Y"] [] (State ∅ tt)) with
                     | Returns rs => rs
                     | _ => []
                     end).
  assert (Hmiss : action_cache (snd checked) !! cache_key "P1" "2" "nan" = None)
    by (vm_compute; reflexivity).
  assert (Hnone : forall r, In r plans -> fix_PlanId (PlanId r) <> "P9")
    by (intros r [<- | [<- | []]]; discriminate).
  destruct (missing_reused_plan_raises Fixture.math fs 0 Fixture.suite "P1" "D1"
              (fix_actions_row reuse) (snd checked) Fixture.designs "nan" "nan" plans actions
              eq_refl eq_refl eq_refl Hmiss eq_refl eq_refl Hnone) as (_ & Hreached & _).
  assert (Hbefore : runs_through Fixture.math fs Fixture.suite 1 "P1" "D1" [fix_actions_row check]
                      (snd under_D2) [row] (snd checked))
    by (eapply runs_next; [reflexivity | reflexivity | apply runs_none]).
  destruct (Hreached [fix_actions_row check] [] [row] (snd under_D2) Hbefore)
    as (_ & _ & Hplan).
  assert (Hdesigns_before :
            for_each_design Fixture.math fs 1 Fixture.suite "P1" ["D2"]
              ([fix_actions_row check] ++ [fix_actions_row reuse])%list [] st1
            = (Returns rows, snd under_D2)) by reflexivity.
  destruct (Hplan (PlanRow "P1" "D2;D1" "Y") ["D2"] [] rows st1 eq_refl eq_refl eq_refl
              Hdesigns_before) as (_ & _ & Hsuite).
  assert (Hplans_before :
            for_each_plan Fixture.math fs 1 Fixture.suite [PlanRow "P0" "D1" "Y"] [] (State ∅ tt)
            = (Returns before_P1, st1)) by reflexivity.
  destruct (Hsuite "suite.json" [PlanRow "P0" "D1" "Y"] [] before_P1 (State ∅ tt)
              eq_refl eq_refl Hplans_before) as [_ Hmain].
  exact (f_equal fst (Hmain "fStart.json" tt [] [] [] eq_refl eq_refl)).
Defined.

(** ** Termination of reuse expansion *)

Section ReuseExpander.
Context {World : Type} (P : provider World) (fs : disk) (ypad_config : suite_config).

Lemma execute_action_finishes (plan_id design_id : string) (action_row : actions_row string)
  (input_data expected : string) (st : state World) :
  finished (fst (execute_action P plan_id design_id action_row input_data expected st)) = true.
Proof.
  unfold execute_action. destruct (runAction _ _ _ _ _ _ _ _ _) as [[e | [[r o] t]] w]; reflexivity.
Qed.

Lemma reuse_loop_finishes (run : actions_row string -> state World -> outcome action_result * state World)
  (reused_actions : list (actions_row string)) :
  (forall a st, In a reused_actions -> finished (fst (run a st)) = true) ->
  forall st, finished (fst (reuse_loop run reused_actions st)) = true.
Proof.
  induction reused_actions as [|a more IH]; intros Hrun st; cbn [reuse_loop].
  - reflexivity.
  - pose proof (Hrun a st (or_introl eq_refl)) as Ha.
    assert (Hmore : forall st', finished (fst (reuse_loop run more st')) = true).
    { apply IH. intros b st' Hb. apply Hrun. right. exact Hb. }
    destruct (run a st) as [[r | e |] st']; [|reflexivity|discriminate Ha].
    destruct (_ && _); [apply Hmore|]. destruct (Result_eqb _ _); [reflexivity | apply Hmore].
Qed.

(** [process_action] ends as soon as the reuse loop it may run does. *)
Lemma process_action_finishes_step (fuel : nat) (plan_id design_id : string)
  (action_row : actions_row string) (st : state World) :
  (ActionType action_row = "xReuse" ->
   forall y2_actions, load_actions fs (yActions ypad_config) = inr y2_actions ->
   forall st',
     finished (fst (reuse_loop
                      (process_action P fs fuel ypad_config (ActionName action_row) design_id)
                      (actions_of (ActionName action_row) y2_actions) st')) = true) ->
  finished (fst (process_action P fs (S fuel) ypad_config plan_id design_id action_row st)) = true.
Proof.
  intros Hloop. cbn [process_action].
  destruct (load (designs_csv_at fs) _) as [e | y3_designs]; [reflexivity|].
  destruct (resolve _ _ _ _) as [e | [input_data expected]]; [reflexivity|].
  destruct (action_cache st !! _) as [[[r o] t]|]; [reflexivity|].
  destruct (String.eqb_spec (ActionType action_row) "xReuse") as [HaT|_];
    [|apply execute_action_finishes].
  destruct (load_plans fs _) as [e | y1_plans]; [reflexivity|].
  destruct (load_actions fs _) as [e | y2_actions] eqn:Hload; [reflexivity|].
  destruct (plans_with_id _ _); [reflexivity|].
  specialize (Hloop HaT y2_actions eq_refl st).
  destruct (reuse_loop _ _ st) as [[[ar|] | e |] st'].
  - reflexivity.
  - apply execute_action_finishes.
  - reflexivity.
  - discriminate Hloop.
Qed.

Section Acyclic.
Context (rank : string -> nat).

Lemma process_action_finishes :
  reuse_acyclic fs ypad_config rank ->
  forall n plan_id design_id action_row st,
    (ActionType action_row = "xReuse" -> rank (ActionName action_row) < n) ->
    finished (fst (process_action P fs (S n) ypad_config plan_id design_id action_row st)) = true.
Proof.
  intros Hacyclic. induction n as [|n IH]; intros plan_id design_id action_row st Hrank;
    apply process_action_finishes_step; intros HaT y2_actions Hload st';
    specialize (Hrank HaT); [lia|].
  apply reuse_loop_finishes. intros a st'' Ha. apply IH. intros Hreuse.
  unfold load_actions, load in Hload.
  destruct (actions_csv_at fs (yActions ypad_config)) as [raw|] eqn:Hraw; [|discriminate].
  injection Hload as <-.
  unfold actions_of in Ha. apply List.filter_In in Ha as [Ha Hid].
  apply String.eqb_eq in Hid.
  pose proof (Hacyclic raw a Hraw Ha Hreuse) as Hlt. rewrite Hid in Hlt. lia.
Qed.

Lemma for_each_action_finishes (fuel : nat) (plan_id design_id : string)
  (actions : list (actions_row string)) :
  (forall a st, In a actions ->
     finished (fst (process_action P fs fuel ypad_config plan_id design_id a st)) = true) ->
  forall results st,
    finished (fst (for_each_action P fs fuel ypad_config plan_id design_id actions results st)) = true.
Proof.
  induction actions as [|a more IH]; intros Hrun results st; cbn [for_each_action].
  - reflexivity.
  - pose proof (Hrun a st (or_introl eq_refl)) as Ha.
    destruct (process_action _ _ _ _ _ _ a st) as [[r | e |] st']; [|reflexivity|discriminate Ha].
    destruct (_ && _); [reflexivity|]. apply IH. intros b st'' Hb. apply Hrun. right. exact Hb.
Qed.

Lemma for_each_design_finishes (fuel : nat) (plan_id : string) (actions : list (actions_row string))
  (design_ids : list string) :
  (forall design_id a st, In a actions ->
     finished (fst (process_action P fs fuel ypad_config plan_id design_id a st)) = true) ->
  forall results st,
    finished (fst (for_each_design P fs fuel ypad_config plan_id design_ids actions results st)) = true.
Proof.
  intros Hrun. induction design_ids as [|d more IH]; intros results st; cbn [for_each_design].
  - reflexivity.
  - pose proof (for_each_action_finishes fuel plan_id d actions (Hrun d) results st) as Hd.
    destruct (for_each_action _ _ _ _ _ _ _ _ st) as [[rs | e |] st'];
      [apply IH | reflexivity | discriminate Hd].
Qed.

End Acyclic.
End ReuseExpander.

(** A plan whose first action reuses the plan itself: every level of
    the expansion starts the next one, in the same state. *)
Lemma self_reuse_unfinished {World : Type} (P : provider World) (fs : disk)
  (ypad_config : suite_config) (plan_id design_id : string) (action_row : actions_row string)
  (st : state World) (y3_designs : designs_table) (input_data expected : string)
  (y1_plans : list (plans_row string)) (y2_actions more : list (actions_row string)) :
  ActionType action_row = "xReuse" ->
  ActionName action_row = plan_id ->
  designs_csv_at fs (yDesigns ypad_config) = Some y3_designs ->
  resolve y3_designs design_id (Input action_row) (Expected action_row)
  = inr (input_data, expected) ->
  action_cache st !! cache_key plan_id (StepId action_row) input_data = None ->
  load_plans fs (yPlans ypad_config) = inr y1_plans ->
  load_actions fs (yActions ypad_config) = inr y2_actions ->
  plans_with_id plan_id y1_plans <> [] ->
  actions_of plan_id y2_actions = action_row :: more ->
  forall fuel,
    process_action P fs fuel ypad_config plan_id design_id action_row st = (Unfinished, st).
Proof.
  intros HaT Hname Hdesigns Hresolve Hmiss Hplans Hactions Hfound Hfirst.
  induction fuel as [|fuel IH]; [reflexivity|].
  rewrite (process_action_reuse P fs ypad_config fuel plan_id design_id action_row st
             y3_designs input_data expected y1_plans y2_actions);
    try assumption; [|rewrite Hname; exact Hfound].
  rewrite Hname, Hfirst. cbn [reuse_loop]. rewrite IH. reflexivity.
Qed.

(** C4, as the claim states it, fails: nothing in the engine tracks the
    plans being expanded.  A plan whose only action reuses the plan
    itself sends [process_action] into itself in an unchanged state, so
    no depth of recursion ends the call: it yields neither a row nor an
    error of the engine (Python stops it only by exhausting its stack). *)
Lemma self_reuse_never_ends :
  let fs := Fixture.disk_of [PlanRow (CStr "P1") "D1" "Y"] [Fixture.reuse (CStr "P1") "1" "P1"] in
  never_ends (fun fuel =>
    process_action Fixture.math fs fuel Fixture.suite "P1" "D1"
      (fix_actions_row (Fixture.reuse (CStr "P1") "1" "P1")) (State ∅ tt)).
Proof.
  cbv zeta. intros fuel.
  rewrite (self_reuse_unfinished Fixture.math
             (Fixture.disk_of [PlanRow (CStr "P1") "D1" "Y"] [Fixture.reuse (CStr "P1") "1" "P1"])
             Fixture.suite "P1" "D1" (fix_actions_row (Fixture.reuse (CStr "P1") "1" "P1"))
             (State ∅ tt) Fixture.designs "nan" "nan"
             [PlanRow "P1" "D1" "Y"] [fix_actions_row (Fixture.reuse (CStr "P1") "1" "P1")] []);
    try reflexivity.
  discriminate.
Qed.

(** C4, amended: the engine has no cycle or depth guard; what ends reuse
    expansion is the shape of the tables.  When the reuse call graph of
    the Actions table is acyclic (every reuse action names a plan of
    smaller rank than its own), every action of a plan, and the plan as a
    whole, ends within a recursion depth of the plan's rank plus one, by
    returning its rows or by raising. *)
Theorem reuse_expansion_ends_when_acyclic {World : Type} (P : provider World) (fs : disk)
  (ypad_config : suite_config) (rank : string -> nat) :
  reuse_acyclic fs ypad_config rank ->
  forall fuel raw plan_row,
    actions_csv_at fs (yActions ypad_config) = Some raw ->
    rank (PlanId plan_row) < fuel ->
    (forall design_id action_row st,
        In action_row (actions_of (PlanId plan_row) (load_csv_actions raw)) ->
        finished (fst (process_action P fs fuel ypad_config (PlanId plan_row) design_id
                         action_row st)) = true)
    /\ (forall st, finished (fst (process_plan P fs fuel ypad_config plan_row st)) = true).
Proof.
  intros Hacyclic fuel raw plan_row Hraw Hrank.
  assert (Hactions : forall design_id action_row st,
             In action_row (actions_of (PlanId plan_row) (load_csv_actions raw)) ->
             finished (fst (process_action P fs fuel ypad_config (PlanId plan_row) design_id
                              action_row st)) = true).
  { intros design_id action_row st Hin. destruct fuel as [|n]; [lia|].
    apply (process_action_finishes P fs ypad_config rank Hacyclic). intros HaT.
    unfold actions_of in Hin. apply List.filter_In in Hin as [Hin Hid].
    apply String.eqb_eq in Hid.
    pose proof (Hacyclic raw action_row Hraw Hin HaT) as Hlt. rewrite Hid in Hlt. lia. }
  split; [exact Hactions|].
  intros st. unfold process_plan, load_actions, load. rewrite Hraw.
  apply for_each_design_finishes. exact Hactions.
Qed.

Lemma reuse_expansion_ends_when_acyclic_witness :
  let fs :=
    Fixture.disk_of
      [PlanRow (CStr "P1") "D1" "Y"; PlanRow (CStr "P2") "D1" "N"]
      [Fixture.reuse (CStr "P1") "1" "P2";
       Fixture.compare (CStr "P2") "1" "left;x" "True" "n"] in
  finished (fst (process_plan Fixture.math fs 2 Fixture.suite (PlanRow "P1" "D1" "Y") (State ∅ tt)))
  = true.
Proof.
  cbv zeta.
  apply (reuse_expansion_ends_when_acyclic Fixture.math
           (Fixture.disk_of
              [PlanRow (CStr "P1") "D1" "Y"; PlanRow (CStr "P2") "D1" "N"]
              [Fixture.reuse (CStr "P1") "1" "P2";
               Fixture.compare (CStr "P2") "1" "left;x" "True" "n"])
           Fixture.suite (fun plan_id => if String.eqb plan_id "P1" then 1 else 0)
         ) with (raw := [Fixture.reuse (CStr "P1") "1" "P2";
                         Fixture.compare (CStr "P2") "1" "left;x" "True" "n"]).
  - intros raw a Hraw Ha HaT. vm_compute in Hraw. injection Hraw as <-.
    destruct Ha as [<- | [<- | []]]; [vm_compute; lia | discriminate HaT].
  - reflexivity.
  - vm_compute. lia.
Defined.

(** ** The summary of a suite *)

(** C2 is not what [main] computes: its [passed_plans] reads the first
    row of each (DesignId, PlanId) group only.  Here plan P1 runs two
    actions for design D1, the first passes and the second fails; the
    suite reports one passed plan and no failed one, while the status
    [process_plan] prints for the same rows is not a success. *)
Theorem passed_plans_reads_first_row_only :
  let fs :=
    Fixture.disk_of [PlanRow (CNum "1") "D1" "Y"]
      [Fixture.compare (CNum "1") "1" "left;right" "True" "n";
       Fixture.compare (CNum "1") "2" "left;x" "True" "n"] in
  exists df stats st,
    main Fixture.math fs 1 "fStart.json" tt
    = (Returns (Finished [Completed "suite.json" df stats]), st)
    /\ map (fun r => (res_DesignId r, res_PlanId r, res_StepId r, res_Result r)) df
       = [("D1", "P1", "1", Pass); ("D1", "P1", "2", Fail)]
    /\ total_plans stats = 1
    /\ passed stats = 1
    /\ failed stats = 0%Z
    /\ plan_completed_successfully "P1" df = false.
Proof.
  cbv zeta. do 3 eexists. split; [vm_compute; reflexivity|].
  repeat split.
Qed.

(** ** Missing files *)

(** C7 is not what [main] does for a missing table: only the load of the
    suite's configuration is guarded.  With two suites configured, the
    first one's Plans, Actions or Designs file missing, FileNotFoundError
    escapes [main] and the second suite is never run; when it is the
    first suite's configuration that is missing, the second suite runs. *)
Theorem missing_table_aborts_the_run :
  let plans := [PlanRow (CNum "1") "D1" "Y"] in
  let actions := [Fixture.compare (CNum "1") "1" "left;right" "True" "n"] in
  let suite_a := SuiteConfig "a/yPlans.csv" "a/yActions.csv" "a/yDesigns.csv" in
  let configs := fun with_a path =>
    if String.eqb path "a.json" then (if with_a : bool then Some suite_a else None)
    else if String.eqb path "b.json" then Some Fixture.suite else None in
  let tables := fun (A : Type) (a_present : bool) (a_path b_path : string) (content : A) path =>
    if String.eqb path b_path then Some content
    else if String.eqb path a_path && a_present then Some content else None in
  let fs := fun with_a a_plans a_actions a_designs =>
    Disk (Fixture.file "fStart.json" ["a.json"; "b.json"]) (configs with_a)
      (tables _ a_plans "a/yPlans.csv" "yPlans.csv" plans)
      (tables _ a_actions "a/yActions.csv" "yActions.csv" actions)
      (tables _ a_designs "a/yDesigns.csv" "yDesigns.csv" Fixture.designs) in
  let run := fun disk => fst (main Fixture.math disk 1 "fStart.json" tt) in
  run (fs true false true true) = Raises (FileNotFoundError "a/yPlans.csv")
  /\ run (fs true true false true) = Raises (FileNotFoundError "a/yActions.csv")
  /\ run (fs true true true false) = Raises (FileNotFoundError "a/yDesigns.csv")
  /\ (exists df stats,
        run (fs false true true true)
        = Returns (Finished [ConfigNotFound "a.json"; Completed "b.json" df stats]))
  /\ (exists dfa sa dfb sb,
        run (fs true true true true)
        = Returns (Finished [Completed "a.json" dfa sa; Completed "b.json" dfb sb])).
Proof.
  cbv zeta. split; [|split; [|split; [|split]]].
  - vm_compute. reflexivity.
  - vm_compute. reflexivity.
  - vm_compute. reflexivity.
  - do 2 eexists. vm_compute. reflexivity.
  - do 4 eexists. vm_compute. reflexivity.
Qed.


(** * Further properties of the engine *)

(** ** What [process_action] keeps *)

Section EngineInvariants.
Context {World : Type} (P : provider World) (fs : disk) (ypad_config : suite_config).

Lemma cache_kept_refl (st : state World) : cache_kept st st.
Proof. intros key cached H. exact H. Qed.

Lemma cache_kept_trans (st1 st2 st3 : state World) :
  cache_kept st1 st2 -> cache_kept st2 st3 -> cache_kept st1 st3.
Proof. intros H12 H23 key cached H. apply H23, H12, H. Qed.

(** A failed row handed back by the reuse loop is the row some reused
    action returned, in the state that action left. *)
Lemma reuse_loop_some (run : actions_row string -> state World -> outcome action_result * state World)
  (reused_actions : list (actions_row string)) :
  forall st ar st',
    reuse_loop run reused_actions st = (Returns (Some ar), st') ->
    exists a st0, In a reused_actions /\ run a st0 = (Returns ar, st') /\ res_Result ar = Fail.
Proof.
  induction reused_actions as [|a more IH]; intros st ar st' H; cbn [reuse_loop] in H.
  - discriminate H.
  - destruct (run a st) as [[r | e |] st1] eqn:Hrun; try discriminate H.
    assert (Hmore : reuse_loop run more st1 = (Returns (Some ar), st') ->
                    exists a0 st0, In a0 (a :: more) /\ run a0 st0 = (Returns ar, st')
                                   /\ res_Result ar = Fail).
    { intros Hm. destruct (IH _ _ _ Hm) as (a0 & st0 & Hin & Ha0 & Hf).
      exists a0, st0. split; [right; exact Hin | auto]. }
    destruct (_ && _); [exact (Hmore H)|].
    destruct (Result_eqb (res_Result r) Fail) eqn:Hfail; [|exact (Hmore H)].
    injection H as <- <-. exists a, st. split; [left; reflexivity | split; [exact Hrun|]].
    destruct (res_Result r); [discriminate Hfail | reflexivity].
Qed.

(** A relation between states that every call of [run] respects is
    respected by the reuse loop. *)
Lemma reuse_loop_preserves (R : state World -> state World -> Prop)
  (run : actions_row string -> state World -> outcome action_result * state World)
  (reused_actions : list (actions_row string)) :
  (forall st, R st st) ->
  (forall st1 st2 st3, R st1 st2 -> R st2 st3 -> R st1 st3) ->
  (forall a st o st', run a st = (o, st') -> R st st') ->
  forall st o st', reuse_loop run reused_actions st = (o, st') -> R st st'.
Proof.
  intros Hrefl Htrans Hrun. induction reused_actions as [|a more IH]; intros st o st' H;
    cbn [reuse_loop] in H.
  - injection H as _ <-. apply Hrefl.
  - destruct (run a st) as [[r | e |] st1] eqn:Ha.
    + pose proof (Hrun _ _ _ _ Ha) as H1.
      destruct (_ && _); [exact (Htrans _ _ _ H1 (IH _ _ _ H))|].
      destruct (Result_eqb _ _); [injection H as _ <-; exact H1|].
      exact (Htrans _ _ _ H1 (IH _ _ _ H)).
    + injection H as _ <-. exact (Hrun _ _ _ _ Ha).
    + injection H as _ <-. exact (Hrun _ _ _ _ Ha).
Qed.

Lemma runAction_xReuse_raises (aName aIn aExpected plan_id design_id step_id : string) (w : World) :
  runAction P "xReuse" aName aIn aExpected plan_id design_id step_id w
  = (inl (ValueError "Unknown action type: xReuse"), w).
Proof. reflexivity. Qed.

Lemma execute_action_cache_kept (plan_id design_id : string) (action_row : actions_row string)
  (input_data expected : string) (st : state World) :
  action_cache st !! cache_key plan_id (StepId action_row) input_data = None
  \/ ActionType action_row = "xReuse" ->
  cache_kept st (snd (execute_action P plan_id design_id action_row input_data expected st)).
Proof.
  intros Hmiss. unfold execute_action.
  destruct Hmiss as [Hmiss | HaT].
  - destruct (runAction _ _ _ _ _ _ _ _ _) as [[e | [[r o] t]] w]; intros key cached H; cbn.
    + exact H.
    + rewrite lookup_insert_ne; [exact H|]. intros <-. rewrite Hmiss in H. discriminate H.
  - rewrite HaT, runAction_xReuse_raises. intros key cached H. exact H.
Qed.

Lemma process_action_cache_kept :
  forall fuel plan_id design_id action_row st,
    cache_kept st (snd (process_action P fs fuel ypad_config plan_id design_id action_row st)).
Proof.
  induction fuel as [|fuel IH]; intros plan_id design_id action_row st; cbn [process_action].
  - apply cache_kept_refl.
  - destruct (load (designs_csv_at fs) _) as [e | y3_designs]; [apply cache_kept_refl|].
    destruct (resolve _ _ _ _) as [e | [input_data expected]]; [apply cache_kept_refl|].
    destruct (action_cache st !! _) as [[[r o] t]|] eqn:Hmiss; [apply cache_kept_refl|].
    destruct (String.eqb_spec (ActionType action_row) "xReuse") as [HaT|_].
    + destruct (load_plans fs _) as [e | y1_plans]; [apply cache_kept_refl|].
      destruct (load_actions fs _) as [e | y2_actions]; [apply cache_kept_refl|].
      destruct (plans_with_id _ _); [apply cache_kept_refl|].
      destruct (reuse_loop _ _ st) as [o st1] eqn:Hloop.
      assert (H1 : cache_kept st st1).
      { apply (reuse_loop_preserves cache_kept _ _ cache_kept_refl cache_kept_trans) in Hloop;
          [exact Hloop|].
        intros a st0 o' st0' Ha. specialize (IH (ActionName action_row) design_id a st0).
        rewrite Ha in IH. exact IH. }
      destruct o as [[ar|] | e |]; try exact H1.
      eapply cache_kept_trans; [exact H1|].
      apply execute_action_cache_kept. right. exact HaT.
    + apply execute_action_cache_kept. left. exact Hmiss.
Qed.

Lemma execute_action_row (plan_id design_id : string) (action_row : actions_row string)
  (input_data expected : string) (st st' : state World) (r : action_result) :
  execute_action P plan_id design_id action_row input_data expected st = (Returns r, st') ->
  res_DesignId r = design_id /\ res_PlanId r = plan_id /\ res_ActionType r = ActionType action_row.
Proof.
  unfold execute_action.
  destruct (runAction _ _ _ _ _ _ _ _ _) as [[e | [[res o] t]] w]; intros H; [discriminate H|].
  injection H as <- _. auto.
Qed.

Lemma process_action_design :
  forall fuel plan_id design_id action_row st r st',
    process_action P fs fuel ypad_config plan_id design_id action_row st = (Returns r, st') ->
    res_DesignId r = design_id.
Proof.
  induction fuel as [|fuel IH]; intros plan_id design_id action_row st r st' H;
    cbn [process_action] in H; [discriminate H|].
  destruct (load (designs_csv_at fs) _) as [e | y3_designs]; [discriminate H|].
  destruct (resolve _ _ _ _) as [e | [input_data expected]]; [discriminate H|].
  destruct (action_cache st !! _) as [[[res o] t]|]; [injection H as <- _; reflexivity|].
  destruct (String.eqb (ActionType action_row) "xReuse").
  - destruct (load_plans fs _) as [e | y1_plans]; [discriminate H|].
    destruct (load_actions fs _) as [e | y2_actions]; [discriminate H|].
    destruct (plans_with_id _ _); [discriminate H|].
    destruct (reuse_loop _ _ st) as [[[ar|] | e |] st1] eqn:Hloop; try discriminate H.
    + injection H as <- <-. apply reuse_loop_some in Hloop as (a & st0 & _ & Ha & _).
      apply (IH _ _ _ _ _ _ Ha).
    + apply execute_action_row in H as [H _]. exact H.
  - apply execute_action_row in H as [H _]. exact H.
Qed.

End EngineInvariants.

Section PlanInvariants.
Context {World : Type} (P : provider World) (fs : disk) (ypad_config : suite_config).

Lemma for_each_action_cache_kept (fuel : nat) (plan_id design_id : string)
  (actions : list (actions_row string)) :
  forall results st,
    cache_kept st (snd (for_each_action P fs fuel ypad_config plan_id design_id actions results st)).
Proof.
  induction actions as [|a more IH]; intros results st; cbn [for_each_action].
  - apply cache_kept_refl.
  - pose proof (process_action_cache_kept P fs ypad_config fuel plan_id design_id a st) as Ha.
    destruct (process_action _ _ _ _ _ _ a st) as [[r | e |] st1]; try exact Ha.
    destruct (_ && _); [exact Ha|]. eapply cache_kept_trans; [exact Ha | apply IH].
Qed.

Lemma for_each_design_cache_kept (fuel : nat) (plan_id : string)
  (actions : list (actions_row string)) (design_ids : list string) :
  forall results st,
    cache_kept st (snd (for_each_design P fs fuel ypad_config plan_id design_ids actions results st)).
Proof.
  induction design_ids as [|d more IH]; intros results st; cbn [for_each_design].
  - apply cache_kept_refl.
  - pose proof (for_each_action_cache_kept fuel plan_id d actions results st) as Hd.
    destruct (for_each_action _ _ _ _ _ _ _ _ st) as [[rs | e |] st1]; try exact Hd.
    eapply cache_kept_trans; [exact Hd | apply IH].
Qed.

Lemma for_each_action_designs (fuel : nat) (plan_id design_id : string) (Q : action_result -> Prop)
  (actions : list (actions_row string)) :
  (forall r, res_DesignId r = design_id -> Q r) ->
  forall results st rs st',
    Forall Q results ->
    for_each_action P fs fuel ypad_config plan_id design_id actions results st = (Returns rs, st') ->
    Forall Q rs.
Proof.
  intros HQ. induction actions as [|a more IH]; intros results st rs st' Hres H;
    cbn [for_each_action] in H.
  - injection H as <- _. exact Hres.
  - destruct (process_action _ _ _ _ _ _ a st) as [[r | e |] st1] eqn:Ha; try discriminate H.
    assert (Hnew : Forall Q (results ++ [r])%list).
    { apply Forall_app. split; [exact Hres|]. constructor; [|constructor].
      apply HQ. exact (process_action_design P fs ypad_config _ _ _ _ _ _ _ Ha). }
    destruct (_ && _); [injection H as <- _; exact Hnew|]. exact (IH _ _ _ _ Hnew H).
Qed.

End PlanInvariants.

(** X1: within a run the cache only grows: whatever [process_action] or
    [process_plan] does and however it ends, every outcome that was
    cached before is still cached, unchanged, afterwards. *)
Theorem cached_outcomes_are_kept {World : Type} (P : provider World) (fs : disk)
  (ypad_config : suite_config) (fuel : nat) :
  (forall plan_id design_id action_row st,
      cache_kept st (snd (process_action P fs fuel ypad_config plan_id design_id action_row st)))
  /\ (forall plan_row st, cache_kept st (snd (process_plan P fs fuel ypad_config plan_row st))).
Proof.
  split.
  - apply process_action_cache_kept.
  - intros plan_row st. unfold process_plan.
    destruct (load_actions fs _) as [e | y2_actions]; [apply cache_kept_refl|].
    apply for_each_design_cache_kept.
Qed.

(** X2: every row of a plan carries one of the design ids of the plan's
    DesignId list, also the rows that come out of reused plans: a reused
    plan runs under the caller's design. *)
Theorem rows_carry_the_callers_design {World : Type} (P : provider World) (fs : disk)
  (ypad_config : suite_config) (fuel : nat) (plan_row : plans_row string)
  (st st' : state World) (results : list action_result) :
  process_plan P fs fuel ypad_config plan_row st = (Returns results, st') ->
  Forall (fun r => In (res_DesignId r) (split_semicolon (DesignId plan_row))) results.
Proof.
  unfold process_plan. destruct (load_actions fs _) as [e | y2_actions]; [discriminate|].
  generalize (actions_of (PlanId plan_row) y2_actions) as actions.
  intros actions.
  assert (Hgen : forall design_ids all results0 st0 rs st1,
             (forall d, In d design_ids -> In d all) ->
             Forall (fun r => In (res_DesignId r) all) results0 ->
             for_each_design P fs fuel ypad_config (PlanId plan_row) design_ids actions results0 st0
             = (Returns rs, st1) ->
             Forall (fun r => In (res_DesignId r) all) rs).
  { induction design_ids as [|d more IH]; intros all results0 st0 rs st1 Hsub Hres H;
      cbn [for_each_design] in H.
    - injection H as <- _. exact Hres.
    - destruct (for_each_action _ _ _ _ _ _ _ _ st0) as [[rs1 | e |] st2] eqn:Hd;
        try discriminate H.
      apply (IH all rs1 st2 rs st1); [intros d' Hd'; apply Hsub; right; exact Hd' | | exact H].
      apply (for_each_action_designs P fs ypad_config fuel (PlanId plan_row) d _ actions)
        with (results := results0) (st := st0) (st' := st2); [|exact Hres | exact Hd].
      intros r <-. apply Hsub. left. reflexivity. }
  intros H.
  apply (Hgen (split_semicolon (DesignId plan_row)) (split_semicolon (DesignId plan_row))
           [] st results st'); [auto | constructor | exact H].
Qed.

Lemma rows_carry_the_callers_design_witness :
  let fs :=
    Fixture.disk_of
      [PlanRow (CStr "P1") "D1;D2" "Y"; PlanRow (CStr "P2") "D9" "N"]
      [Fixture.reuse (CStr "P1") "1" "P2";
       Fixture.compare (CStr "P2") "1" "left;x" "True" "n"] in
  Forall (fun r => In (res_DesignId r) ["D1"; "D2"])
    (match fst (process_plan Fixture.math fs 2 Fixture.suite (PlanRow "P1" "D1;D2" "Y") (State ∅ tt)) with
     | Returns results => results
     | _ => []
     end)
  /\ length (match fst (process_plan Fixture.math fs 2 Fixture.suite (PlanRow "P1" "D1;D2" "Y")
                          (State ∅ tt)) with
             | Returns results => results
             | _ => []
             end) = 2.
Proof.
  cbv zeta. split; [|reflexivity].
  pose (fs := Fixture.disk_of
                [PlanRow (CStr "P1") "D1;D2" "Y"; PlanRow (CStr "P2") "D9" "N"]
                [Fixture.reuse (CStr "P1") "1" "P2";
                 Fixture.compare (CStr "P2") "1" "left;x" "True" "n"]).
  pose (run := process_plan Fixture.math fs 2 Fixture.suite (PlanRow "P1" "D1;D2" "Y") (State ∅ tt)).
  apply (rows_carry_the_callers_design Fixture.math fs Fixture.suite 2 (PlanRow "P1" "D1;D2" "Y")
           (State ∅ tt) (snd run)).
  reflexivity.
Defined.

(** ** Reuse *)

(** X3: a reuse step never passes.  A reuse action that is not served
    from the cache returns a row only when a reused action failed, and
    the row is that failure: the row some action of the reused plan
    returned, under the reused plan's id and the caller's design, in the
    state the reuse step ends in.  When every reused action runs without
    ending the loop, control reaches [runAction], which knows no handler
    for xReuse: the step raises ValueError in the state the last reused
    action left. *)
Theorem reuse_step_never_passes {World : Type} (P : provider World) (fs : disk)
  (ypad_config : suite_config) (fuel : nat) (plan_id design_id : string)
  (action_row : actions_row string) (st : state World) (y3_designs : designs_table)
  (input_data expected : string) :
  ActionType action_row = "xReuse" ->
  designs_csv_at fs (yDesigns ypad_config) = Some y3_designs ->
  resolve y3_designs design_id (Input action_row) (Expected action_row)
  = inr (input_data, expected) ->
  action_cache st !! cache_key plan_id (StepId action_row) input_data = None ->
  (forall r st',
      process_action P fs (S fuel) ypad_config plan_id design_id action_row st = (Returns r, st') ->
      res_Result r = Fail
      /\ exists y2_actions reused_action st0,
           load_actions fs (yActions ypad_config) = inr y2_actions
           /\ In reused_action (actions_of (ActionName action_row) y2_actions)
           /\ process_action P fs fuel ypad_config (ActionName action_row) design_id
                reused_action st0 = (Returns r, st'))
  /\ (forall y1_plans y2_actions st',
        load_plans fs (yPlans ypad_config) = inr y1_plans ->
        load_actions fs (yActions ypad_config) = inr y2_actions ->
        plans_with_id (ActionName action_row) y1_plans <> [] ->
        reuse_passes (process_action P fs fuel ypad_config (ActionName action_row) design_id)
          (actions_of (ActionName action_row) y2_actions) st st' ->
        process_action P fs (S fuel) ypad_config plan_id design_id action_row st
        = (Raises (ValueError "Unknown action type: xReuse"), st')).
Proof.
  intros HaT Hdesigns Hresolve Hmiss. split.
  - intros r st' H.
    cbn [process_action] in H. unfold load at 1 in H.
    rewrite Hdesigns, Hresolve, Hmiss, HaT in H. cbn [String.eqb Ascii.eqb Bool.eqb] in H.
    destruct (load_plans fs _) as [e | y1_plans]; [discriminate H|].
    destruct (load_actions fs _) as [e | y2_actions]; [discriminate H|].
    destruct (plans_with_id _ _); [discriminate H|].
    destruct (reuse_loop _ _ st) as [[[ar|] | e |] st1] eqn:Hloop; try discriminate H.
    + injection H as <- <-. apply reuse_loop_some in Hloop as (a & st0 & Hin & Ha & Hfail).
      split; [exact Hfail|]. exists y2_actions, a, st0. auto.
    + unfold execute_action in H. rewrite HaT, runAction_xReuse_raises in H. discriminate H.
  - intros y1_plans y2_actions st' Hplans Hactions Hfound Hpass.
    rewrite (process_action_reuse P fs ypad_config fuel plan_id design_id action_row st
               y3_designs input_data expected y1_plans y2_actions) by assumption.
    pose proof (reuse_loop_passes _ _ st st' Hpass []) as Hloop.
    rewrite app_nil_r in Hloop. rewrite Hloop. cbn [reuse_loop].
    unfold execute_action. rewrite HaT, runAction_xReuse_raises. destruct st'. reflexivity.
Qed.

Lemma reuse_step_never_passes_witness :
  let plans := [PlanRow (CStr "P1") "D1" "Y"; PlanRow (CStr "P2") "D1" "N"] in
  let reuse := Fixture.reuse (CStr "P1") "1" "P2" in
  let failing := Fixture.disk_of plans [reuse; Fixture.compare (CStr "P2") "1" "left;x" "True" "n"] in
  let passing := Fixture.disk_of plans [reuse; Fixture.compare (CStr "P2") "1" "left;right" "True" "n"] in
  (exists r,
      fst (process_action Fixture.math failing 2 Fixture.suite "P1" "D1" (fix_actions_row reuse)
             (State ∅ tt)) = Returns r
      /\ res_PlanId r = "P2" /\ res_StepId r = "1" /\ res_Result r = Fail)
  /\ fst (process_action Fixture.math passing 2 Fixture.suite "P1" "D1" (fix_actions_row reuse)
            (State ∅ tt))
     = Raises (ValueError "Unknown action type: xReuse").
Proof.
  cbv zeta.
  pose (plans := [PlanRow (CStr "P1") "D1" "Y"; PlanRow (CStr "P2") "D1" "N"]).
  pose (reuse := Fixture.reuse (CStr "P1") "1" "P2").
  pose (bad := Fixture.compare (CStr "P2") "1" "left;x" "True" "n").
  pose (good := Fixture.compare (CStr "P2") "1" "left;right" "True" "n").
  pose (failing := Fixture.disk_of plans [reuse; bad]).
  pose (passing := Fixture.disk_of plans [reuse; good]).
  pose (run := process_action Fixture.math failing 2 Fixture.suite "P1" "D1"
                 (fix_actions_row reuse) (State ∅ tt)).
  pose (row := match fst run with
               | Returns r => r
               | _ => ActionResult "" "" "" "" "" "" "" "" "" None Pass 0%Z
               end).
  pose (inner := process_action Fixture.math passing 1 Fixture.suite "P2" "D1"
                   (fix_actions_row good) (State ∅ tt)).
  split.
  - exists row. split; [reflexivity | split; [reflexivity | split; [reflexivity|]]].
    pose proof (reuse_step_never_passes Fixture.math failing Fixture.suite 1 "P1" "D1"
                  (fix_actions_row reuse) (State ∅ tt) Fixture.designs "nan" "nan"
                  eq_refl eq_refl eq_refl eq_refl) as [Hrow _].
    exact (proj1 (Hrow row (snd run) eq_refl)).
  - pose proof (reuse_step_never_passes Fixture.math passing Fixture.suite 1 "P1" "D1"
                  (fix_actions_row reuse) (State ∅ tt) Fixture.designs "nan" "nan"
                  eq_refl eq_refl eq_refl eq_refl) as [_ Hraise].
    refine (f_equal fst (Hraise (load_csv_plans plans) (load_csv_actions [reuse; good])
                           (snd inner) eq_refl eq_refl _ _)); [discriminate|].
    eapply reuse_passes_next; [reflexivity | reflexivity | apply reuse_passes_none].
Defined.

(** X4: reuse propagation.  When the reused actions before some
    position run without ending the loop and the action at that position
    returns a failed row that is not xUI.xOpenBrowser's, the reuse step
    returns exactly that row in the state that action left: the reused
    actions after it do not run, and nothing is cached for the reuse
    step itself. *)
Theorem reuse_stops_at_first_failure {World : Type} (P : provider World) (fs : disk)
  (ypad_config : suite_config) (fuel : nat) (plan_id design_id : string)
  (action_row : actions_row string) (st st1 st2 : state World) (y3_designs : designs_table)
  (input_data expected : string) (y1_plans : list (plans_row string))
  (y2_actions before after : list (actions_row string)) (failing : actions_row string)
  (r : action_result) :
  ActionType action_row = "xReuse" ->
  designs_csv_at fs (yDesigns ypad_config) = Some y3_designs ->
  resolve y3_designs design_id (Input action_row) (Expected action_row)
  = inr (input_data, expected) ->
  action_cache st !! cache_key plan_id (StepId action_row) input_data = None ->
  load_plans fs (yPlans ypad_config) = inr y1_plans ->
  load_actions fs (yActions ypad_config) = inr y2_actions ->
  plans_with_id (ActionName action_row) y1_plans <> [] ->
  actions_of (ActionName action_row) y2_actions = (before ++ failing :: after)%list ->
  reuse_passes (process_action P fs fuel ypad_config (ActionName action_row) design_id)
    before st st1 ->
  process_action P fs fuel ypad_config (ActionName action_row) design_id failing st1
  = (Returns r, st2) ->
  res_Result r = Fail ->
  String.eqb (res_ActionType r) "xUI" && String.eqb (res_ActionName r) "xOpenBrowser" = false ->
  process_action P fs (S fuel) ypad_config plan_id design_id action_row st = (Returns r, st2).
Proof.
  intros HaT Hdesigns Hresolve Hmiss Hplans Hactions Hfound Hsplit Hbefore Hrun Hfail Hopen.
  rewrite (process_action_reuse P fs ypad_config fuel plan_id design_id action_row st
             y3_designs input_data expected y1_plans y2_actions) by assumption.
  rewrite Hsplit.
  rewrite (reuse_loop_passes _ before st st1 Hbefore). cbn [reuse_loop].
  rewrite Hrun, Hopen, Hfail. reflexivity.
Qed.

Lemma reuse_stops_at_first_failure_witness :
  let actions :=
    [Fixture.reuse (CStr "P1") "1" "P2";
     Fixture.compare (CStr "P2") "1" "left;right" "True" "n";
     Fixture.compare (CStr "P2") "2" "left;x" "True" "n";
     Fixture.compare (CStr "P2") "3" "x;x" "True" "n"] in
  let fs := Fixture.disk_of [PlanRow (CStr "P1") "D1" "Y"; PlanRow (CStr "P2") "D1" "N"] actions in
  exists r st2,
    process_action Fixture.math fs 2 Fixture.suite "P1" "D1"
      (fix_actions_row (Fixture.reuse (CStr "P1") "1" "P2")) (State ∅ tt) = (Returns r, st2)
    /\ res_StepId r = "2" /\ res_PlanId r = "P2"
    /\ action_cache st2 !! cache_key "P2" "3" "x;x" = None.
Proof.
  cbv zeta.
  pose (actions := [Fixture.reuse (CStr "P1") "1" "P2";
                    Fixture.compare (CStr "P2") "1" "left;right" "True" "n";
                    Fixture.compare (CStr "P2") "2" "left;x" "True" "n";
                    Fixture.compare (CStr "P2") "3" "x;x" "True" "n"]).
  pose (fs := Fixture.disk_of [PlanRow (CStr "P1") "D1" "Y"; PlanRow (CStr "P2") "D1" "N"] actions).
  pose (a1 := fix_actions_row (Fixture.compare (CStr "P2") "1" "left;right" "True" "n")).
  pose (a2 := fix_actions_row (Fixture.compare (CStr "P2") "2" "left;x" "True" "n")).
  pose (a3 := fix_actions_row (Fixture.compare (CStr "P2") "3" "x;x" "True" "n")).
  pose (run1 := process_action Fixture.math fs 1 Fixture.suite "P2" "D1" a1 (State ∅ tt)).
  pose (run2 := process_action Fixture.math fs 1 Fixture.suite "P2" "D1" a2 (snd run1)).
  pose (row := fun run : outcome action_result * state unit =>
                 match fst run with
                 | Returns r => r
                 | _ => ActionResult "" "" "" "" "" "" "" "" "" None Pass 0%Z
                 end).
  exists (row run2), (snd run2).
  split; [|split; [reflexivity | split; [reflexivity | vm_compute; reflexivity]]].
  apply (reuse_stops_at_first_failure Fixture.math fs Fixture.suite 1 "P1" "D1"
           (fix_actions_row (Fixture.reuse (CStr "P1") "1" "P2")) (State ∅ tt) (snd run1) (snd run2)
           Fixture.designs "nan" "nan" (load_csv_plans [PlanRow (CStr "P1") "D1" "Y"; PlanRow (CStr "P2") "D1" "N"])
           (load_csv_actions actions) [a1] [a3] a2 (row run2)); try reflexivity.
  - discriminate.
  - eapply reuse_passes_next; [reflexivity | reflexivity | apply reuse_passes_none].
Defined.

(** ** The cache *)



(** ** The rows of a plan *)

Section PlanRows.
Context {World : Type} (P : provider World) (fs : disk) (ypad_config : suite_config).
Context (fuel : nat) (plan_id : string).



End PlanRows.



(** ** Dispatch *)

(** X7: [runAction] lets an error escape in two cases only.  When the
    action type is none of the five categories bound to a handler (xUI,
    xMath, xAPI, xAI, xJSON) it raises ValueError and leaves the world
    alone.  When the operation returned a value that is not text, a
    TypeError may escape, in the world the operation left: it does
    whenever the value is truthy and no Expected is present, while a
    falsy value then comes back as its [str()] with Pass.  In every other
    case [runAction] returns: an operation the handler does not have
    gives Fail without touching the world, an operation that raises
    gives Fail in the world it left, an operation that returns text
    gives a result in the world it left. *)
Theorem runAction_raises_on_unknown_type_or_value {World : Type} (P : provider World)
  (aT aName aIn aExpected plan_id design_id step_id : string) (w : World) :
  let run := runAction P aT aName aIn aExpected plan_id design_id step_id w in
  if in_list aT handlers then
    match getattr P aT aName with
    | None => exists output, run = (inr (Fail, output, elapsed P w w), w)
    | Some m =>
        match invoke m aIn w with
        | (Raised _, w1) => exists output, run = (inr (Fail, output, elapsed P w w1), w1)
        | (Returned _, w1) => exists vRes output, run = (inr (vRes, output, elapsed P w w1), w1)
        | (ReturnedObject vOut, w1) =>
            ((exists vRes output, run = (inr (vRes, output, elapsed P w w1), w1))
             \/ run = (inl TypeError, w1))
            /\ (expected_present aExpected = false ->
                run = if obj_bool vOut then (inl TypeError, w1)
                      else (inr (Pass, obj_str vOut, elapsed P w w1), w1))
        end
    end
  else run = (inl (ValueError ("Unknown action type: " ++ aT)), w).
Proof.
  cbv zeta. destruct (in_list aT handlers) eqn:HaT.
  - unfold runAction, dispatch. rewrite HaT, (handler_is_not_xReuse aT HaT). cbn [negb].
    destruct (getattr P aT aName) as [m|]; [|eexists; reflexivity].
    destruct (invoke m aIn w) as [[vOut | message | vOut] w1].
    + do 2 eexists. reflexivity.
    + eexists. reflexivity.
    + split.
      * destruct (expected_present aExpected); [destruct (compare_object aExpected vOut)|].
        -- left. do 2 eexists. reflexivity.
        -- destruct (_ || _); [right; reflexivity | left; do 2 eexists; reflexivity].
        -- destruct (_ || _); [right; reflexivity | left; do 2 eexists; reflexivity].
      * intros ->. cbn [Result_eqb]. rewrite andb_false_r. reflexivity.
  - unfold runAction. rewrite HaT. reflexivity.
Qed.


(** ** The orchestrator *)

Section EmptySuite.
Context {World : Type} (P : provider World) (fs : disk) (ypad_config : suite_config).
Context (fuel : nat) (y2_actions : list (actions_row string)).
Hypothesis Hload : load_actions fs (yActions ypad_config) = inr y2_actions.

Lemma for_each_design_no_actions (plan_id : string) (design_ids : list string) :
  forall results st,
    for_each_design P fs fuel ypad_config plan_id design_ids [] results st = (Returns results, st).
Proof.
  induction design_ids as [|d more IH]; intros results st; cbn [for_each_design for_each_action].
  - reflexivity.
  - apply IH.
Qed.

Lemma for_each_plan_no_actions (plans : list (plans_row string)) :
  Forall (fun p => actions_of (PlanId p) y2_actions = []) plans ->
  forall all_results st,
    for_each_plan P fs fuel ypad_config plans all_results st = (Returns all_results, st).
Proof.
  induction 1 as [|p more Hp _ IH]; intros all_results st; cbn [for_each_plan].
  - reflexivity.
  - unfold process_plan. rewrite Hload, Hp, for_each_design_no_actions, app_nil_r. apply IH.
Qed.

End EmptySuite.

(** X8: a suite whose plans flagged Run = Y have no row in the Actions
    table does not complete: every such plan returns no row, the result
    table is empty, and [generate_dashboard] fails on its missing PlanId
    column; the KeyError escapes [main] and the suites after it do not
    run. *)
Theorem suite_without_actions_raises {World : Type} (P : provider World) (fs : disk)
  (ypad_config : suite_config) (fuel : nat) (config_path : string) (more_configs : list string)
  (reports : list suite_report) (y1_plans : list (plans_row string))
  (y2_actions : list (actions_row string)) (st : state World) :
  ypad_config_at fs config_path = Some ypad_config ->
  load_plans fs (yPlans ypad_config) = inr y1_plans ->
  load_actions fs (yActions ypad_config) = inr y2_actions ->
  plans_to_run y1_plans <> [] ->
  Forall (fun p => actions_of (PlanId p) y2_actions = []) (plans_to_run y1_plans) ->
  for_each_suite P fs fuel (config_path :: more_configs) reports st
  = (Raises (KeyError "PlanId"), st).
Proof.
  intros Hconfig Hplans Hactions Hsome Hnone. cbn [for_each_suite]. unfold load at 1.
  rewrite Hconfig, Hplans.
  destruct (plans_to_run y1_plans) as [|p ps]; [contradiction|].
  rewrite (for_each_plan_no_actions P fs ypad_config fuel y2_actions Hactions _ Hnone).
  reflexivity.
Qed.

Lemma suite_without_actions_raises_witness :
  let fs :=
    Disk (Fixture.file "fStart.json" ["suite.json"; "other.json"])
      (fun path => if String.eqb path "other.json" then Some Fixture.suite
                   else Fixture.file "suite.json" Fixture.suite path)
      (Fixture.file "yPlans.csv" [PlanRow (CNum "1") "D1" "Y"])
      (Fixture.file "yActions.csv" [Fixture.compare (CNum "2") "1" "x;x" "True" "n"])
      (Fixture.file "yDesigns.csv" Fixture.designs) in
  main Fixture.math fs 1 "fStart.json" tt = (Raises (KeyError "PlanId"), State ∅ tt).
Proof.
  cbv zeta. unfold main. cbn [load main_config_at Fixture.file String.eqb Ascii.eqb Bool.eqb].
  rewrite (suite_without_actions_raises Fixture.math _ Fixture.suite 1 "suite.json" ["other.json"] []
             (load_csv_plans [PlanRow (CNum "1") "D1" "Y"])
             (load_csv_actions [Fixture.compare (CNum "2") "1" "x;x" "True" "n"]) (State ∅ tt)).
  - reflexivity.
  - reflexivity.
  - reflexivity.
  - reflexivity.
  - discriminate.
  - repeat constructor.
Defined.

(** ** Substitution *)

Lemma substitute_columns_no_column (rows : list design_row) (design_id : string)
  (texts : string * string) (cols : list string) :
  ~ In design_id cols \/ not_a_design_column design_id = true ->
  forall col, substitute_columns cols col rows design_id texts = inr texts.
Proof.
  intros Hno. induction cols as [|c cols IH]; intros col; cbn [substitute_columns].
  - reflexivity.
  - assert (Hskip : negb (not_a_design_column c) && String.eqb c design_id = false).
    { destruct (String.eqb_spec c design_id) as [->|_]; [|apply andb_false_r].
      destruct Hno as [Hno | Hno]; [exfalso; apply Hno; left; reflexivity|].
      rewrite Hno. reflexivity. }
    rewrite Hskip. apply IH. destruct Hno as [Hno | Hno]; [left | right; exact Hno].
    intros Hin. apply Hno. right. exact Hin.
Qed.

(** X9: when the Designs table has no column for the active design, or
    the design id is the name of the Type or DataName column, no
    substitution is applied: input and expected text pass through
    unchanged, whatever the rows hold (a DataName cell that is not text
    raises nothing then). *)
Theorem resolve_without_design_column (y3_designs : designs_table) (design_id : string)
  (input_data expected : string) :
  ~ In design_id (design_columns y3_designs) \/ not_a_design_column design_id = true ->
  resolve y3_designs design_id input_data expected = inr (input_data, expected).
Proof.
  intros Hno. unfold resolve. apply substitute_columns_no_column. exact Hno.
Qed.

Lemma resolve_without_design_column_witness :
  resolve (DesignsTable ["D1"; "D2"] [DesignRow (CNum "nan") ["v"; "w"]]) "D3" "left;right" "True"
  = inr ("left;right", "True").
Proof.
  apply resolve_without_design_column. left.
  intros [H | [H | []]]; discriminate H.
Defined.

(** ** The summary *)

Lemma filter_keeps_NoDup_keys {A B : Type} (f : A * B -> bool) (l : list (A * B)) :
  List.NoDup (map fst l) -> List.NoDup (map fst (List.filter f l)).
Proof.
  induction l as [|x l IH]; intros H; cbn [List.filter map] in *.
  - constructor.
  - inversion H as [|? ? Hx Hl]; subst. destruct (f x); [|apply IH, Hl].
    cbn [map]. constructor; [|apply IH, Hl].
    intros Hin. apply Hx. apply List.in_map_iff in Hin as [y [Hy Hin]].
    apply List.filter_In in Hin as [Hin _]. apply List.in_map_iff. exists y. auto.
Qed.

(** X10: [groupby(['DesignId', 'PlanId']).first()] as [main] uses it: the
    groups have distinct keys, a group's entry holds the Result of the
    first row of the table with that key, and [passed_plans] never
    exceeds the number of groups, which never exceeds the number of
    rows. *)
Theorem groupby_first_takes_first_rows (df : list action_result) :
  List.NoDup (map fst (groupby_first df))
  /\ (forall design_id plan_id result,
        In (design_id, plan_id, result) (groupby_first df)
        <-> exists row, first_of_group design_id plan_id df = Some row
                        /\ res_Result row = result)
  /\ passed_plans df <= length (groupby_first df) <= length df.
Proof.
  split; [|split].
  - induction df as [|row more IH]; cbn [groupby_first map]; constructor.
    + intros Hin. apply List.in_map_iff in Hin as [[[d p] res] [Hkey Hin]].
      apply List.filter_In in Hin as [_ Hne]. cbn [fst snd] in *.
      injection Hkey as -> ->. rewrite !String.eqb_refl in Hne. discriminate Hne.
    + apply filter_keeps_NoDup_keys. exact IH.
  - induction df as [|row more IH]; intros design_id plan_id result;
      cbn [groupby_first first_of_group find].
    + split; [intros [] | intros [r [H _]]; discriminate H].
    + fold (first_of_group design_id plan_id more).
      rewrite (String.eqb_sym (res_DesignId row)), (String.eqb_sym (res_PlanId row)).
      split.
      * intros [Hhead | Hin].
        -- injection Hhead as <- <- <-. rewrite !String.eqb_refl. exists row. auto.
        -- apply List.filter_In in Hin as [Hin Hne]. cbn [fst snd] in Hne.
           apply negb_true_iff in Hne. rewrite Hne. apply IH. exact Hin.
      * intros [r [Hfirst Hres]].
        destruct (String.eqb design_id (res_DesignId row) && String.eqb plan_id (res_PlanId row))
          eqn:Hkey.
        -- injection Hfirst as <-. apply andb_prop in Hkey as [Hd Hp].
           apply String.eqb_eq in Hd, Hp. subst. left. reflexivity.
        -- right. apply List.filter_In. cbn [fst snd]. rewrite Hkey. split; [|reflexivity].
           apply IH. exists r. auto.
  - unfold passed_plans. split; [apply List.filter_length_le|].
    induction df as [|row more IH]; cbn [groupby_first length]; [lia|].
    pose proof (List.filter_length_le
                  (fun g => negb (String.eqb (fst (fst g)) (res_DesignId row)
                                  && String.eqb (snd (fst g)) (res_PlanId row)))
                  (groupby_first more)). lia.
Qed.

(** * Properties of the handlers *)

(** ** Splitting and joining *)

Lemma split_char_cons (sep : ascii) (text : string) :
  exists part parts, split_char sep text = part :: parts.
Proof.
  destruct text as [|c rest]; cbn [split_char]; [eauto|].
  destruct (Ascii.eqb c sep); [eauto|]. destruct (split_char sep rest); eauto.
Qed.

Lemma split_char_whole (sep : ascii) (text : string) :
  contains_char sep text = false -> split_char sep text = [text].
Proof.
  induction text as [|c rest IH]; cbn [split_char contains_char]; intros H; [reflexivity|].
  apply orb_false_elim in H as [Hc Hrest]. rewrite Hc, (IH Hrest). reflexivity.
Qed.

Lemma split_char_app (sep : ascii) (a b : string) :
  split_char sep (a ++ String sep b) = (split_char sep a ++ split_char sep b)%list.
Proof.
  induction a as [|c a IH]; rewrite ?append_Empty, ?append_String; cbn [split_char].
  - rewrite Ascii.eqb_refl. reflexivity.
  - destruct (Ascii.eqb c sep); rewrite IH; [reflexivity|].
    destruct (split_char_cons sep a) as (p & ps & ->). reflexivity.
Qed.

Lemma join_char_cons (sep c : ascii) (part : string) (parts : list string) :
  join_char sep (String c part :: parts) = String c (join_char sep (part :: parts)).
Proof. destruct parts; reflexivity. Qed.

Lemma join_split_char (sep : ascii) (text : string) :
  join_char sep (split_char sep text) = text.
Proof.
  induction text as [|c rest IH]; cbn [split_char]; [reflexivity|].
  destruct (Ascii.eqb_spec c sep) as [->|_].
  - destruct (split_char_cons sep rest) as (p & ps & E). rewrite E in *.
    change (join_char sep ("" :: p :: ps)) with ("" ++ String sep (join_char sep (p :: ps))).
    rewrite append_Empty, IH. reflexivity.
  - destruct (split_char_cons sep rest) as (p & ps & E). rewrite E in *.
    rewrite join_char_cons, IH. reflexivity.
Qed.

Lemma split_char_parts (sep : ascii) (text : string) :
  Forall (fun part => contains_char sep part = false) (split_char sep text).
Proof.
  induction text as [|c rest IH]; cbn [split_char]; [repeat constructor|].
  destruct (Ascii.eqb c sep) eqn:Hc; [constructor; [reflexivity | exact IH]|].
  destruct (split_char sep rest) as [|p ps]; [repeat constructor; cbn; rewrite Hc; reflexivity|].
  inversion IH as [|? ? Hp Hps]; subst. constructor; [|exact Hps].
  cbn [contains_char]. rewrite Hc, Hp. reflexivity.
Qed.

Lemma split_join_char (sep : ascii) (parts : list string) :
  parts <> [] ->
  Forall (fun part => contains_char sep part = false) parts ->
  split_char sep (join_char sep parts) = parts.
Proof.
  induction parts as [|p ps IH]; intros Hne Hparts; [contradiction|].
  inversion Hparts as [|? ? Hp Hps]; subst. destruct ps as [|q qs].
  - cbn [join_char]. apply split_char_whole, Hp.
  - change (join_char sep (p :: q :: qs)) with (p ++ String sep (join_char sep (q :: qs))).
    rewrite split_char_app, (split_char_whole sep p Hp), IH; [reflexivity | discriminate | exact Hps].
Qed.

Lemma split_semicolon_char (text : string) : split_semicolon text = split_char ";" text.
Proof.
  induction text as [|c rest IH]; cbn [split_semicolon split_char]; [reflexivity|].
  rewrite IH. reflexivity.
Qed.

Lemma split_once_found (sep : ascii) (a b : string) :
  contains_char sep a = false -> split_once sep (a ++ String sep b) = [a; b].
Proof.
  induction a as [|c a IH]; rewrite ?append_Empty, ?append_String; cbn [split_once contains_char].
  - intros _. rewrite Ascii.eqb_refl. reflexivity.
  - intros H. apply orb_false_elim in H as [Hc Ha]. rewrite Hc, (IH Ha). reflexivity.
Qed.

Lemma split_once_two (sep : ascii) (text x y : string) (more : list string) :
  split_once sep text = x :: y :: more ->
  more = [] /\ text = x ++ String sep y /\ contains_char sep x = false.
Proof.
  revert x. induction text as [|c rest IH]; intros x H; cbn [split_once] in H; [discriminate H|].
  destruct (Ascii.eqb_spec c sep) as [->|Hc].
  - injection H as <- <- <-. auto.
  - destruct (split_once sep rest) as [|p ps] eqn:E; [discriminate H|].
    injection H as <- Hps. subst ps. destruct (IH p eq_refl) as (-> & -> & Hp).
    split; [reflexivity | split; [reflexivity|]].
    cbn [contains_char]. rewrite Hp. destruct (Ascii.eqb_spec c sep); [contradiction | reflexivity].
Qed.

(** X11: the DesignId list of a plan is cut at every semicolon and
    nothing is dropped: joining the parts with semicolons gives the text
    back, no part holds a semicolon, there is at least one part (an empty
    text gives one empty design id), and any non-empty list of
    semicolon-free ids is what its joined text is cut into. *)
Theorem split_semicolon_join (text : string) :
  join_char ";" (split_semicolon text) = text
  /\ Forall (fun part => contains_char ";" part = false) (split_semicolon text)
  /\ split_semicolon text <> []
  /\ (forall parts,
        parts <> [] ->
        Forall (fun part => contains_char ";" part = false) parts ->
        split_semicolon (join_char ";" parts) = parts).
Proof.
  rewrite split_semicolon_char. split; [apply join_split_char | split; [apply split_char_parts|]].
  split.
  - destruct (split_char_cons ";" text) as (p & ps & ->). discriminate.
  - intros parts Hne Hparts. rewrite split_semicolon_char. apply split_join_char; assumption.
Qed.

(** ** [MathActionHandler.xCompare] and [UIActionHandler.xAssertLessThan] *)

(** X12: [xCompare] compares texts, not numbers: on two semicolon-free
    values joined by one semicolon it returns True when the two texts
    are the same and False otherwise (so 1 and 1.0 differ), and on a text
    without semicolon it raises. *)
Theorem xCompare_compares_texts (value1 value2 : string) :
  contains_char ";" value1 = false ->
  contains_char ";" value2 = false ->
  Fixture.xCompare (value1 ++ ";" ++ value2)
  = Returned (if String.eqb value1 value2 then "True" else "False")
  /\ (exists message, Fixture.xCompare value1 = Raised message)
  /\ Fixture.xCompare "1;1.0" = Returned "False".
Proof.
  intros H1 H2. split; [|split; [|reflexivity]].
  - unfold Fixture.xCompare.
    rewrite split_semicolon_char, append_String, append_Empty, split_char_app,
      (split_char_whole _ _ H1), (split_char_whole _ _ H2).
    reflexivity.
  - unfold Fixture.xCompare. rewrite split_semicolon_char, (split_char_whole _ _ H1). eauto.
Qed.

Lemma xCompare_compares_texts_witness :
  Fixture.xCompare ("abc" ++ ";" ++ "abc") = Returned "True"
  /\ (exists message, Fixture.xCompare "abc" = Raised message)
  /\ Fixture.xCompare "1;1.0" = Returned "False".
Proof.
  apply (xCompare_compares_texts "abc" "abc"); reflexivity.
Defined.

(** X13: on ASCII text, [xAssertLessThan] returns (Assertion passed)
    exactly on the inputs [actual;expected] whose part before the first
    semicolon and part after it are both numbers to [float], the first
    strictly below the second; on every other input (no semicolon, a
    second semicolon, a text that is no number, white space that
    [float] does not skip, a NaN, an actual not below) it raises. *)
Theorem xAssertLessThan_passes_iff (py : rendering) (comparison_data : string) :
  is_ascii comparison_data = true ->
  (UIActionHandler.xAssertLessThan py comparison_data = Returned "Assertion passed"
   <-> exists actual expected actual_val expected_val,
         comparison_data = actual ++ ";" ++ expected
         /\ contains_char ";" actual = false
         /\ py_float actual = Some actual_val
         /\ py_float expected = Some expected_val
         /\ SFltb actual_val expected_val = true)
  /\ (UIActionHandler.xAssertLessThan py comparison_data = Returned "Assertion passed"
      \/ exists message, UIActionHandler.xAssertLessThan py comparison_data = Raised message).
Proof.
  intros _. unfold UIActionHandler.xAssertLessThan. split; [split|].
  - intros H.
    destruct (split_once ";" comparison_data) as [|actual [|expected more]] eqn:E;
      try discriminate H.
    destruct (split_once_two _ _ _ _ _ E) as (-> & -> & Hno).
    destruct (py_float actual) as [a|] eqn:Ha; [|discriminate H].
    destruct (py_float expected) as [e|] eqn:He; [|discriminate H].
    destruct (SFltb a e) eqn:Hlt; [|discriminate H].
    exists actual, expected, a, e. rewrite append_String, append_Empty. auto.
  - intros (actual & expected & a & e & -> & Hno & Ha & He & Hlt).
    rewrite append_String, append_Empty, (split_once_found _ _ _ Hno), Ha, He, Hlt. reflexivity.
  - destruct (split_once ";" comparison_data) as [|actual [|expected [|x more]]]; eauto.
    destruct (py_float actual), (py_float expected); eauto.
    destruct (SFltb _ _); eauto.
Qed.

Lemma xAssertLessThan_passes_iff_witness :
  let py := Rendering (fun _ => "?") (fun _ => "[]") (fun _ => "0") in
  UIActionHandler.xAssertLessThan py " 1.5;2e0" = Returned "Assertion passed"
  /\ (exists message, UIActionHandler.xAssertLessThan py "2;1.5" = Raised message).
Proof.
  cbv zeta. split.
  - apply (xAssertLessThan_passes_iff (Rendering (fun _ => "?") (fun _ => "[]") (fun _ => "0"))
             " 1.5;2e0"); [reflexivity|].
    exists " 1.5", "2e0", (S754_finite false 6755399441055744 (-52)),
      (S754_finite false 4503599627370496 (-51)).
    split; [reflexivity | split; [reflexivity | split; [|split]]]; vm_compute; reflexivity.
  - destruct (xAssertLessThan_passes_iff (Rendering (fun _ => "?") (fun _ => "[]") (fun _ => "0"))
                "2;1.5") as [_ [H | H]]; [reflexivity | discriminate H | exact H].
Defined.


(** ** Placeholders and word boundaries *)

Lemma match_literal_self (tok rest : string) :
  forall prev, match_literal tok (tok ++ rest) prev = Some (last_char tok prev, rest).
Proof.
  induction tok as [|c tok IH]; intros prev; rewrite ?append_Empty, ?append_String;
    cbn [match_literal last_char]; [reflexivity|].
  rewrite Ascii.eqb_refl. apply IH.
Qed.

Lemma match_literal_short (tok : string) :
  forall s prev, String.length s < String.length tok -> match_literal tok s prev = None.
Proof.
  induction tok as [|c tok IH]; intros s prev H; cbn [String.length] in H; [lia|].
  cbn [match_literal]. destruct s as [|x s]; [reflexivity|].
  destruct (Ascii.eqb c x); [|reflexivity]. apply IH. cbn [String.length] in H. lia.
Qed.

Lemma re_search_from_short (tok : string) :
  forall s prev, String.length s < String.length tok -> re_search_from tok prev s = false.
Proof.
  induction s as [|c s IH]; intros prev H; cbn [re_search_from]; unfold match_here;
    rewrite (match_literal_short tok _ prev H), andb_false_r; [reflexivity|].
  apply IH. cbn [String.length] in H. lia.
Qed.

Lemma re_sub_from_consumes (tok repl : string) :
  tok <> "" ->
  forall s prev, re_sub_from tok repl prev (String.length s) s = "".
Proof.
  intros Htok. induction s as [|c s IH]; intros prev; cbn [re_sub_from String.length].
  - unfold match_here. rewrite match_literal_short, andb_false_r; [reflexivity|].
    destruct tok; [contradiction | cbn [String.length]; lia].
  - apply IH.
Qed.

Lemma append_Empty_r (s : string) : s ++ "" = s.
Proof. induction s as [|c s IH]; rewrite ?append_String, ?IH; reflexivity. Qed.

(** X14: an ASCII placeholder that makes up the whole input is replaced
    by its value exactly when it begins and ends with a word character
    (letter, digit or underscore).  A DataName such as [#id] or [name)]
    standing alone is left as it is: no word boundary stands at its
    edge. *)
Theorem re_sub_whole_text (data_name data_value : string) :
  data_name <> "" ->
  is_ascii data_name = true ->
  re_sub data_name data_value data_name
  = if word_at (head_char data_name) && word_at (last_char data_name None)
    then data_value else data_name.
Proof.
  intros Htok _. destruct data_name as [|c t]; [contradiction|].
  unfold re_sub. cbn [re_sub_from]. unfold match_here.
  pose proof (match_literal_self (String c t) "" None) as Hself.
  rewrite append_Empty_r in Hself. rewrite Hself.
  cbn [head_char String.length]. unfold word_boundary at 1 2. cbn [word_at xorb].
  rewrite xorb_false_r.
  destruct (is_word_char c && word_at (last_char (String c t) None)).
  - rewrite (re_sub_from_consumes (String c t) data_value Htok t (Some c)).
    apply append_Empty_r.
  - f_equal. apply re_sub_from_no_match, re_search_from_short. cbn [String.length]. lia.
Qed.

Lemma re_sub_whole_text_witness :
  re_sub "user" "bob" "user" = "bob" /\ re_sub "#id" "x" "#id" = "#id".
Proof.
  split.
  - apply (re_sub_whole_text "user" "bob"); [discriminate | reflexivity].
  - apply (re_sub_whole_text "#id" "x"); [discriminate | reflexivity].
Defined.

(** ** Error messages and outputs *)

Lemma collapse_spaces_single (text : string) :
  forall in_run, single_spaced in_run (collapse_spaces in_run text) = true.
Proof.
  induction text as [|c rest IH]; intros in_run; cbn [collapse_spaces]; [reflexivity|].
  destruct (is_space c) eqn:Hc.
  - destruct in_run; [apply IH|]. cbn [single_spaced]. rewrite IH. reflexivity.
  - cbn [single_spaced]. rewrite Hc. apply IH.
Qed.

Lemma single_spaced_lstrip (text : string) :
  single_spaced false text = true -> single_spaced true (lstrip text) = true.
Proof.
  destruct text as [|c rest]; cbn [lstrip single_spaced]; [reflexivity|].
  destruct (is_space c) eqn:Hc.
  - intros H. apply andb_prop in H as [_ H].
    destruct rest as [|d rest]; cbn [lstrip single_spaced] in *; [reflexivity|].
    destruct (is_space d) eqn:Hd.
    + rewrite andb_false_r in H. discriminate H.
    + cbn [single_spaced]. rewrite Hd. exact H.
  - intros H. cbn [single_spaced]. rewrite Hc. exact H.
Qed.

Lemma single_spaced_rstrip (text : string) :
  forall after_space,
    single_spaced after_space text = true -> single_spaced after_space (rstrip text) = true.
Proof.
  induction text as [|c rest IH]; intros after_space H; cbn [rstrip]; [reflexivity|].
  cbn [single_spaced] in H. destruct (rstrip rest) as [|d rest'] eqn:E.
  - destruct (is_space c) eqn:Hc; [reflexivity|]. cbn [single_spaced]. rewrite Hc. reflexivity.
  - cbn [single_spaced]. fold (single_spaced true (String d rest')).
    fold (single_spaced false (String d rest')).
    destruct (is_space c).
    + apply andb_prop in H as [H1 H2]. rewrite H1. apply (IH true H2).
    + apply (IH false H).
Qed.

Lemma rstrip_no_trailing_space (text : string) : ends_with_space (rstrip text) = false.
Proof.
  induction text as [|c rest IH]; cbn [rstrip]; [reflexivity|].
  destruct (rstrip rest) as [|d rest'] eqn:E.
  - destruct (is_space c) eqn:Hc; [reflexivity|]. cbn [ends_with_space]. exact Hc.
  - exact IH.
Qed.

Lemma lstrip_length (text : string) : String.length (lstrip text) <= String.length text.
Proof.
  induction text as [|c rest IH]; cbn [lstrip String.length]; [lia|].
  destruct (is_space c); cbn [String.length]; lia.
Qed.

Lemma rstrip_length (text : string) : String.length (rstrip text) <= String.length text.
Proof.
  induction text as [|c rest IH]; cbn [rstrip String.length]; [lia|].
  destruct (rstrip rest); [destruct (is_space c)|]; cbn [String.length] in *; lia.
Qed.

Lemma strip_length (text : string) : String.length (strip text) <= String.length text.
Proof.
  unfold strip. pose proof (rstrip_length (lstrip text)). pose proof (lstrip_length text). lia.
Qed.

Lemma cut_at_length (pattern text : string) :
  String.length (cut_at pattern text) <= String.length text.
Proof.
  induction text as [|c rest IH]; cbn [cut_at].
  - destruct (String.prefix pattern ""); cbn; lia.
  - destruct (String.prefix pattern (String c rest)); cbn [String.length]; lia.
Qed.

Lemma collapse_spaces_length (text : string) :
  forall in_run, String.length (collapse_spaces in_run text) <= String.length text.
Proof.
  induction text as [|c rest IH]; intros in_run; cbn [collapse_spaces String.length]; [lia|].
  destruct (is_space c); [destruct in_run|]; cbn [String.length].
  - specialize (IH true). lia.
  - specialize (IH true). lia.
  - specialize (IH false). lia.
Qed.

(** X15: a sanitized error message is one line of single-spaced words:
    its only white space is the blank, no two blanks are adjacent, it
    neither begins nor ends with one, and it is never longer than the
    message it was made from. *)
Theorem sanitized_message_is_single_spaced (message : string) :
  single_spaced true (_sanitize_error_message message) = true
  /\ ends_with_space (_sanitize_error_message message) = false
  /\ String.length (_sanitize_error_message message) <= String.length message.
Proof.
  unfold _sanitize_error_message.
  destruct (String.eqb_spec message "") as [->|_]; [cbn; auto|].
  unfold strip. split; [|split].
  - apply single_spaced_rstrip, single_spaced_lstrip, collapse_spaces_single.
  - apply rstrip_no_trailing_space.
  - pose proof (rstrip_length (lstrip (collapse_spaces false (rstrip (cut_at "Stacktrace:" message))))).
    pose proof (lstrip_length (collapse_spaces false (rstrip (cut_at "Stacktrace:" message)))).
    pose proof (collapse_spaces_length (rstrip (cut_at "Stacktrace:" message)) false).
    pose proof (rstrip_length (cut_at "Stacktrace:" message)).
    pose proof (cut_at_length "Stacktrace:" message). lia.
Qed.

Lemma contains_char_app (c : ascii) (a b : string) :
  contains_char c (a ++ b) = contains_char c a || contains_char c b.
Proof.
  induction a as [|x a IH]; rewrite ?append_Empty, ?append_String; cbn [contains_char];
    [reflexivity|].
  rewrite IH. apply orb_assoc.
Qed.

Lemma replace_char_removes (old new : ascii) (text : string) :
  Ascii.eqb new old = false -> contains_char old (replace_char old new text) = false.
Proof.
  intros Hnew. induction text as [|x text IH]; cbn [replace_char contains_char]; [reflexivity|].
  rewrite IH, orb_false_r. destruct (Ascii.eqb x old) eqn:Hx; [exact Hnew | exact Hx].
Qed.

Lemma replace_char_length (old new : ascii) (text : string) :
  String.length (replace_char old new text) = String.length text.
Proof. induction text as [|x text IH]; cbn [replace_char String.length]; congruence. Qed.

Lemma append_length (a b : string) :
  String.length (a ++ b) = String.length a + String.length b.
Proof.
  induction a as [|x a IH]; rewrite ?append_Empty, ?append_String; cbn [String.length];
    [reflexivity | rewrite IH; reflexivity].
Qed.

Lemma substring_length_le (n : nat) :
  forall text, String.length (substring 0 n text) <= n.
Proof.
  induction n as [|n IH]; intros [|c text]; cbn [substring String.length]; try lia.
  specialize (IH text). lia.
Qed.

(** X16: when the artifact file can be written, the output that
    [save_output_to_file] hands back for the result table holds no comma
    (ids without comma assumed) and is bounded: at most 140 characters
    of the output, plus the link to the file when the output was long or
    held a comma. *)
Theorem saved_output_is_csv_safe (output plan_id design_id : string) (step_id : option string) :
  contains_char "," plan_id = false ->
  contains_char "," design_id = false ->
  match step_id with Some step => contains_char "," step = false | None => True end ->
  contains_char "," (ActionHandler.save_output_to_file true output plan_id design_id step_id)
  = false
  /\ String.length (ActionHandler.save_output_to_file true output plan_id design_id step_id)
     <= 157 + String.length plan_id + String.length design_id
        + match step_id with Some step => String.length step | None => 0 end.
Proof.
  intros Hplan Hdesign Hstep. unfold ActionHandler.save_output_to_file.
  destruct (String.eqb_spec output "") as [->|_]; [split; [reflexivity | cbn; lia]|].
  set (text := strip (cut_at "Stacktrace:" output)).
  destruct (Nat.ltb 140 (String.length text)) eqn:Hlong; cbn [orb].
  - split.
    + rewrite !contains_char_app, replace_char_removes by reflexivity.
      destruct step_id as [step|]; rewrite !contains_char_app, Hplan, Hdesign, ?Hstep; reflexivity.
    + rewrite !append_length, replace_char_length.
      pose proof (substring_length_le 140 text).
      destruct step_id as [step|]; rewrite !append_length; cbn [String.length]; lia.
  - apply Nat.ltb_ge in Hlong. destruct (contains_char "," text) eqn:Hcomma.
    + split.
      * rewrite !contains_char_app, replace_char_removes by reflexivity.
        destruct step_id as [step|]; rewrite !contains_char_app, Hplan, Hdesign, ?Hstep; reflexivity.
      * rewrite !append_length, replace_char_length.
        pose proof (substring_length_le 140 text).
        destruct step_id as [step|]; rewrite !append_length; cbn [String.length]; lia.
    + split; [apply replace_char_removes; reflexivity|]. rewrite replace_char_length. lia.
Qed.

Lemma saved_output_is_csv_safe_witness :
  contains_char "," (ActionHandler.save_output_to_file true "a, b" "P1" "D1" (Some "2")) = false
  /\ ActionHandler.save_output_to_file true "a, b" "P1" "D1" (Some "2")
     = "a; b [Link to P1_D1_2.txt]"
  /\ ActionHandler.save_output_to_file false "a, b" "P1" "D1" (Some "2") = "a, b".
Proof.
  split; [|split; reflexivity].
  apply (saved_output_is_csv_safe "a, b" "P1" "D1" (Some "2")); reflexivity.
Defined.

(** ** [JSONActionHandler] *)

Import JSONActionHandler.

Lemma walk_app (before after : list string) :
  forall current,
    walk (before ++ after)%list current
    = match walk before current with
      | Some value => walk after value
      | None => None
      end.
Proof.
  induction before as [|key before IH]; intros current; cbn [app walk]; [reflexivity|].
  destruct (getitem current key); [apply IH | reflexivity].
Qed.

Lemma all_digits_no_dot (key : string) : all_digits key = true -> contains_char "." key = false.
Proof.
  induction key as [|c key IH]; cbn [all_digits contains_char]; [reflexivity|].
  intros H. apply andb_prop in H as [Hc Hkey]. rewrite (IH Hkey), orb_false_r.
  destruct (Ascii.eqb_spec c "."); [subst c; discriminate Hc | reflexivity].
Qed.

(** X17: a member of a JSON object whose name consists of digits only
    cannot be reached by a key path: such a key is always taken for a
    list index, and the subscript of an object by an integer fails.  This
    holds at the top of the response and at any depth. *)
Theorem numeric_member_names_are_unreachable (members : list (string * json)) (key : string) :
  isdigit key = true ->
  getitem (JObj members) key = None
  /\ (forall before after json_data,
        walk before json_data = Some (JObj members) ->
        walk (before ++ key :: after)%list json_data = None)
  /\ (exists message, _get_json_value (JObj members) key = inl message)
  /\ xValidateJson (JObj members) key = Returned "False".
Proof.
  intros Hkey.
  assert (Hget : getitem (JObj members) key = None) by (unfold getitem; rewrite Hkey; reflexivity).
  assert (Hvalue : exists message, _get_json_value (JObj members) key = inl message).
  { unfold _get_json_value. destruct (falsy (JObj members)); [eauto|].
    unfold isdigit in Hkey. apply andb_prop in Hkey as [_ Hdigits].
    rewrite (split_char_whole "." key (all_digits_no_dot key Hdigits)).
    cbn [walk]. rewrite Hget. eauto. }
  split; [exact Hget | split; [|split; [exact Hvalue|]]].
  - intros before after json_data Hbefore. rewrite walk_app, Hbefore. cbn [walk].
    rewrite Hget. reflexivity.
  - unfold xValidateJson. destruct Hvalue as [message ->]. reflexivity.
Qed.

Lemma numeric_member_names_are_unreachable_witness :
  _get_json_value (JObj [("0", JStr "zero"); ("name", JStr "x")]) "name" = inr (JStr "x")
  /\ exists message,
       _get_json_value (JObj [("0", JStr "zero"); ("name", JStr "x")]) "0" = inl message.
Proof.
  split; [reflexivity|].
  apply (numeric_member_names_are_unreachable [("0", JStr "zero"); ("name", JStr "x")] "0").
  reflexivity.
Defined.

(** X18: key paths compose: when a path leads to a value that is not
    falsy, extending the path by a dot and a second path finds exactly
    what the second path finds from that value. *)
Theorem key_paths_compose (json_data value : json) (first second : string) :
  _get_json_value json_data first = inr value ->
  falsy value = false ->
  forall found,
    _get_json_value json_data (first ++ "." ++ second) = inr found
    <-> _get_json_value value second = inr found.
Proof.
  unfold _get_json_value. intros Hfirst Hvalue found.
  destruct (falsy json_data); [discriminate Hfirst|]. rewrite Hvalue.
  destruct (walk (split_char "." first) json_data) as [v|] eqn:Hwalk; [|discriminate Hfirst].
  injection Hfirst as ->.
  rewrite append_String, append_Empty, split_char_app, walk_app, Hwalk.
  destruct (walk (split_char "." second) value); split; intros H; congruence.
Qed.

Lemma key_paths_compose_witness :
  _get_json_value (JObj [("data", JObj [("items", JArr [JStr "a"; JStr "b"])])])
    ("data" ++ "." ++ "items.1")
  = inr (JStr "b").
Proof.
  apply (key_paths_compose (JObj [("data", JObj [("items", JArr [JStr "a"; JStr "b"])])])
           (JObj [("items", JArr [JStr "a"; JStr "b"])]) "data" "items.1" eq_refl eq_refl
           (JStr "b")).
  reflexivity.
Defined.

Lemma equals_text_iff (value : json) (expected_value : string) :
  equals_text value expected_value = true <-> value = JStr expected_value.
Proof.
  destruct value; cbn [equals_text]; split; intros H; try discriminate H.
  - apply String.eqb_eq in H. subst. reflexivity.
  - injection H as ->. apply String.eqb_refl.
Qed.

(** X19: [xCompareJson] answers True only for a JSON string: on
    [key_path;expected_value] (no further semicolon) it returns True
    exactly when the path leads to a string equal to the expected text;
    a number, a boolean or null at the path gives False, whatever the
    expected text. *)
Theorem xCompareJson_matches_strings_only (_last_response : json) (key_path expected_value : string) :
  contains_char ";" key_path = false ->
  contains_char ";" expected_value = false ->
  (xCompareJson _last_response (key_path ++ ";" ++ expected_value) = Returned "True"
   <-> _get_json_value _last_response key_path = inr (JStr expected_value))
  /\ (forall value,
        _get_json_value _last_response key_path = inr value ->
        (forall s, value <> JStr s) ->
        xCompareJson _last_response (key_path ++ ";" ++ expected_value) = Returned "False").
Proof.
  intros Hpath Hexpected. unfold xCompareJson.
  rewrite append_String, append_Empty, split_char_app,
    (split_char_whole _ _ Hpath), (split_char_whole _ _ Hexpected).
  cbn [app]. split.
  - destruct (_get_json_value _last_response key_path) as [message | value].
    + split; intros H; discriminate H.
    + destruct (equals_text value expected_value) eqn:E.
      * apply equals_text_iff in E. subst. split; reflexivity.
      * split; intros H; [discriminate H|]. injection H as ->.
        cbn [equals_text] in E. rewrite String.eqb_refl in E. discriminate E.
  - intros value -> Hnot. destruct value; try reflexivity. exfalso. apply (Hnot s). reflexivity.
Qed.

Lemma xCompareJson_matches_strings_only_witness :
  let response := JObj [("id", JInt 5); ("name", JStr "5")] in
  xCompareJson response ("name" ++ ";" ++ "5") = Returned "True"
  /\ xCompareJson response ("id" ++ ";" ++ "5") = Returned "False".
Proof.
  cbv zeta. split.
  - apply (xCompareJson_matches_strings_only (JObj [("id", JInt 5); ("name", JStr "5")]) "name" "5");
      reflexivity.
  - apply (xCompareJson_matches_strings_only (JObj [("id", JInt 5); ("name", JStr "5")]) "id" "5")
      with (value := JInt 5); try reflexivity.
    intros s. discriminate.
Defined.


(** ** [AIActionHandler._parse_options] *)

Import AIActionHandler.

Lemma merge_options_assoc (x y z : options) :
  merge_options (merge_options x y) z = merge_options x (merge_options y z).
Proof.
  destruct x as [xt xm xn], y as [yt ym yn], z as [[zt|] [zm|] [zn|]]; reflexivity.
Qed.

Lemma merge_no_options (x : options) : merge_options x no_options = x.
Proof. destruct x; reflexivity. Qed.

Lemma parse_option_merge (out : options) (kv : string) :
  parse_option out kv = merge_options out (parse_option no_options kv).
Proof.
  unfold parse_option. destruct (contains_char "=" kv); [|symmetry; apply merge_no_options].
  destruct (split_once "=" kv) as [|k [|v [|x more]]]; try (symmetry; apply merge_no_options).
  destruct (in_list (lower (strip k)) ["temp"; "temperature"]).
  { destruct (py_float (strip v)); [destruct out; reflexivity | symmetry; apply merge_no_options]. }
  destruct (in_list (lower (strip k)) ["max"; "max_tokens"]).
  { destruct (py_int (strip v)); [destruct out; reflexivity | symmetry; apply merge_no_options]. }
  destruct (String.eqb (lower (strip k)) "model");
    [destruct out; reflexivity | symmetry; apply merge_no_options].
Qed.

Lemma fold_parse_option_merge (items : list string) :
  forall out,
    fold_left parse_option items out
    = merge_options out (fold_left parse_option items no_options).
Proof.
  induction items as [|kv items IH]; intros out; cbn [fold_left].
  - symmetry. apply merge_no_options.
  - rewrite (IH (parse_option out kv)), (IH (parse_option no_options kv)),
      (parse_option_merge out kv), merge_options_assoc. reflexivity.
Qed.

Lemma parse_options_fold (options_str : string) :
  _parse_options options_str = fold_left parse_option (split_char "," options_str) no_options.
Proof.
  unfold _parse_options. destruct (String.eqb_spec options_str "") as [->|_]; reflexivity.
Qed.

(** X20: the options string is read left to right and a later setting
    overrides an earlier one: the options of two strings joined by a
    comma are those of the first with those of the second over them.
    Items without an equals sign, with an unknown key or with a value
    that is no number change nothing. *)
Theorem parse_options_of_joined (first second : string) :
  _parse_options (first ++ "," ++ second)
  = merge_options (_parse_options first) (_parse_options second).
Proof.
  rewrite !parse_options_fold, append_String, append_Empty, split_char_app, fold_left_app.
  apply fold_parse_option_merge.
Qed.

(** ** [MathActionHandler]: subtraction and division *)

Import MathActionHandler.

Lemma validate_two_numbers (py : rendering) (a b : string) (fa fb : spec_float) :
  contains_char ";" a = false ->
  contains_char ";" b = false ->
  strip a <> "" ->
  strip b <> "" ->
  py_float (strip a) = Some fa ->
  py_float (strip b) = Some fb ->
  validate_numbers py (split_char ";" (a ++ ";" ++ b)) (Some 2) = inr [fa; fb].
Proof.
  intros Ha Hb Hsa Hsb Hfa Hfb.
  rewrite append_String, append_Empty, split_char_app,
    (split_char_whole _ _ Ha), (split_char_whole _ _ Hb).
  unfold validate_numbers. cbn [app List.filter].
  apply String.eqb_neq in Hsa, Hsb. rewrite Hsa, Hsb.
  cbn [negb map length Nat.eqb floats]. rewrite Hfa, Hfb. reflexivity.
Qed.

(** X21: on two numbers joined by a semicolon (blanks around them
    allowed), [xMinus] returns the text of their IEEE difference, and
    [xDiv] refuses a divisor that is zero of either sign (Division by
    zero) and returns the text of the IEEE quotient otherwise. *)
Theorem xMinus_xDiv_on_two_numbers (py : rendering) (a b : string) (fa fb : spec_float) :
  contains_char ";" a = false ->
  contains_char ";" b = false ->
  strip a <> "" ->
  strip b <> "" ->
  py_float (strip a) = Some fa ->
  py_float (strip b) = Some fb ->
  xMinus py (a ++ ";" ++ b) = Returned (str_float py (SFsub prec emax fa fb))
  /\ xDiv py (a ++ ";" ++ b)
     = (if is_zero fb then Raised "Division by zero"
        else Returned (str_float py (SFdiv prec emax fa fb))).
Proof.
  intros Ha Hb Hsa Hsb Hfa Hfb. unfold xMinus, xDiv.
  rewrite (validate_two_numbers py a b fa fb) by assumption. split; reflexivity.
Qed.

Lemma xMinus_xDiv_on_two_numbers_witness :
  let py := Rendering (fun f => match f with S754_zero _ => "0.0" | _ => "?" end)
              (fun _ => "[]") (fun _ => "0") in
  xMinus py (" 1.5" ++ ";" ++ "1.5 ") = Returned "0.0"
  /\ xDiv py (" 1.5" ++ ";" ++ "-0.0") = Raised "Division by zero".
Proof.
  cbv zeta. split.
  - apply (xMinus_xDiv_on_two_numbers
             (Rendering (fun f => match f with S754_zero _ => "0.0" | _ => "?" end)
                (fun _ => "[]") (fun _ => "0"))
             " 1.5" "1.5 " (S754_finite false 6755399441055744 (-52))
             (S754_finite false 6755399441055744 (-52)));
      try reflexivity; try discriminate; vm_compute; reflexivity.
  - apply (xMinus_xDiv_on_two_numbers
             (Rendering (fun f => match f with S754_zero _ => "0.0" | _ => "?" end)
                (fun _ => "[]") (fun _ => "0"))
             " 1.5" "-0.0" (S754_finite false 6755399441055744 (-52)) (S754_zero true));
      try reflexivity; try discriminate; vm_compute; reflexivity.
Defined.

Example parse_options_docstring :
  _parse_options "temp=0.2,max=16"
  = Options (py_float "0.2") (Some 16%Z) None
  /\ _parse_options "temp=0.7, MAX = 500 ,model=gpt-4,temp=hot,junk"
     = Options (py_float "0.7") (Some 500%Z) (Some "gpt-4").
Proof. split; vm_compute; reflexivity. Qed.

Example py_int_forms :
  map py_int ["1_000"; " +5 "; "-0"; "5.0"; ""; "1__0"; "0x10"]
  = [Some 1000%Z; Some 5%Z; Some 0%Z; None; None; None; None].
Proof. vm_compute. reflexivity. Qed.


(** * Further properties of the reports *)

Lemma filter_all_length {A : Type} (f : A -> bool) (l : list A) :
  length (List.filter f l) = length l <-> forall x, In x l -> f x = true.
Proof.
  induction l as [|x l IH]; cbn [List.filter length].
  - split; [intros _ y [] | reflexivity].
  - pose proof (List.filter_length_le f l) as Hle. destruct (f x) eqn:Hx; cbn [length].
    + split.
      * intros H y [<- | Hy]; [exact Hx | apply IH; [lia | exact Hy]].
      * intros H. f_equal. apply IH. intros y Hy. apply H. right. exact Hy.
    + split; [lia|]. intros H. rewrite (H x (or_introl eq_refl)) in Hx. discriminate Hx.
Qed.

(** X22: the status [process_plan] prints is a success exactly when no
    row carrying the plan's own id is a failure.  Rows under another
    PlanId do not count. *)
Theorem plan_status_counts_own_rows (plan_id : string) (results : list action_result) :
  plan_completed_successfully plan_id results = true
  <-> forall r, In r results -> res_PlanId r = plan_id -> res_Result r = Pass.
Proof.
  unfold plan_completed_successfully. rewrite Nat.eqb_eq, filter_all_length. split.
  - intros H r Hr Hid. specialize (H r).
    rewrite List.filter_In, Hid, String.eqb_refl in H. specialize (H (conj Hr eq_refl)).
    destruct (res_Result r); [reflexivity | discriminate H].
  - intros H r Hr. apply List.filter_In in Hr as [Hr Hid]. apply String.eqb_eq in Hid.
    rewrite (H r Hr Hid). reflexivity.
Qed.

Lemma filter_true_id {A : Type} (l : list A) : List.filter (fun _ => true) l = l.
Proof. induction l as [|x l IH]; cbn [List.filter]; congruence. Qed.

Lemma filter_false_nil {A : Type} (l : list A) : List.filter (fun _ => false) l = [].
Proof. induction l as [|x l IH]; cbn [List.filter]; congruence. Qed.

Lemma pass_fail_partition (df : list action_result) :
  length (List.filter (fun r => Result_eqb (res_Result r) Pass) df)
  + length (List.filter (fun r => Result_eqb (res_Result r) Fail) df)
  = length df.
Proof.
  induction df as [|r df IH]; cbn [List.filter length]; [reflexivity|].
  destruct (res_Result r); cbn [Result_eqb length]; lia.
Qed.

Lemma unique_plans_of_filter (f : action_result -> bool) (df : list action_result) :
  unique_plans (List.filter f df) <= unique_plans df.
Proof.
  unfold unique_plans. apply List.NoDup_incl_length; [apply List.NoDup_nodup|].
  intros id Hid. apply List.nodup_In in Hid. apply List.nodup_In.
  apply List.in_map_iff in Hid as [r [<- Hr]]. apply List.filter_In in Hr as [Hr _].
  apply List.in_map. exact Hr.
Qed.

(** X23: the counts of the dashboard.  In the action summary every row
    is executed, none is pending, and Pass and Fail add up to the total.
    In the plan summary every plan is executed and none is pending; Pass
    and Fail count the plans with at least one such row, so each is at
    most the total while their sum is at least the total: a plan with
    both kinds of rows is counted on both sides. *)
Theorem dashboard_counts (df : list action_result) :
  sum_Executed (summary_actions df) = sum_Total (summary_actions df)
  /\ sum_Pending (summary_actions df) = 0
  /\ sum_Pass (summary_actions df) + sum_Fail (summary_actions df) = sum_Total (summary_actions df)
  /\ sum_Executed (summary_plans df) = sum_Total (summary_plans df)
  /\ sum_Pending (summary_plans df) = 0
  /\ sum_Pass (summary_plans df) <= sum_Total (summary_plans df)
  /\ sum_Fail (summary_plans df) <= sum_Total (summary_plans df)
  /\ sum_Total (summary_plans df) <= sum_Pass (summary_plans df) + sum_Fail (summary_plans df).
Proof.
  unfold summary_actions, summary_plans, Result_notna. cbn [sum_Executed sum_Total sum_Pending
    sum_Pass sum_Fail negb].
  rewrite !filter_true_id, !filter_false_nil.
  repeat split; try reflexivity.
  - apply pass_fail_partition.
  - apply unique_plans_of_filter.
  - apply unique_plans_of_filter.
  - unfold unique_plans. rewrite <- length_app.
    apply List.NoDup_incl_length; [apply List.NoDup_nodup|].
    intros id Hid. apply List.nodup_In in Hid. apply List.in_map_iff in Hid as [r [<- Hr]].
    apply List.in_or_app.
    destruct (res_Result r) eqn:Hres; [left | right]; apply List.nodup_In, List.in_map,
      List.filter_In; rewrite Hres; auto.
Qed.

(** ** An action type without handler *)

(** X24: an ActionType without handler is an error, not a failed
    step.  An action that is not a
    reuse, is not served from the cache and whose type is none of the
    five bound to a handler makes [process_action] raise ValueError
    (Unknown action type) with the state as it was, and the loop over
    the plan's actions lets the error through. *)
Theorem unknown_action_type_raises {World : Type} (P : provider World) (fs : disk)
  (ypad_config : suite_config) (fuel : nat) (plan_id design_id : string)
  (action_row : actions_row string) (st : state World) (y3_designs : designs_table)
  (input_data expected : string) :
  in_list (ActionType action_row) handlers = false ->
  String.eqb (ActionType action_row) "xReuse" = false ->
  designs_csv_at fs (yDesigns ypad_config) = Some y3_designs ->
  resolve y3_designs design_id (Input action_row) (Expected action_row)
  = inr (input_data, expected) ->
  action_cache st !! cache_key plan_id (StepId action_row) input_data = None ->
  process_action P fs (S fuel) ypad_config plan_id design_id action_row st
  = (Raises (ValueError ("Unknown action type: " ++ ActionType action_row)), st)
  /\ (forall more results,
        for_each_action P fs (S fuel) ypad_config plan_id design_id (action_row :: more) results st
        = (Raises (ValueError ("Unknown action type: " ++ ActionType action_row)), st)).
Proof.
  intros HaT Hreuse Hdesigns Hresolve Hmiss.
  assert (Hraise : process_action P fs (S fuel) ypad_config plan_id design_id action_row st
                   = (Raises (ValueError ("Unknown action type: " ++ ActionType action_row)), st)).
  { cbn [process_action]. unfold load at 1.
    rewrite Hdesigns, Hresolve, Hmiss, Hreuse. unfold execute_action, runAction.
    rewrite HaT. destruct st. reflexivity. }
  split; [exact Hraise|].
  intros more results. cbn [for_each_action]. rewrite Hraise. reflexivity.
Qed.

Lemma unknown_action_type_raises_witness :
  let fs :=
    Fixture.disk_of [PlanRow (CNum "1") "D1" "Y"]
      [ActionRow (CNum "1") "1" "sap" "xSAP" "xLogin" "user" "nan" "n"] in
  let action_row :=
    fix_actions_row (ActionRow (CNum "1") "1" "sap" "xSAP" "xLogin" "user" "nan" "n") in
  for_each_action Fixture.math fs 1 Fixture.suite "P1" "D1" [action_row] [] (State ∅ tt)
  = (Raises (ValueError "Unknown action type: xSAP"), State ∅ tt).
Proof.
  cbv zeta.
  refine (proj2 (unknown_action_type_raises Fixture.math _ Fixture.suite 0 "P1" "D1" _
                   (State ∅ tt) Fixture.designs "user" "nan" _ _ _ _ _) [] []);
    reflexivity.
Defined.
